(** * News sentiment pipeline: analysis, aggregation and translation

    A shallow embedding of [utils/gemini_service.py] (class [GeminiService]),
    [utils/text_to_speech.py] (the Gemini-only [TextToSpeechService]) and
    [utils/.ipynb_checkpoints/text_to_speech-checkpoint.py] (the multi-backend
    [TextToSpeechService]), then of their callers: [utils/news_scraper.py]
    (class [NewsScraper]), the audio generation of the two speech services,
    the endpoints of [api.py], the batch processor of
    [.ipynb_checkpoints/cron-checkpoint.py] and what [app.py] reads from the
    data of a company.  The properties follow: the analysis and aggregation
    pipeline, the retrying call wrapper, the two translation operations, then
    the scraper, the audio generation, the endpoints, the batch processor and
    the dashboard.

    Conventions of the embedding.
    - A Python [str] is a [string]; one [ascii] stands for one character.
    - A value produced by [json.loads] is a [json]; a Python [dict] keeps its
      insertion order and is an association list with unique keys.
    - JSON numbers are exact rationals ([Qc]); the comparisons of the service
      are against constants that binary floating point represents exactly
      (1.5, 2.5, 3.5, 4.5), those of the batch processor (3.7, 2.7) are taken
      for the decimal numbers that they write; rounding in sums and the
      non-finite floats are not modelled.
    - Every effect goes through an explicit state: for the services the
      [world], the chronological trace of outbound calls and sleeps and the
      two cache directories; for the scraper the pages requested, the sleeps
      and the draws of the [random] module; for the file system and the
      other programs the actions done, oldest first.
    - What the code gets from outside (the replies of the services, the
      pages and their parsing, the random draws, the success of an action on
      the file system) is a field of a class, so that a statement holds for
      every behaviour of it.
    - A service that answers, answers a text; it fails with a message,
      either in the call or, for a client that a method imports, in the
      import.  [json.loads] fails with the exception that it raises.
    - An exception is a value of [exn]; a stateful method is a function from
      a state to a result and a state.  Logging is not modelled. *)

From Stdlib Require Import QArith Qcanon.
From stdpp Require Import gmap strings list fin_maps pretty.
From Equations Require Import Equations.

Local Open Scope string_scope.

(** ** Python string operations *)

Module PyStr.

(** [s[:n]] *)
Fixpoint take (n : nat) (s : string) : string :=
  match n, s with
  | S n', String c s' => String c (take n' s')
  | _, _ => EmptyString
  end.

(** [s[n:]] *)
Fixpoint drop (n : nat) (s : string) : string :=
  match n, s with
  | S n', String _ s' => drop n' s'
  | _, _ => s
  end.

(** [s[i:j]] for [0 <= i], [0 <= j] *)
Definition slice (i j : nat) (s : string) : string := take (j - i) (drop i s).

(** [s.startswith(p)] *)
Fixpoint startswith (p s : string) : bool :=
  match p, s with
  | EmptyString, _ => true
  | String a p', String b s' => bool_decide (a = b) && startswith p' s'
  | String _ _, EmptyString => false
  end.

(** [needle in hay] *)
Fixpoint contains (needle hay : string) : bool :=
  startswith needle hay ||
  match hay with
  | EmptyString => false
  | String _ hay' => contains needle hay'
  end.

(** [s.split(sep)] for a non-empty [sep]: [skip] characters of a separator
    just recognised remain to be dropped, [cur] is the current piece,
    most recent character first. *)
Fixpoint split_aux (sep : string) (skip : nat) (cur : string) (s : string)
  : list string :=
  match s with
  | EmptyString => [String.rev cur]
  | String c s' =>
      match skip with
      | S k => split_aux sep k cur s'
      | O =>
          if startswith sep s
          then String.rev cur :: split_aux sep (String.length sep - 1) EmptyString s'
          else split_aux sep 0 (String c cur) s'
      end
  end.

Definition split (sep s : string) : list string := split_aux sep 0 EmptyString s.

(** [l[i]] on a list of strings known to be long enough *)
Definition item (i : nat) (l : list string) : string := nth i l EmptyString.

(** [c.isspace()] for the characters below 256 *)
Definition isspace (c : Ascii.ascii) : bool :=
  let n := Ascii.nat_of_ascii c in
  (((9 <=? n) && (n <=? 13)) || ((28 <=? n) && (n <=? 32))
   || (n =? 133) || (n =? 160))%nat.

Fixpoint lstrip (s : string) : string :=
  match s with
  | String c s' => if isspace c then lstrip s' else s
  | EmptyString => EmptyString
  end.

(** [s.strip()] *)
Definition strip (s : string) : string :=
  String.rev (lstrip (String.rev (lstrip s))).

(** [sep.join(l)] *)
Fixpoint join (sep : string) (l : list string) : string :=
  match l with
  | [] => EmptyString
  | [x] => x
  | x :: l' => x ++ sep ++ join sep l'
  end.

(** [str(n)] for a non-negative [int] *)
Definition of_nat (n : nat) : string := pretty n.

(** the characters of a string, each as a one-character string: what
    iterating over a [str] yields *)
Fixpoint chars (s : string) : list string :=
  match s with
  | EmptyString => []
  | String c s' => String c EmptyString :: chars s'
  end.

(** [s * n] *)
Fixpoint repeat (s : string) (n : nat) : string :=
  match n with
  | O => EmptyString
  | S n' => s ++ repeat s n'
  end.

(** [s.split()]: the maximal runs of characters that are not whitespace;
    [cur] is the current run, most recent character first *)
Fixpoint words_aux (cur : string) (s : string) : list string :=
  match s with
  | EmptyString =>
      if bool_decide (cur = EmptyString) then [] else [String.rev cur]
  | String c s' =>
      if isspace c
      then (if bool_decide (cur = EmptyString) then [] else [String.rev cur])
           ++ words_aux EmptyString s'
      else words_aux (String c cur) s'
  end.

Definition words (s : string) : list string := words_aux EmptyString s.

(** [c.lower()] for the characters below 256 *)
Definition lower_char (c : Ascii.ascii) : Ascii.ascii :=
  let n := Ascii.nat_of_ascii c in
  if (((65 <=? n) && (n <=? 90))
      || ((192 <=? n) && (n <=? 222) && negb (n =? 215)))%nat
  then Ascii.ascii_of_nat (n + 32) else c.

(** [s.lower()] *)
Fixpoint lower (s : string) : string :=
  match s with
  | EmptyString => EmptyString
  | String c s' => String (lower_char c) (lower s')
  end.

(** [s.replace(old, new)] for a non-empty [old]: [skip] characters of an
    occurrence just replaced remain to be dropped *)
Fixpoint replace_aux (old new : string) (skip : nat) (s : string) : string :=
  match s with
  | EmptyString => EmptyString
  | String c s' =>
      match skip with
      | S k => replace_aux old new k s'
      | O =>
          if startswith old s
          then new ++ replace_aux old new (String.length old - 1) s'
          else String c (replace_aux old new 0 s')
      end
  end.

Definition replace (old new s : string) : string := replace_aux old new 0 s.

End PyStr.

(** The double quote, which the prompts contain. *)
Definition dq : string := String (Ascii.ascii_of_nat 34) EmptyString.
(** The newline. *)
Definition nl : string := String (Ascii.ascii_of_nat 10) EmptyString.

(** ** Values, exceptions and results *)

(** What [json.loads] produces (and [json.dump] accepts). *)
#[warnings="-register-all"] Inductive json : Type :=
| JNull
| JBool (b : bool)
| JNum (q : Qc)
| JStr (s : string)
| JArr (l : list json)
| JObj (m : list (string * json)).

(** Python exceptions.  [ApiError msg] is whatever the model client raises,
    with [str(e) = msg]; [TypeError] stands for the dynamic typing errors
    ([TypeError], and the [KeyError] of indexing a dict with a slice). *)
Inductive exn : Type :=
| ApiError (msg : string)
| TypeError
| AttributeError
| JSONDecodeError
| Exception (msg : string).

Inductive exc (A : Type) : Type :=
| Return (a : A)
| Raise (e : exn).
Arguments Return {A} a.
Arguments Raise {A} e.

#[global] Instance exc_ret : MRet exc := fun A a => Return a.
#[global] Instance exc_bind : MBind exc := fun A B k r =>
  match r with
  | Return a => k a
  | Raise e => Raise e
  end.

(** ** Python dicts as insertion-ordered association lists *)

Section Dict.
Context {V : Type}.

(** [m.get(k)] *)
Fixpoint dict_get (k : string) (m : list (string * V)) : option V :=
  match m with
  | [] => None
  | (k', v) :: m' => if decide (k = k') then Some v else dict_get k m'
  end.

(** [k in m] *)
Definition dict_has (k : string) (m : list (string * V)) : bool :=
  match dict_get k m with Some _ => true | None => false end.

(** [m[k] = v]: an existing key keeps its position, a new one goes last *)
Fixpoint dict_set (k : string) (v : V) (m : list (string * V)) : list (string * V) :=
  match m with
  | [] => [(k, v)]
  | (k', v') :: m' =>
      if decide (k = k') then (k, v) :: m' else (k', v') :: dict_set k v m'
  end.

(** [m.get(k, d)] *)
Definition dict_get_default (k : string) (d : V) (m : list (string * V)) : V :=
  default d (dict_get k m).
End Dict.

(** an [int] as a number *)
Definition Qc_of_Z (z : Z) : Qc := Q2Qc (inject_Z z).

(** [bool(v)] *)
Definition truthy (v : json) : bool :=
  match v with
  | JNull => false
  | JBool b => b
  | JNum q => negb (Qeq_bool q 0)
  | JStr s => negb (bool_decide (s = EmptyString))
  | JArr l => match l with [] => false | _ => true end
  | JObj m => match m with [] => false | _ => true end
  end.

(** [x <= c] for a Python value [x] and a float constant [c]: numbers and
    booleans compare, everything else raises [TypeError]. *)
Definition py_le (x : json) (c : Qc) : exc bool :=
  match x with
  | JNum q => Return (Qle_bool q c)
  | JBool b => Return (Qle_bool (if b then 1%Qc else 0%Qc) c)
  | _ => Raise TypeError
  end.

(** [acc + x] for a number [acc] *)
Definition py_add (acc : Qc) (x : json) : exc Qc :=
  match x with
  | JNum q => Return (acc + q)%Qc
  | JBool b => Return (acc + (if b then 1 else 0))%Qc
  | _ => Raise TypeError
  end.

(** what [for x in v] yields *)
Definition py_iter (v : json) : exc (list json) :=
  match v with
  | JArr l => Return l
  | JStr s => Return (JStr <$> PyStr.chars s)
  | JObj m => Return ((fun kv => JStr kv.1) <$> m)
  | _ => Raise TypeError
  end.

(** the elements of [l] when all of them are strings *)
Fixpoint all_strings (l : list json) : option (list string) :=
  match l with
  | [] => Some []
  | JStr s :: l' => cons s <$> all_strings l'
  | _ :: _ => None
  end.

(** [sep.join(v)] *)
Definition py_join (sep : string) (v : json) : exc string :=
  l ← py_iter v;
  match all_strings l with
  | Some ss => Return (PyStr.join sep ss)
  | None => Raise TypeError
  end.

(** [v[:n]] where the result is then used as a [str] *)
Definition py_str_prefix (n : nat) (v : json) : exc string :=
  match v with
  | JStr s => Return (PyStr.take n s)
  | _ => Raise TypeError
  end.

(** [a.get(k, d)] for an element [a] of a list of articles *)
Definition py_get (a : json) (k : string) (d : json) : exc json :=
  match a with
  | JObj m => Return (dict_get_default k d m)
  | _ => Raise AttributeError
  end.

(** [x in d] for a dict [d] with string keys: an unhashable [x] raises *)
Definition py_in_keys {V} (x : json) (d : list (string * V)) : exc bool :=
  match x with
  | JStr s => Return (dict_has s d)
  | JArr _ | JObj _ => Raise TypeError
  | _ => Return false
  end.

(** ** The world outside the process *)

Inductive service : Type :=
| Gemini | GoogleTranslate | IndicNLP | Argos | LibreTranslate | MyMemory.

(** One outbound request to a service, or one [time.sleep]. *)
Inductive event : Type :=
| Call (s : service) (payload : string)
| Sleep (secs : nat).

(** What a service answers: a text, or an exception with its message.
    [Unavailable]: the client of the service cannot be loaded, the import of
    its package raises, with the message of that exception; this is a
    failure like [Failed] for every caller but [_fallback_translate], which
    imports its client before its [try]. *)
Inductive outcome : Type :=
| Ok (text : string)
| Failed (msg : string)
| Unavailable (msg : string).

#[global] Instance service_eq_dec : EqDecision service.
Proof. solve_decision. Defined.
#[global] Instance event_eq_dec : EqDecision event.
Proof. solve_decision. Defined.

(** [trace]: the events so far, oldest first.  [store_up]: whether the cache
    directories can be read and written.  [cache_dir]: the parsed content of
    [data/cache/<key>.json].  [translations_dir]: the ['translation'] entry of
    [data/cache/translations/<key>.json]. *)
Record world : Type := World {
  trace : list event;
  store_up : bool;
  cache_dir : gmap string json;
  translations_dir : gmap string string
}.

Definition log_event (e : event) (w : world) : world :=
  {| trace := trace w ++ [e]; store_up := store_up w;
     cache_dir := cache_dir w; translations_dir := translations_dir w |}.

Definition write_cache (k : string) (v : json) (w : world) : world :=
  {| trace := trace w; store_up := store_up w;
     cache_dir := <[k := v]> (cache_dir w);
     translations_dir := translations_dir w |}.

Definition write_translation (k : string) (t : string) (w : world) : world :=
  {| trace := trace w; store_up := store_up w;
     cache_dir := cache_dir w;
     translations_dir := <[k := t]> (translations_dir w) |}.

(** The collaborators the code does not define: the services (their answer
    may depend on everything that happened before), [hashlib.md5(..).hexdigest()],
    [json.loads] ([None] when it raises, and then the exception that it
    raises: [JSONDecodeError], or another one, such as the [RecursionError]
    of a text nested too deep, kept as an [Exception] with its message),
    the rendering of a non-string value in an f-string, the
    [:.2f] format, and the order in which a [set] of strings is listed, of
    which Python promises only that each member comes once. *)
Class Environment : Type := {
  respond : list event -> service -> string -> outcome;
  md5_hexdigest : string -> string;
  json_loads : string -> option json;
  json_loads_raises : string -> exn;
  py_repr : json -> string;
  format_2f : Qc -> string;
  set_listing : list string -> list string;
  set_listing_NoDup : forall l, NoDup (set_listing l);
  set_listing_elem : forall l x, x ∈ set_listing l <-> x ∈ l
}.

(** ** Stateful computations that may raise *)

Definition M (A : Type) : Type := world -> exc A * world.

#[global] Instance M_ret : MRet M := fun A a w => (Return a, w).
#[global] Instance M_bind : MBind M := fun A B k m w =>
  match m w with
  | (Return a, w') => k a w'
  | (Raise e, w') => (Raise e, w')
  end.

Definition raise {A} (e : exn) : M A := fun w => (Raise e, w).

(** a computation without effects *)
Definition pure {A} (r : exc A) : M A := fun w => (r, w).

(** [try: m except Exception as e: handler e] *)
Definition try_except {A} (m : M A) (handler : exn -> M A) : M A := fun w =>
  match m w with
  | (Return a, w') => (Return a, w')
  | (Raise e, w') => handler e w'
  end.

(** [time.sleep(secs)] *)
Definition sleep (secs : nat) : M unit := fun w => (Return tt, log_event (Sleep secs) w).

(** one request to a service *)
Definition request `{Environment} (s : service) (payload : string) : M string := fun w =>
  let w' := log_event (Call s payload) w in
  match respond (trace w) s payload with
  | Ok text => (Return text, w')
  | Failed msg | Unavailable msg => (Raise (ApiError msg), w')
  end.

(** [str(e)] *)
Definition str_of_exn (e : exn) : string :=
  match e with
  | ApiError msg => msg
  | Exception msg => msg
  | TypeError => "TypeError"
  | AttributeError => "AttributeError"
  | JSONDecodeError => "JSONDecodeError"
  end.

(** * [utils/gemini_service.py]: class [GeminiService] *)

Module GeminiService.
Section WithEnvironment.
Context `{Environment}.

Definition rate_limit_retries : nat := 3.
Definition rate_limit_backoff : nat := 2.

(** [self.model.generate_content(prompt)] and [response.text] *)
Definition generate_content (prompt : string) : M string := request Gemini prompt.

(** The [while retries <= self.rate_limit_retries] loop of
    [_call_api_with_retry], entered with the current value of [retries]. *)
Equations? retry_loop (prompt : string) (retries : nat) (w : world)
  : exc string * world by wf (S rate_limit_retries - retries) lt :=
retry_loop prompt retries w with decide (retries <= rate_limit_retries) := {
  | right _ := (Raise (Exception "Max retries reached for API call"), w)
  | left _ with generate_content prompt w := {
    | (Return text, w1) := (Return text, w1)
    | (Raise e, w1)
        with PyStr.contains "429" (str_of_exn e)
             && bool_decide (retries < rate_limit_retries) := {
      | true :=
          let wait_time := rate_limit_backoff * 2 ^ retries in
          retry_loop prompt (S retries) (sleep wait_time w1).2
      | false := (Raise e, w1) } } }.
Proof. lia. Qed.

Definition _call_api_with_retry (prompt : string) : M string :=
  retry_loop prompt 0.

Definition _get_cache_key (text : string) : string := md5_hexdigest text.

(** a missing or unreadable file is [None] *)
Definition _check_cache (cache_key : string) : M (option json) := fun w =>
  (Return (if store_up w then cache_dir w !! cache_key else None), w).

(** a failed write is logged and dropped *)
Definition _save_to_cache (cache_key : string) (data : json) : M unit := fun w =>
  (Return tt, if store_up w then write_cache cache_key data w else w).

(** [if cached_result:] *)
Definition cache_hit (cached_result : option json) : option json :=
  match cached_result with
  | Some v => if truthy v then Some v else None
  | None => None
  end.

(** the f-string of [analyze_article], up to the content *)
Definition analysis_prompt_head (title : string) : string :=
  nl ++
  "            Title: " ++ title ++ nl ++
  "            " ++ nl ++
  "            Content: ".

(** and after the content *)
Definition analysis_prompt_tail (title : string) : string :=
  "... (truncated)" ++ nl ++
  "            " ++ nl ++
  "            Analyze the above news article about a company and provide the following:" ++ nl ++
  "            1. A concise summary of the article (2-3 sentences)" ++ nl ++
  "            2. The sentiment of the article on a 5-point scale - CRITICAL INSTRUCTION: DO NOT DEFAULT TO NEUTRAL. Look for sentiment signals and lean toward assigning a non-neutral sentiment unless truly warranted:" ++ nl ++
  "               - Very Negative (1): Highly critical, reporting major problems or failures" ++ nl ++
  "               - Negative (2): Reporting problems, challenges, or disappointing performance" ++ nl ++
  "               - Neutral (3): Balanced reporting of facts with minimal bias" ++ nl ++
  "               - Positive (4): Reporting success, growth, or positive developments" ++ nl ++
  "               - Very Positive (5): Highly favorable, reporting exceptional performance or achievements" ++ nl ++
  "            3. A list of 2-4 main topics or themes mentioned in the article" ++ nl ++
  "            4. Key sentiment indicators - IMPORTANT: Identify SPECIFIC words, phrases, or facts that convey sentiment, particularly those that suggest non-neutral attitudes" ++ nl ++
  "            " ++ nl ++
  "            Format your response as a JSON object with these fields:" ++ nl ++
  "            {" ++ nl ++
  "              " ++ dq ++ "Title" ++ dq ++ ": " ++ dq ++ title ++ dq ++ "," ++ nl ++
  "              " ++ dq ++ "Summary" ++ dq ++ ": " ++ dq ++ "Concise summary here" ++ dq ++ "," ++ nl ++
  "              " ++ dq ++ "Sentiment" ++ dq ++ ": " ++ dq ++ "Very Negative/Negative/Neutral/Positive/Very Positive" ++ dq ++ "," ++ nl ++
  "              " ++ dq ++ "Sentiment_Score" ++ dq ++ ": A number from 1-5 where 1=Very Negative, 3=Neutral, 5=Very Positive," ++ nl ++
  "              " ++ dq ++ "Topics" ++ dq ++ ": [" ++ dq ++ "Topic1" ++ dq ++ ", " ++ dq ++ "Topic2" ++ dq ++ ", ...]," ++ nl ++
  "              " ++ dq ++ "Sentiment_Indicators" ++ dq ++ ": [" ++ dq ++ "Indicator1" ++ dq ++ ", " ++ dq ++ "Indicator2" ++ dq ++ ", ...]" ++ nl ++
  "            }" ++ nl ++
  "            " ++ nl ++
  "            IMPORTANT GUIDELINES:" ++ nl ++
  "            - Assign sentiment scores of 1, 2, 4, or 5 whenever possible" ++ nl ++
  "            - Use 3 (Neutral) ONLY when the article is truly balanced with equal positive and negative elements" ++ nl ++
  "            - Look for subtle indicators of sentiment in word choice and emphasis" ++ nl ++
  "            - Consider industry context (e.g., " ++ dq ++ "steady growth" ++ dq ++ " is positive; " ++ dq ++ "only grew by 2%" ++ dq ++ " suggests disappointment)" ++ nl ++
  "            " ++ nl ++
  "            Do not include any explanation or other text outside the JSON object." ++ nl ++
  "            ".

Definition analysis_prompt (title content : string) : string :=
  analysis_prompt_head title ++ PyStr.take 4000 content ++ analysis_prompt_tail title.

(** "Clean up response to extract JSON" *)
Definition extract_json (response_text : string) : string :=
  if PyStr.contains "```json" response_text then
    PyStr.strip (PyStr.item 0 (PyStr.split "```"
      (PyStr.item 1 (PyStr.split "```json" response_text))))
  else if PyStr.contains "```" response_text then
    PyStr.strip (PyStr.item 0 (PyStr.split "```"
      (PyStr.item 1 (PyStr.split "```" response_text))))
  else response_text.

Definition required_fields : list string :=
  ["Title"; "Summary"; "Sentiment"; "Sentiment_Score"; "Topics";
   "Sentiment_Indicators"].

(** one round of "Ensure all required fields are present" *)
Definition fill_default (result : list (string * json)) (field : string)
  : list (string * json) :=
  if negb (dict_has field result) then
    if bool_decide (field ∈ ["Topics"; "Sentiment_Indicators"]) then
      dict_set field (JArr []) result
    else if bool_decide (field = "Sentiment_Score") then
      dict_set field (JNum (Qc_of_Z 3)) result
    else dict_set field (JStr "") result
  else result.

(** "Ensure title is preserved from input" *)
Definition preserve_title (title : string) (result : list (string * json))
  : list (string * json) :=
  if negb (dict_has "Title" result)
     || negb (truthy (dict_get_default "Title" JNull result))
  then dict_set "Title" (JStr title) result
  else result.

(** the [if score <= 1.5: ... elif ... else] chain *)
Definition sentiment_of_score (score : json) : exc string :=
  b ← py_le score (Q2Qc (3 # 2));
  if b : bool then Return "Very Negative" else
  b ← py_le score (Q2Qc (5 # 2));
  if b : bool then Return "Negative" else
  b ← py_le score (Q2Qc (7 # 2));
  if b : bool then Return "Neutral" else
  b ← py_le score (Q2Qc (9 # 2));
  if b : bool then Return "Positive" else
  Return "Very Positive".

(** What [analyze_article] does with the reply text.  A reply that parses
    to anything but an object raises [TypeError] on the first [result[..]]
    that the source reaches ([in] on a number or [None], item assignment on
    a list or a string, a string index on a list or a string). *)
Definition analysis_of_reply (title response_text : string) : exc json :=
  match json_loads (extract_json response_text) with
  | None => Raise (json_loads_raises (extract_json response_text))
  | Some (JObj result) =>
      let result := fold_left fill_default required_fields result in
      let result := preserve_title title result in
      let score := dict_get_default "Sentiment_Score" JNull result in
      label ← sentiment_of_score score;
      Return (JObj (dict_set "Sentiment" (JStr label) result))
  | Some _ => Raise TypeError
  end.

(** "Generate cache key from title and truncated content" *)
Definition analysis_cache_key (title content : string) : string :=
  _get_cache_key (title ++ "_" ++ PyStr.take 1000 content).

Definition analyze_article (title content : string) : M json :=
  let cache_key := analysis_cache_key title content in
  cached_result ← _check_cache cache_key;
  match cache_hit cached_result with
  | Some v => mret v
  | None =>
      try_except
        (let prompt := analysis_prompt title content in
         response_text ← _call_api_with_retry prompt;
         result ← pure (analysis_of_reply title response_text);
         _save_to_cache cache_key result;;
         mret result)
        (fun e => raise e)
  end.

(** ** [generate_comparative_analysis] *)

(** the locals that the first loop over the articles updates *)
Record tally : Type := Tally {
  sentiment_dist : list (string * nat);
  total_score : Qc;
  titles_with_sentiment : list json;
  all_topics : list json;
  all_indicators : list json
}.

Definition initial_tally : tally :=
  {| sentiment_dist :=
       [("Very Positive", 0); ("Positive", 0); ("Neutral", 0);
        ("Negative", 0); ("Very Negative", 0)];
     total_score := 0;
     titles_with_sentiment := [];
     all_topics := [];
     all_indicators := [] |}.

(** [sentiment_dist[sentiment] += 1], reached only when the key is there *)
Definition increment (sentiment : json) (d : list (string * nat))
  : list (string * nat) :=
  match sentiment with
  | JStr s => dict_set s (dict_get_default s 0 d + 1) d
  | _ => d
  end.

(** the body of "Extract key data from articles" *)
Definition tally_article (t : tally) (article : json) : exc tally :=
  sentiment ← py_get article "Sentiment" (JStr "Neutral");
  known ← py_in_keys sentiment (sentiment_dist t);
  let dist :=
    if known : bool then increment sentiment (sentiment_dist t)
    else sentiment_dist t in
  score ← py_get article "Sentiment_Score" (JNum (Qc_of_Z 3));
  total ← py_add (total_score t) score;
  title ← py_get article "Title" (JStr "Unknown Title");
  let entry :=
    JObj [("title", title); ("sentiment", sentiment); ("score", score)] in
  topics ← py_get article "Topics" (JArr []);
  new_topics ← py_iter topics;
  indicators ← py_get article "Sentiment_Indicators" (JArr []);
  new_indicators ← py_iter indicators;
  Return {| sentiment_dist := dist;
            total_score := total;
            titles_with_sentiment := titles_with_sentiment t ++ [entry];
            all_topics := all_topics t ++ new_topics;
            all_indicators := all_indicators t ++ new_indicators |}.

Fixpoint tally_articles (t : tally) (articles : list json) : exc tally :=
  match articles with
  | [] => Return t
  | article :: rest => t' ← tally_article t article; tally_articles t' rest
  end.

(** [total_score / len(articles) if articles else 3.0] *)
Definition average (total : Qc) (n : nat) : Qc :=
  match n with
  | O => Qc_of_Z 3
  | S _ => total / Qc_of_Z (Z.of_nat n)
  end.

(** a value inside an f-string *)
Definition py_str (v : json) : string :=
  match v with
  | JStr s => s
  | _ => py_repr v
  end.

(** the body of the loop that builds [article_list]; [i] is the index of
    [enumerate] *)
Definition digest_article (i : nat) (article : json) : exc string :=
  title ← py_get article "Title" (JStr ("Article " ++ PyStr.of_nat (i + 1)));
  sentiment ← py_get article "Sentiment" (JStr "Neutral");
  score ← py_get article "Sentiment_Score" (JNum (Qc_of_Z 3));
  topics ← py_get article "Topics" (JArr []);
  topics_str ← py_join ", " topics;
  indicators ← py_get article "Sentiment_Indicators" (JArr []);
  indicators_str ← py_join ", " indicators;
  summary ← py_get article "Summary" (JStr "No summary available");
  Return ("Article " ++ PyStr.of_nat (i + 1) ++ ": " ++ py_str title ++ nl ++
          "- Summary: " ++ py_str summary ++ nl ++
          "- Sentiment: " ++ py_str sentiment ++
            " (Score: " ++ py_str score ++ "/5)" ++ nl ++
          "- Topics: " ++ topics_str ++ nl ++
          "- Key Indicators: " ++ indicators_str).

Fixpoint digest_articles (i : nat) (articles : list json) : exc (list string) :=
  match articles with
  | [] => Return []
  | article :: rest =>
      d ← digest_article i article;
      ds ← digest_articles (S i) rest;
      Return (d :: ds)
  end.

(** the f-string of [generate_comparative_analysis] *)
Definition comparative_prompt (company_name articles_text : string)
    (sentiment_dist : list (string * nat)) (avg_sentiment_score : Qc) : string :=
  nl ++
  "            Company: " ++ company_name ++ nl ++
  "            " ++ nl ++
  "            Articles about " ++ company_name ++ ":" ++ nl ++
  "            " ++ articles_text ++ nl ++
  "            " ++ nl ++
  "            TASK: Generate a DETAILED comparative analysis of how news coverage differs across these articles." ++ nl ++
  "            " ++ nl ++
  "            Focus on:" ++ nl ++
  "            1. How the SAME topics are covered differently (positive in one article, negative in another)" ++ nl ++
  "            2. UNIQUE perspectives or angles that appear in only some articles" ++ nl ++
  "            3. CONFLICTING information or claims between articles" ++ nl ++
  "            4. EMPHASIS differences - what some articles highlight vs. downplay" ++ nl ++
  "            5. TIMELINE differences - how reporting has evolved if articles span different dates" ++ nl ++
  "            " ++ nl ++
  "            DO NOT default to generic analysis. Be SPECIFIC about actual differences found." ++ nl ++
  "            If articles are similar, identify the subtle ways they still differ in perspective." ++ nl ++
  "            " ++ nl ++
  "            Format the response as a JSON with these fields:" ++ nl ++
  "            {" ++ nl ++
  "              " ++ dq ++ "Sentiment_Distribution" ++ dq ++ ": {" ++ nl ++
  "                " ++ dq ++ "Very Positive" ++ dq ++ ": " ++ PyStr.of_nat (dict_get_default "Very Positive" 0 sentiment_dist) ++ "," ++ nl ++
  "                " ++ dq ++ "Positive" ++ dq ++ ": " ++ PyStr.of_nat (dict_get_default "Positive" 0 sentiment_dist) ++ "," ++ nl ++
  "                " ++ dq ++ "Neutral" ++ dq ++ ": " ++ PyStr.of_nat (dict_get_default "Neutral" 0 sentiment_dist) ++ "," ++ nl ++
  "                " ++ dq ++ "Negative" ++ dq ++ ": " ++ PyStr.of_nat (dict_get_default "Negative" 0 sentiment_dist) ++ "," ++ nl ++
  "                " ++ dq ++ "Very Negative" ++ dq ++ ": " ++ PyStr.of_nat (dict_get_default "Very Negative" 0 sentiment_dist) ++ nl ++
  "              }," ++ nl ++
  "              " ++ dq ++ "Average_Sentiment_Score" ++ dq ++ ": " ++ format_2f avg_sentiment_score ++ "," ++ nl ++
  "              " ++ dq ++ "Sentiment_Trend" ++ dq ++ ": " ++ dq ++ "Description of overall sentiment pattern across articles" ++ dq ++ "," ++ nl ++
  "              " ++ dq ++ "Coverage_Differences" ++ dq ++ ": [" ++ nl ++
  "                {" ++ nl ++
  "                  " ++ dq ++ "Comparison" ++ dq ++ ": " ++ dq ++ "Description of a key difference between articles" ++ dq ++ "," ++ nl ++
  "                  " ++ dq ++ "Articles_Involved" ++ dq ++ ": [" ++ dq ++ "Article title 1" ++ dq ++ ", " ++ dq ++ "Article title 2" ++ dq ++ "]," ++ nl ++
  "                  " ++ dq ++ "Impact" ++ dq ++ ": " ++ dq ++ "Impact on overall perception" ++ dq ++ nl ++
  "                }," ++ nl ++
  "                {" ++ nl ++
  "                  " ++ dq ++ "Comparison" ++ dq ++ ": " ++ dq ++ "Another key difference between articles" ++ dq ++ "," ++ nl ++
  "                  " ++ dq ++ "Articles_Involved" ++ dq ++ ": [" ++ dq ++ "Article title 1" ++ dq ++ ", " ++ dq ++ "Article title 3" ++ dq ++ "]," ++ nl ++
  "                  " ++ dq ++ "Impact" ++ dq ++ ": " ++ dq ++ "Impact on overall perception" ++ dq ++ nl ++
  "                }" ++ nl ++
  "              ]," ++ nl ++
  "              " ++ dq ++ "Sentiment_Drivers" ++ dq ++ ": {" ++ nl ++
  "                " ++ dq ++ "Positive_Factors" ++ dq ++ ": [" ++ dq ++ "Factor1" ++ dq ++ ", " ++ dq ++ "Factor2" ++ dq ++ ", ...]," ++ nl ++
  "                " ++ dq ++ "Negative_Factors" ++ dq ++ ": [" ++ dq ++ "Factor1" ++ dq ++ ", " ++ dq ++ "Factor2" ++ dq ++ ", ...]" ++ nl ++
  "              }," ++ nl ++
  "              " ++ dq ++ "Topic_Analysis" ++ dq ++ ": {" ++ nl ++
  "                " ++ dq ++ "Common_Topics" ++ dq ++ ": [" ++ dq ++ "Topic1" ++ dq ++ ", " ++ dq ++ "Topic2" ++ dq ++ ", ...]," ++ nl ++
  "                " ++ dq ++ "Topic_Sentiment_Map" ++ dq ++ ": {" ++ nl ++
  "                  " ++ dq ++ "Topic1" ++ dq ++ ": " ++ dq ++ "Positive/Negative/Mixed/Neutral" ++ dq ++ "," ++ nl ++
  "                  " ++ dq ++ "Topic2" ++ dq ++ ": " ++ dq ++ "Positive/Negative/Mixed/Neutral" ++ dq ++ "," ++ nl ++
  "                  ..." ++ nl ++
  "                }" ++ nl ++
  "              }" ++ nl ++
  "            }" ++ nl ++
  "            " ++ nl ++
  "            IMPORTANT: Provide at least 3-4 specific, detailed coverage differences in the Coverage_Differences array." ++ nl ++
  "            Do not include any explanation or other text outside the JSON object." ++ nl ++
  "            ".

(** [[f(a) for a in l]] for an [f] that may raise *)
Fixpoint comprehension {A B} (f : A -> exc B) (l : list A) : exc (list B) :=
  match l with
  | [] => Return []
  | a :: l' => b ← f a; bs ← comprehension f l'; Return (b :: bs)
  end.

(** ["_".join([article.get("Title", "")[:20] for article in articles[:3]])] *)
Definition cache_titles (articles : list json) : exc string :=
  ts ← comprehension
         (fun article => t ← py_get article "Title" (JStr ""); py_str_prefix 20 t)
         (take 3 articles);
  Return (PyStr.join "_" ts).

(** [[article.get("Title", "Unknown") for article in articles[:2]]] *)
Definition first_two_titles (articles : list json) : exc json :=
  ts ← comprehension (fun article => py_get article "Title" (JStr "Unknown"))
         (take 2 articles);
  Return (JArr ts).

(** [list(set(all_topics))[:5]].  The topics are strings whenever this is
    reached (the joins of [digest_article] raised otherwise, see
    [digest_topics_are_strings]); an unhashable member raises [TypeError]. *)
Definition distinct_topics (all_topics : list json) : exc json :=
  match all_strings all_topics with
  | Some ss => Return (JArr (JStr <$> take 5 (set_listing ss)))
  | None => Raise TypeError
  end.

Definition json_of_nat (n : nat) : json := JNum (Qc_of_Z (Z.of_nat n)).

(** the dict [sentiment_dist] as a JSON value *)
Definition json_of_dist (d : list (string * nat)) : json :=
  JObj ((fun kv => (kv.1, json_of_nat kv.2)) <$> d).

Definition empty_drivers : json :=
  JObj [("Positive_Factors", JArr []); ("Negative_Factors", JArr [])].

(** the entry written when the reply has no coverage differences *)
Definition fallback_difference (titles : json) : json :=
  JObj [("Comparison", JStr "Differences in reporting emphasis");
        ("Articles_Involved", titles);
        ("Impact", JStr "Creates varied impressions of company priorities")].

(** the entry of the result built when the reply does not parse *)
Definition error_difference (titles : json) : json :=
  JObj [("Comparison", JStr "Analysis encountered an error");
        ("Articles_Involved", titles);
        ("Impact", JStr "Complete comparative analysis not available")].

(** the [except json.JSONDecodeError] branch *)
Definition basic_result (t : tally) (avg : Qc) (articles : list json) : exc json :=
  titles ← first_two_titles articles;
  topics ← distinct_topics (all_topics t);
  Return (JObj
    [("Sentiment_Distribution", json_of_dist (sentiment_dist t));
     ("Average_Sentiment_Score", JNum avg);
     ("Sentiment_Trend", JStr "Unable to determine due to processing error");
     ("Coverage_Differences", JArr [error_difference titles]);
     ("Sentiment_Drivers", empty_drivers);
     ("Topic_Analysis",
        JObj [("Common_Topics", topics); ("Topic_Sentiment_Map", JObj [])])]).

(** the statements after a successful [json.loads] *)
Definition complete_result (t : tally) (avg : Qc) (articles : list json)
    (result : list (string * json)) : exc json :=
  let result := dict_set "Sentiment_Distribution" (json_of_dist (sentiment_dist t)) result in
  let result := dict_set "Average_Sentiment_Score" (JNum avg) result in
  result ←
    (if negb (dict_has "Coverage_Differences" result)
        || negb (truthy (dict_get_default "Coverage_Differences" JNull result))
     then titles ← first_two_titles articles;
          Return (dict_set "Coverage_Differences"
                    (JArr [fallback_difference titles]) result)
     else Return result);
  let result :=
    if negb (dict_has "Sentiment_Drivers" result)
    then dict_set "Sentiment_Drivers" empty_drivers result
    else result in
  result ←
    (if negb (dict_has "Topic_Analysis" result)
     then topics ← distinct_topics (all_topics t);
          Return (dict_set "Topic_Analysis"
                    (JObj [("Common_Topics", topics);
                           ("Topic_Sentiment_Map", JObj [])]) result)
     else Return result);
  Return (JObj result).

(** What [generate_comparative_analysis] does with the reply text: a reply
    on which [json.loads] raises [JSONDecodeError] gives the basic result
    ([except json.JSONDecodeError]), another exception of [json.loads] goes
    on to the outer handler, and a reply that parses to anything but an
    object raises [TypeError] at [result["Sentiment_Distribution"] = ...]. *)
Definition comparison_of_reply (t : tally) (avg : Qc) (articles : list json)
    (response_text : string) : exc json :=
  match json_loads (extract_json response_text) with
  | None =>
      match json_loads_raises (extract_json response_text) with
      | JSONDecodeError => basic_result t avg articles
      | e => Raise e
      end
  | Some (JObj result) => complete_result t avg articles result
  | Some _ => Raise TypeError
  end.

(** the statements of [generate_comparative_analysis] between the cache
    lookup and the call: the tally, the average and the prompt *)
Definition local_analysis (company_name : string) (articles : list json)
  : exc (tally * Qc * string) :=
  t ← tally_articles initial_tally articles;
  let avg_sentiment_score := average (total_score t) (length articles) in
  article_list ← digest_articles 0 articles;
  let articles_text := PyStr.join (nl ++ nl) article_list in
  Return (t, avg_sentiment_score,
          comparative_prompt company_name articles_text (sentiment_dist t)
            avg_sentiment_score).

Definition comparative_cache_key (company_name : string) (articles : list json)
  : exc string :=
  titles ← cache_titles articles;
  Return (_get_cache_key ("comp_" ++ company_name ++ "_" ++ titles)).

Definition generate_comparative_analysis (company_name : string)
    (articles : list json) : M json :=
  cache_key ← pure (comparative_cache_key company_name articles);
  cached_result ← _check_cache cache_key;
  match cache_hit cached_result with
  | Some v => mret v
  | None =>
      try_except
        (local ← pure (local_analysis company_name articles);
         let '(t, avg_sentiment_score, prompt) := local in
         response_text ← _call_api_with_retry prompt;
         result ← pure (comparison_of_reply t avg_sentiment_score articles
                          response_text);
         _save_to_cache cache_key result;;
         mret result)
        (fun e => raise e)
  end.

(** ** [generate_final_sentiment] and [generate_query_response] *)

(** [if cached_result and k in cached_result: return cached_result[k]] for
    a value read back from the cache: [Some v] when [v] is returned, [None]
    when the test is false.  [in] raises [TypeError] on a number or a
    boolean; on a list or a string it is membership or a substring test,
    after which the index by a string raises [TypeError]. *)
Definition cached_field (k : string) (cached_result : option json)
  : exc (option json) :=
  match cached_result with
  | None => Return None
  | Some v =>
      if truthy v then
        match v with
        | JObj m => Return (dict_get k m)
        | JArr l =>
            if existsb (fun x => match x with
                                 | JStr s => bool_decide (s = k)
                                 | _ => false
                                 end) l
            then Raise TypeError else Return None
        | JStr s => if PyStr.contains k s then Raise TypeError else Return None
        | _ => Raise TypeError
        end
      else Return None
  end.

(** what [for article in v[:n]] goes through *)
Definition py_slice_prefix (n : nat) (v : json) : exc (list json) :=
  match v with
  | JArr l => Return (take n l)
  | JStr s => Return (JStr <$> PyStr.chars (PyStr.take n s))
  | _ => Raise TypeError
  end.

(** [f"{v:.2f}"]: a number or a boolean is formatted, a string raises
    [ValueError], carried here as an [Exception] with the message of Python,
    anything else raises [TypeError]. *)
Definition py_format_2f (v : json) : exc string :=
  match v with
  | JNum q => Return (format_2f q)
  | JBool b => Return (format_2f (if b then 1%Qc else 0%Qc))
  | JStr _ => Raise (Exception "Unknown format code 'f' for object of type 'str'")
  | _ => Raise TypeError
  end.

(** the body of the loop that builds [articles_summary] *)
Definition summary_line (i : nat) (article : json) : exc string :=
  title ← py_get article "Title" (JStr ("Article " ++ PyStr.of_nat (i + 1)));
  sentiment ← py_get article "Sentiment" (JStr "Neutral");
  score ← py_get article "Sentiment_Score" (JNum (Qc_of_Z 3));
  Return ("- " ++ py_str title ++ " (Sentiment: " ++ py_str sentiment ++
          ", Score: " ++ py_str score ++ "/5)").

Fixpoint summary_lines (i : nat) (articles : list json) : exc (list string) :=
  match articles with
  | [] => Return []
  | article :: rest =>
      line ← summary_line i article;
      lines ← summary_lines (S i) rest;
      Return (line :: lines)
  end.

(** the f-string of [generate_final_sentiment]; [positive], [negative] and
    [avg] are the two joins and the formatted score *)
Definition final_prompt (company_name positive negative avg : string) : string :=
  nl ++
  "            Company: " ++ company_name ++ nl ++
  "            " ++ nl ++
  "            The sentiment analysis for " ++ company_name ++ " has been completed." ++ nl ++
  "            Key findings:" ++ nl ++
  "            - **Positive Factors**: " ++ positive ++ nl ++
  "            - **Negative Factors**: " ++ negative ++ nl ++
  "            - **Overall Sentiment Trend**: " ++ avg ++ "/5 on the sentiment scale." ++ nl ++
  "            " ++ nl ++
  "            Summarize the overall sentiment **briefly** in 2-3 sentences. Focus on the **major insights**, avoiding generic statements." ++ nl ++
  nl ++
  "            " ++ nl ++
  "            Your analysis should:" ++ nl ++
  "            1. Describe the nuanced sentiment (not just positive/negative/neutral)" ++ nl ++
  "            2. Explain key factors driving the sentiment" ++ nl ++
  "            3. Suggest potential implications for investors or stakeholders" ++ nl ++
  "            4. Highlight any discrepancies or notable patterns across articles" ++ nl ++
  "            " ++ nl ++
  "            Avoid generic language and focus on specific insights from the data." ++ nl ++
  "            ".

(** the statements of [generate_final_sentiment] between the cache lookup
    and the call; the result is the prompt *)
Definition final_local (company_name : string) (analysis_result : json)
  : exc string :=
  comparative ← py_get analysis_result "Comparative_Sentiment_Score" (JObj []);
  sentiment_dist ← py_get comparative "Sentiment_Distribution" (JObj []);
  comparative ← py_get analysis_result "Comparative_Sentiment_Score" (JObj []);
  avg_score ← py_get comparative "Average_Sentiment_Score" (JNum (Qc_of_Z 3));
  comparative ← py_get analysis_result "Comparative_Sentiment_Score" (JObj []);
  sentiment_drivers ← py_get comparative "Sentiment_Drivers" (JObj []);
  positive_factors ← py_get sentiment_drivers "Positive_Factors" (JArr []);
  negative_factors ← py_get sentiment_drivers "Negative_Factors" (JArr []);
  articles ← py_get analysis_result "Articles" (JArr []);
  first_three ← py_slice_prefix 3 articles;
  articles_summary ← summary_lines 0 first_three;
  let articles_text := PyStr.join nl articles_summary in
  positive ← py_join ", " positive_factors;
  negative ← py_join ", " negative_factors;
  avg ← py_format_2f avg_score;
  Return (final_prompt company_name positive negative avg).

Definition final_cache_key (company_name : string) : string :=
  _get_cache_key ("final_" ++ company_name).

(** the result is a [json]: a cached ["sentiment"] is returned whatever it is *)
Definition generate_final_sentiment (company_name : string)
    (analysis_result : json) : M json :=
  let cache_key := final_cache_key company_name in
  cached_result ← _check_cache cache_key;
  hit ← pure (cached_field "sentiment" cached_result);
  match hit with
  | Some v => mret v
  | None =>
      try_except
        (prompt ← pure (final_local company_name analysis_result);
         response ← _call_api_with_retry prompt;
         let final_sentiment := PyStr.strip response in
         _save_to_cache cache_key (JObj [("sentiment", JStr final_sentiment)]);;
         mret (JStr final_sentiment))
        (fun e => raise e)
  end.

(** the f-string of [generate_query_response] *)
Definition query_prompt (company_name query : string) : string :=
  nl ++
  "            Company: " ++ company_name ++ nl ++
  "            " ++ nl ++
  "            User Query: " ++ query ++ nl ++
  "            " ++ nl ++
  "            Summarize an answer **based only on the sentiment trends and key findings**. Avoid generic statements." ++ nl ++
  nl ++
  nl ++
  "            Be specific and focus on the key insights from the data, particularly the nuanced sentiment analysis." ++ nl ++
  "            " ++ nl ++
  "            If the query relates to sentiment, be sure to reference:" ++ nl ++
  "            1. The full 5-point sentiment scale (Very Negative to Very Positive)" ++ nl ++
  "            2. The specific sentiment indicators found in articles" ++ nl ++
  "            3. Any sentiment trends or patterns across articles" ++ nl ++
  "            " ++ nl ++
  "            Make your response concrete and evidence-based, citing specific elements from the analysis." ++ nl ++
  "            ".

Definition query_cache_key (company_name query : string) : string :=
  _get_cache_key ("query_" ++ company_name ++ "_" ++ query).

(** [company_data] is a parameter that the body never reads *)
Definition generate_query_response (company_name : string) (company_data : json)
    (query : string) : M json :=
  let cache_key := query_cache_key company_name query in
  cached_result ← _check_cache cache_key;
  hit ← pure (cached_field "response" cached_result);
  match hit with
  | Some v => mret v
  | None =>
      try_except
        (let prompt := query_prompt company_name query in
         response ← _call_api_with_retry prompt;
         _save_to_cache cache_key (JObj [("response", JStr response)]);;
         mret (JStr (PyStr.strip response)))
        (fun e => raise e)
  end.

End WithEnvironment.
End GeminiService.

(** * [utils/text_to_speech.py]: the Gemini-only [TextToSpeechService] *)

Module TextToSpeech.
Section WithEnvironment.
Context `{Environment}.

Definition _get_cache_key (text : string) : string := md5_hexdigest text.

Definition _check_translation_cache (cache_key : string) : M (option string) :=
  fun w => (Return (if store_up w then translations_dir w !! cache_key else None), w).

Definition _save_translation_to_cache (cache_key translation : string) : M unit :=
  fun w => (Return tt, if store_up w then write_translation cache_key translation w else w).

(** [if cached_translation:] *)
Definition cache_hit (cached_translation : option string) : option string :=
  match cached_translation with
  | Some t => if bool_decide (t = EmptyString) then None else Some t
  | None => None
  end.

Definition translation_prompt (text : string) : string :=
  "Translate the following English text to Hindi. Return ONLY the Hindi translation, no additional comments:"
  ++ nl ++ nl ++ text.

Definition translate_to_hindi (text : string) : M string :=
  let cache_key := _get_cache_key (PyStr.take 1000 text) in
  cached_translation ← _check_translation_cache cache_key;
  match cache_hit cached_translation with
  | Some t => mret t
  | None =>
      try_except
        (let prompt := translation_prompt text in
         response ← GeminiService._call_api_with_retry prompt;
         let hindi_text := PyStr.strip response in
         _save_translation_to_cache cache_key hindi_text;;
         mret hindi_text)
        (fun e => raise (Exception
           "Translation failed. Please check the Gemini API key and configuration."))
  end.

End WithEnvironment.
End TextToSpeech.

(** * [utils/.ipynb_checkpoints/text_to_speech-checkpoint.py]: the
    multi-backend [TextToSpeechService] *)

Module TextToSpeechCheckpoint.

(** the attributes of the service object that translation reads;
    [gemini_service] is [hasattr(self, 'gemini_service')] *)
Record config : Type := Config {
  translator_type : string;
  google_api_key : option string;
  gemini_service : bool
}.

Definition max_chunk_size : nat := 4000.

(** [range(0, stop, step)] for a positive [step] *)
Definition range_step (stop step : nat) : list nat :=
  (fun k => k * step) <$> seq 0 ((stop + step - 1) / step).

(** [[text[i:i+max_chunk_size] for i in range(0, len(text), max_chunk_size)]] *)
Definition chunks_of (size : nat) (text : string) : list string :=
  (fun i => PyStr.slice i (i + size) text) <$> range_step (String.length text) size.

Section WithEnvironment.
Context `{Environment}.

Definition _get_cache_key (text : string) : string := md5_hexdigest text.
Definition _check_translation_cache := TextToSpeech._check_translation_cache.
Definition _save_translation_to_cache := TextToSpeech._save_translation_to_cache.

(** the HTTP request, the status check and the extraction of the text *)
Definition _google_translate (text : string) : M string := request GoogleTranslate text.
Definition _indicnlp_translate (text : string) : M string := request IndicNLP text.
Definition _argos_translate (text : string) : M string := request Argos text.
Definition _libretranslate (text : string) : M string := request LibreTranslate text.

Definition _gemini_translate (text : string) : M string :=
  try_except
    (let prompt := TextToSpeech.translation_prompt text in
     response ← GeminiService._call_api_with_retry prompt;
     mret (PyStr.strip response))
    (fun e => raise e).

(** [from translate import Translator], which stands before the [try] of
    [_fallback_translate]: it raises when the client of MyMemory cannot be
    loaded; the [ImportError] is kept as an [Exception] with its message *)
Definition import_translator (text : string) : M unit := fun w =>
  match respond (trace w) MyMemory text with
  | Unavailable msg => (Raise (Exception msg), w)
  | _ => (Return tt, w)
  end.

(** MyMemory; on a failure under the [try], "just keep the original text" *)
Definition _fallback_translate (text : string) : M string :=
  import_translator text;;
  try_except (request MyMemory text) (fun e => mret text).

(** [self.google_api_key] as a condition *)
Definition key_given (k : option string) : bool :=
  match k with
  | Some s => negb (bool_decide (s = EmptyString))
  | None => false
  end.

Definition _translate_chunk (self : config) (text : string) : M string :=
  try_except
    (if bool_decide (translator_type self = "google") && key_given (google_api_key self)
     then _google_translate text
     else if bool_decide (translator_type self = "indicnlp")
     then _indicnlp_translate text
     else if bool_decide (translator_type self = "argos")
     then _argos_translate text
     else if bool_decide (translator_type self = "libretranslate")
     then _libretranslate text
     else if bool_decide (translator_type self = "gemini") && gemini_service self
     then _gemini_translate text
     else _fallback_translate text)
    (fun e => _fallback_translate text).

(** the [for chunk in chunks] loop, entered with the current [translations] *)
Fixpoint translate_chunks (self : config) (chunks translations : list string)
  : M (list string) :=
  match chunks with
  | [] => mret translations
  | chunk :: rest =>
      sleep 1;;
      chunk_translation ← _translate_chunk self chunk;
      translate_chunks self rest (translations ++ [chunk_translation])
  end.

Definition translate_to_hindi (self : config) (text : string) : M string :=
  let cache_key := _get_cache_key (PyStr.take 1000 text) in
  cached_translation ← _check_translation_cache cache_key;
  match TextToSpeech.cache_hit cached_translation with
  | Some t => mret t
  | None =>
      full_translation ←
        (if bool_decide (max_chunk_size < String.length text)
         then
           let chunks := chunks_of max_chunk_size text in
           translations ← translate_chunks self chunks [];
           mret (PyStr.join EmptyString translations)
         else _translate_chunk self text);
      _save_translation_to_cache cache_key full_translation;;
      mret full_translation
  end.

End WithEnvironment.
End TextToSpeechCheckpoint.

(** * Computations over other states

    [M] is [Run world]; the scraper and the audio generation have states of
    their own. *)

Definition Run (S A : Type) : Type := S -> exc A * S.

#[global] Instance Run_ret (S : Type) : MRet (Run S) | 100 :=
  fun A a s => (Return a, s).
#[global] Instance Run_bind (S : Type) : MBind (Run S) | 100 := fun A B k m s =>
  match m s with
  | (Return a, s') => k a s'
  | (Raise e, s') => (Raise e, s')
  end.

(** [try: m except Exception as e: handler e] *)
Definition try_except_run {S A} (m : Run S A) (handler : exn -> Run S A)
  : Run S A := fun s =>
  match m s with
  | (Return a, s') => (Return a, s')
  | (Raise e, s') => handler e s'
  end.

(** [l[:n]] for an [int] [n] *)
Definition py_slice_to {A} (n : Z) (l : list A) : list A :=
  if (0 <=? n)%Z then take (Z.to_nat n) l
  else take (length l - Z.to_nat (- n)) l.

(** [{**a, **b}] *)
Definition dict_merge {V} (a b : list (string * V)) : list (string * V) :=
  fold_left (fun acc kv => dict_set kv.1 kv.2 acc) b a.

(** * [utils/news_scraper.py]: class [NewsScraper] *)

Module NewsScraper.

(** One page requested through [self.session], or one [time.sleep]. *)
Inductive visit : Type :=
| Get (url : string)
| Wait (secs : Qc).

(** What [self.session.get] gives: a response with its status code and its
    text, or an exception with its message. *)
Inductive page : Type :=
| Page (status_code : nat) (text : string)
| Unreachable (msg : string).

(** An entry of the search results: the dict of the keys ["title"], ["url"],
    ["source"] and ["published_at"]; the url is [None] for a link without
    [href]. *)
Record hit : Type := Hit {
  hit_title : string;
  hit_url : option string;
  hit_source : string;
  hit_published_at : string
}.

Definition dict_of_hit (h : hit) : list (string * json) :=
  [("title", JStr (hit_title h));
   ("url", match hit_url h with Some u => JStr u | None => JNull end);
   ("source", JStr (hit_source h));
   ("published_at", JStr (hit_published_at h))].

(** [visits]: the pages requested and the sleeps so far, oldest first.
    [drawn]: how many times the [random] module was asked. *)
Record net : Type := Net {
  visits : list visit;
  drawn : nat
}.

(** The collaborators of the scraper: the HTTP session (its answer may
    depend on what happened before), the readings of a page that go through
    BeautifulSoup ([_parse_google_news], [_parse_yahoo_news], and the title,
    content and date that [_extract_article_content] takes from an article
    page, [None] when that reading raises), and the [random] module, of
    which draw number [d] is a function: [random.choice] gives an index
    into a population of [n], [random.randint] a number between its bounds,
    [random.sample] gives [k] distinct indices. *)
Class Web : Type := {
  session_get : list visit -> string -> page;
  parse_google_news : string -> list hit;
  parse_yahoo_news : string -> list hit;
  read_article : string -> option (string * string * string);
  random_choice : nat -> nat -> nat;
  random_choice_lt : forall d n, (0 < n)%nat -> (random_choice d n < n)%nat;
  random_randint : nat -> Z -> Z -> Z;
  random_randint_range :
    forall d a b, (a <= b)%Z -> (a <= random_randint d a b <= b)%Z;
  random_sample : nat -> nat -> nat -> list nat;
  random_sample_length :
    forall d n k, (k <= n)%nat -> length (random_sample d n k) = k;
  random_sample_NoDup : forall d n k, NoDup (random_sample d n k);
  random_sample_lt :
    forall d n k i, i ∈ random_sample d n k -> (i < n)%nat
}.

(** the attributes of the scraper object; the user agent goes into the
    headers of the session *)
Record scraper : Type := Scraper {
  user_agent : string;
  request_delay : Qc
}.

(** [__init__] *)
Definition init (user_agent : option string) (request_delay : Qc) : scraper :=
  {| user_agent :=
       match user_agent with
       | Some ua =>
           if bool_decide (ua = EmptyString)
           then "Mozilla/5.0 (Windows NT 10.0; Win64; x64) AppleWebKit/537.36 (KHTML, like Gecko) Chrome/91.0.4472.124 Safari/537.36"
           else ua
       | None => "Mozilla/5.0 (Windows NT 10.0; Win64; x64) AppleWebKit/537.36 (KHTML, like Gecko) Chrome/91.0.4472.124 Safari/537.36"
       end;
     request_delay := request_delay |}.

(** the titles of the simulated articles, with the placeholder for the company name *)
Definition title_templates : list string :=
  ["Quarterly Results: {Company} Exceeds Expectations with Strong Performance";
   "{Company} Announces New Strategic Initiatives to Accelerate Growth";
   "Market Analysis: What's Next for {Company} After Recent Developments";
   "{Company} Expands into New Markets: What Investors Need to Know";
   "Inside {Company}'s Latest Product Launch: Industry Experts Weigh In";
   "{Company} Faces Regulatory Challenges, Stock Price Affected";
   "CEO of {Company} Reveals Future Vision in Recent Interview";
   "Analyst Report: {Company} Shows Promising Growth Potential";
   "{Company}'s Competitive Edge: How They're Staying Ahead in the Market";
   "Investment Insights: Is {Company} a Buy Right Now?"].

(** the sentences of the simulated articles *)
Definition phrases : list string :=
  ["The company reported strong quarterly results, exceeding analyst expectations.";
   "Investors remain cautious about the company's growth prospects.";
   "The CEO announced new strategic initiatives to boost revenue.";
   "Market analysts have mixed opinions on the company's recent performance.";
   "New product launches are expected to drive future growth.";
   "Regulatory challenges could impact the company's operations.";
   "The company is expanding into new markets to diversify revenue streams.";
   "Competition in the sector remains intense, putting pressure on margins.";
   "Innovation continues to be a key focus area for the company.";
   "Recent acquisitions are expected to strengthen the company's market position."].

(** the dict that [_generate_simulated_content] returns, and the content
    part of the dict that [_extract_article_content] returns *)
Record article_data : Type := ArticleData {
  title : string;
  content : string;
  word_count : nat;
  published_at : string
}.

Definition dict_of_article_data (a : article_data) : list (string * json) :=
  [("title", JStr (title a));
   ("content", JStr (content a));
   ("word_count", GeminiService.json_of_nat (word_count a));
   ("published_at", JStr (published_at a))].

Section WithWeb.
Context `{Web}.

(** [time.sleep(secs)]: a negative length raises [ValueError], kept as an
    [Exception] with its message *)
Definition sleep (secs : Qc) : Run net unit := fun n =>
  if Qle_bool 0%Qc secs
  then (Return tt, {| visits := visits n ++ [Wait secs]; drawn := drawn n |})
  else (Raise (Exception "sleep length must be non-negative"), n).

(** [self.session.get(url, timeout=10)] *)
Definition get (url : string) : Run net (nat * string) := fun n =>
  let n' := {| visits := visits n ++ [Get url]; drawn := drawn n |} in
  match session_get (visits n) url with
  | Page status_code text => (Return (status_code, text), n')
  | Unreachable msg => (Raise (Exception msg), n')
  end.

(** one call into the [random] module *)
Definition draw {A} (f : nat -> A) : Run net A := fun n =>
  (Return (f (drawn n)), {| visits := visits n; drawn := S (drawn n) |}).

(** the [for _ in range(num_paragraphs)] loop *)
Fixpoint paragraphs (n : nat) (content_paragraphs : list string)
  : Run net (list string) :=
  match n with
  | O => mret content_paragraphs
  | S n' =>
      num_sentences ← draw (fun d => random_randint d 2 4);
      selected ← draw (fun d => random_sample d (length phrases)
                                  (Z.to_nat num_sentences));
      let selected_phrases := (fun i => nth i phrases EmptyString) <$> selected in
      let paragraph := PyStr.join " " selected_phrases in
      paragraphs n' (content_paragraphs ++ [paragraph])
  end.

Definition _generate_simulated_content : Run net article_data :=
  i ← draw (fun d => random_choice d (length title_templates));
  let title := nth i title_templates EmptyString in
  num_paragraphs ← draw (fun d => random_randint d 3 7);
  content_paragraphs ← paragraphs (Z.to_nat num_paragraphs) [];
  let content := PyStr.join (nl ++ nl) content_paragraphs in
  mret {| title := title;
          content := content;
          word_count := length (PyStr.words content);
          published_at := "2023-01-01" |}.

(** the url of the simulated result number [i] (from 1) *)
Definition simulated_url (company_name : string) (i : nat) : string :=
  "https://example.com/news/"
  ++ PyStr.replace " " "-" (PyStr.lower company_name) ++ "/" ++ PyStr.of_nat i.

(** the [for i in range(min(10, max_results))] loop, entered with [i] and
    with [n] rounds to go *)
Fixpoint simulate_results (company_name : string) (i n : nat)
    (simulated_results : list hit) : Run net (list hit) :=
  match n with
  | O => mret simulated_results
  | S n' =>
      simulated_content ← _generate_simulated_content;
      let title := PyStr.replace "{Company}" company_name (title simulated_content) in
      simulate_results company_name (S i) n'
        (simulated_results ++
         [{| hit_title := title;
             hit_url := Some (simulated_url company_name (i + 1));
             hit_source := "Simulated News Source";
             hit_published_at := "2023-01-01" |}])
  end.

Definition _search_news_api (company_name : string) (max_results : Z)
  : Run net (list hit) :=
  try_except_run
    (simulate_results company_name 0 (Z.to_nat (Z.min 10 max_results)) [])
    (fun e => mret []).

(** the [for search_url in search_urls] loop *)
Fixpoint search_pages (self : scraper) (search_urls : list string)
    (max_results : Z) (results : list hit) : Run net (list hit) :=
  match search_urls with
  | [] => mret results
  | search_url :: rest =>
      if (max_results <=? Z.of_nat (length results))%Z then mret results
      else
        response ← get search_url;
        if bool_decide (response.1 = 200%nat) then
          let new_results :=
            if PyStr.contains "google.com" search_url
            then parse_google_news response.2
            else if PyStr.contains "yahoo.com" search_url
            then parse_yahoo_news response.2
            else [] in
          sleep (request_delay self);;
          search_pages self rest max_results (results ++ new_results)
        else search_pages self rest max_results results
  end.

Definition _search_web (self : scraper) (company_name : string)
    (max_results : Z) : Run net (list hit) :=
  try_except_run
    (let query := company_name ++ " news" in
     let encoded_query := PyStr.join "+" (PyStr.words query) in
     let search_urls :=
       ["https://www.google.com/search?q=" ++ encoded_query ++ "&tbm=nws";
        "https://news.search.yahoo.com/search?p=" ++ encoded_query] in
     results ← search_pages self search_urls max_results [];
     mret (py_slice_to max_results results))
    (fun e => mret []).

(** [{}] is the empty dict *)
Definition _extract_article_content (url : option string)
  : Run net (list (string * json)) :=
  if match url with
     | None => true
     | Some u => bool_decide (u = EmptyString)
                 || PyStr.startswith "https://example.com" u
     end
  then simulated ← _generate_simulated_content;
       mret (dict_of_article_data simulated)
  else
    try_except_run
      (response ← get (default EmptyString url);
       if bool_decide (response.1 = 200%nat) then
         match read_article response.2 with
         | Some (title, content, date) =>
             mret (dict_of_article_data
                     {| title := title;
                        content := content;
                        word_count := length (PyStr.words content);
                        published_at :=
                          if bool_decide (date = EmptyString) then "Unknown"
                          else date |})
         | None => fun n => (Raise (Exception "unreadable page"), n)
         end
       else mret [])
      (fun e => mret []).

(** the [for result in search_results[:max_results]] loop *)
Fixpoint collect (self : scraper) (results : list hit) (articles : list json)
  : Run net (list json) :=
  match results with
  | [] => mret articles
  | result :: rest =>
      article_data ← _extract_article_content (hit_url result);
      match article_data with
      | [] => collect self rest articles
      | _ =>
          let full_article := dict_merge (dict_of_hit result) article_data in
          sleep (request_delay self);;
          collect self rest (articles ++ [JObj full_article])
      end
  end.

Definition search_company_news (self : scraper) (company_name : string)
    (max_results : Z) : Run net (list json) :=
  try_except_run
    (search_results ← _search_news_api company_name max_results;
     search_results ←
       (if match search_results with [] => true | _ => false end
           || (Z.of_nat (length search_results) <? max_results / 2)%Z
        then more ← _search_web self company_name
                      (max_results - Z.of_nat (length search_results));
             mret (search_results ++ more)%list
        else mret search_results);
     collect self (py_slice_to max_results search_results) [])
    (fun e => mret []).

End WithWeb.
End NewsScraper.

(** * [generate_audio] and [generate_hindi_speech_from_english]

    [generate_audio] is the same in [utils/text_to_speech.py] and in
    [utils/.ipynb_checkpoints/text_to_speech-checkpoint.py];
    [generate_hindi_speech_from_english] differs. *)

Module Speech.

(** What the code does to the file system and to other programs:
    [os.makedirs(path, exist_ok=True)]; [gTTS(text=text, lang='hi',
    slow=False)] followed by [tts.save(path)]; a file opened for writing and
    written; [subprocess.run(cmd, check=True)]; [os.remove(path)];
    [shutil.copy(src, dst)]; and [time.sleep(secs)]. *)
Inductive action : Type :=
| Makedirs (path : string)
| Speak (text path : string)
| WriteText (path content : string)
| RunProcess (cmd : list string)
| Remove (path : string)
| Copy (src dst : string)
| Nap (secs : nat).

#[global] Instance action_eq_dec : EqDecision action.
Proof. solve_decision. Defined.

(** Whether an action succeeds, given the actions before it: [None] when it
    does, the message of the exception when it raises. *)
Class Host : Type := {
  attempt : list action -> action -> option string
}.

(** [gemini]: the world of the model, the translators and the caches.
    [done]: the actions so far, oldest first. *)
Record studio : Type := Studio {
  gemini : world;
  done : list action
}.

(** [os.path.dirname(p)] of [posixpath]: what is before the last slash,
    without its trailing slashes unless it is made of slashes only *)
Fixpoint drop_while (f : Ascii.ascii -> bool) (s : string) : string :=
  match s with
  | String c s' => if f c then drop_while f s' else s
  | EmptyString => EmptyString
  end.

Definition is_slash (c : Ascii.ascii) : bool :=
  bool_decide (c = Ascii.ascii_of_nat 47).

Definition dirname (p : string) : string :=
  let head := String.rev (drop_while (fun c => negb (is_slash c)) (String.rev p)) in
  if bool_decide (drop_while is_slash head = EmptyString) then head
  else String.rev (drop_while is_slash (String.rev head)).

Definition max_chunk_size : nat := 3000.

(** [f"{output_path}.part{i}.mp3"] *)
Definition temp_path (output_path : string) (i : nat) : string :=
  output_path ++ ".part" ++ PyStr.of_nat i ++ ".mp3".

(** what is written to [file_list.txt] *)
Fixpoint file_list (temp_files : list string) : string :=
  match temp_files with
  | [] => EmptyString
  | temp_file :: rest => "file '" ++ temp_file ++ "'" ++ nl ++ file_list rest
  end.

Definition ffmpeg_command (output_path : string) : list string :=
  ["ffmpeg"; "-y"; "-f"; "concat"; "-safe"; "0"; "-i"; "file_list.txt";
   "-c"; "copy"; output_path].

Section WithHost.
Context `{Environment} `{Host}.

(** one action; a failure raises, kept as an [Exception] with its message *)
Definition act (a : action) : Run studio unit := fun s =>
  let s' := {| gemini := gemini s; done := done s ++ [a] |} in
  match attempt (done s) a with
  | None => (Return tt, s')
  | Some msg => (Raise (Exception msg), s')
  end.

(** [time.sleep(secs)] *)
Definition nap (secs : nat) : Run studio unit := fun s =>
  (Return tt, {| gemini := gemini s; done := done s ++ [Nap secs] |}).

(** an operation of the services, run on the world of the studio *)
Definition lift {A} (m : M A) : Run studio A := fun s =>
  ((m (gemini s)).1, {| gemini := (m (gemini s)).2; done := done s |}).

(** the [for i, chunk in enumerate(chunks)] loop *)
Fixpoint speak_chunks (output_path : string) (i : nat)
    (chunks temp_files : list string) : Run studio (list string) :=
  match chunks with
  | [] => mret temp_files
  | chunk :: rest =>
      act (Speak chunk (temp_path output_path i));;
      nap 1;;
      speak_chunks output_path (S i) rest
        (temp_files ++ [temp_path output_path i])
  end.

(** [for temp_file in temp_files: os.remove(temp_file)] *)
Fixpoint remove_all (temp_files : list string) : Run studio unit :=
  match temp_files with
  | [] => mret tt
  | temp_file :: rest => act (Remove temp_file);; remove_all rest
  end.

Definition generate_audio (text output_path : string) : Run studio bool :=
  try_except_run
    (act (Makedirs (dirname output_path));;
     (if bool_decide (max_chunk_size < String.length text)
      then
        temp_files ← speak_chunks output_path 0
                       (TextToSpeechCheckpoint.chunks_of max_chunk_size text) [];
        try_except_run
          (act (WriteText "file_list.txt" (file_list temp_files));;
           act (RunProcess (ffmpeg_command output_path));;
           act (Remove "file_list.txt");;
           remove_all temp_files)
          (fun ffmpeg_error =>
             match temp_files with
             | [] => mret tt
             | first :: _ =>
                 act (Copy first output_path);;
                 remove_all temp_files
             end)
      else act (Speak text output_path));;
     mret true)
    (fun e => mret false).

(** [utils/text_to_speech.py]: both steps are guarded *)
Definition generate_hindi_speech_from_english (text save_path : string)
  : Run studio (option string * string) :=
  translated ←
    try_except_run
      (hindi_text ← lift (TextToSpeech.translate_to_hindi text);
       mret (Some hindi_text))
      (fun e => mret None);
  match translated with
  | None => mret (None, EmptyString)
  | Some hindi_text =>
      try_except_run
        (success ← generate_audio hindi_text save_path;
         if success : bool then mret (Some save_path, hindi_text)
         else mret (None, hindi_text))
        (fun e => mret (None, hindi_text))
  end.

(** [utils/.ipynb_checkpoints/text_to_speech-checkpoint.py]: no guard *)
Definition generate_hindi_speech_from_english_checkpoint
    (self : TextToSpeechCheckpoint.config) (text save_path : string)
  : Run studio (option string * string) :=
  hindi_text ← lift (TextToSpeechCheckpoint.translate_to_hindi self text);
  success ← generate_audio hindi_text save_path;
  if success : bool then mret (Some save_path, hindi_text)
  else mret (None, hindi_text).

End WithHost.
End Speech.

(** * The application

    [api.py] and the batch processor put the scraper, the Gemini service
    and the text-to-speech service together. *)

(** the requests of the scraper, the services and the file system *)
Record server : Type := Server {
  web : NewsScraper.net;
  services : Speech.studio
}.

Definition on_web {A} (m : Run NewsScraper.net A) : Run server A := fun s =>
  ((m (web s)).1, {| web := (m (web s)).2; services := services s |}).

Definition on_studio {A} (m : Run Speech.studio A) : Run server A := fun s =>
  ((m (services s)).1, {| web := web s; services := (m (services s)).2 |}).

Definition on_gemini {A} (m : M A) : Run server A := on_studio (Speech.lift m).

(** an expression that may raise *)
Definition of_exc {A} (r : exc A) : Run server A := fun s => (r, s).

(** the bytes that [pickle.dump] writes *)
Class Pickler : Type := {
  pickle_dumps : json -> string
}.

(** [company_name.lower().replace(" ", "_")] *)
Definition slug (company_name : string) : string :=
  PyStr.replace " " "_" (PyStr.lower company_name).

(** [os.path.join("data", "output", f"{file_name}.pkl")] *)
Definition pickle_path (file_name : string) : string :=
  "data/output/" ++ file_name ++ ".pkl".

(** [tts_service.generate_hindi_speech_from_english(final_sentiment,
    audio_path)] of [utils/text_to_speech.py] for a [final_sentiment] that
    is true as a condition.  On a list the slices work and [text.encode()]
    raises inside the first [try]; on a number, a boolean or a dict the
    [text[:100]] of the first line raises. *)
Definition speak_final `{Environment} `{Speech.Host} (final_sentiment : json)
    (audio_path : string) : Run Speech.studio (option string * string) :=
  match final_sentiment with
  | JStr text => Speech.generate_hindi_speech_from_english text audio_path
  | JArr _ => mret (None, EmptyString)
  | _ => fun s => (Raise TypeError, s)
  end.

(** * [api.py]: the endpoints *)

Module Api.

(** What an endpoint gives: the body of the response that it returns, or
    the [HTTPException] that it raises to the framework. *)
Inductive response : Type :=
| Ok (body : json)
| HTTPException (status_code : nat) (detail : string).

(** What the [except Exception as e] of an endpoint catches: an
    [HTTPException] raised inside its own [try], or another exception. *)
Inductive caught : Type :=
| Http (status_code : nat) (detail : string)
| Python (e : exn).

(** [str(e)] for what is caught *)
Class Framework : Type := {
  str_of : caught -> string
}.

(** What is at a path: nothing, a file that [pickle.load] reads, or a file
    on which opening or loading raises. *)
Definition disk : Type := string -> option (exc json).

Section WithServices.
Context `{Environment} `{NewsScraper.Web} `{Speech.Host} `{Pickler} `{Framework}.

Definition get_company_analysis (files : disk) (company_name : string)
  : response :=
  let file_name := slug company_name in
  let file_path := pickle_path file_name in
  let tried : caught + json :=
    match files file_path with
    | Some (Return data) => inr data
    | Some (Raise e) => inl (Python e)
    | None => inl (Http 404 ("Company '" ++ company_name ++ "' not found"))
    end in
  match tried with
  | inr data => Ok data
  | inl e => HTTPException 500 (str_of e)
  end.

(** the [for article in articles] loop.  [analyze_article] is modelled on
    strings, as its signature has it: the loop gives [None] when a title or
    a content that is not a string reaches it. *)
Fixpoint analyze_articles (articles analyses : list json)
  : Run server (option (list json)) :=
  match articles with
  | [] => mret (Some analyses)
  | article :: rest =>
      title ← of_exc (py_get article "title" (JStr "No Title"));
      content ← of_exc (py_get article "content" (JStr ""));
      match title, content with
      | JStr title, JStr content =>
          article_analysis ← on_gemini (GeminiService.analyze_article title content);
          analyze_articles rest
            (if truthy article_analysis then analyses ++ [article_analysis]
             else analyses)
      | _, _ => mret None
      end
  end.

(** the body of the [try] of [analyze_company]: [inl] for the
    [HTTPException]s that it raises, [inr] for what it returns *)
Definition analyze_company_try (gemini_service : bool) (company_name : string)
  : Run server (option (caught + json)) :=
  if negb gemini_service
  then mret (Some (inl (Http 500
               "Gemini API key is missing. Please provide a valid API key.")))
  else
    let news_scraper := NewsScraper.init None 1%Qc in
    articles ← on_web (NewsScraper.search_company_news news_scraper company_name 10);
    match articles with
    | [] => mret (Some (inl (Http 404 "No articles found.")))
    | _ =>
        analysed ← analyze_articles articles [];
        match analysed with
        | None => mret None
        | Some [] => mret (Some (inl (Http 500 "Failed to analyze articles.")))
        | Some analyses =>
            let analysis_result :=
              [("Company", JStr company_name); ("Articles", JArr analyses)] in
            comp_analysis ←
              on_gemini (GeminiService.generate_comparative_analysis
                           company_name analyses);
            final_sentiment ←
              on_gemini (GeminiService.generate_final_sentiment
                           company_name (JObj analysis_result));
            let analysis_result :=
              dict_set "Final Sentiment Analysis" final_sentiment
                (dict_set "Comparative Sentiment Score" comp_analysis
                   analysis_result) in
            let file_name := slug company_name in
            let file_path := pickle_path file_name in
            on_studio (Speech.act (Speech.WriteText file_path
                                     (pickle_dumps (JObj analysis_result))));;
            (if truthy final_sentiment
             then
               let audio_path := "data/output/audio/" ++ file_name ++ ".mp3" in
               let text_path := "data/output/text/" ++ file_name ++ "_hindi.txt" in
               spoken ← on_studio (speak_final final_sentiment audio_path);
               let hindi_text := spoken.2 in
               if bool_decide (hindi_text = EmptyString) then mret tt
               else on_studio (Speech.act (Speech.WriteText text_path hindi_text))
             else mret tt);;
            mret (Some (inr (JObj analysis_result)))
        end
    end.

(** [analyze_company]: whatever the [try] raises is raised again as an
    [HTTPException] of status 500 *)
Definition analyze_company (gemini_service : bool) (company_name : string)
  : server -> option (response * server) := fun s =>
  match analyze_company_try gemini_service company_name s with
  | (Return None, _) => None
  | (Return (Some (inr analysis_result)), s') => Some (Ok analysis_result, s')
  | (Return (Some (inl e)), s') => Some (HTTPException 500 (str_of e), s')
  | (Raise e, s') => Some (HTTPException 500 (str_of (Python e)), s')
  end.

End WithServices.
End Api.

(** * [.ipynb_checkpoints/cron-checkpoint.py]: class [BatchProcessor] *)

Module Batch.

(** What [process_company] returns: the analysis result, or [None]. *)
Inductive returned : Type :=
| Analysis (analysis_result : list (string * json))
| PyNone.

(** [x >= c] for a Python value [x] and a float constant [c]: numbers and
    booleans compare, everything else raises [TypeError]. *)
Definition py_ge (x : json) (c : Qc) : exc bool :=
  match x with
  | JNum q => Return (Qle_bool c q)
  | JBool b => Return (Qle_bool c (if b then 1%Qc else 0%Qc))
  | _ => Raise TypeError
  end.

(** "Adjust thresholds to create more diversity": the label that replaces
    the one of [analyze_article].  The constants [3.7] and [2.7] are taken
    for the decimal numbers that they write, as the scores are. *)
Definition label_of_score (sentiment_score : json) : exc string :=
  b ← py_ge sentiment_score (Q2Qc (37 # 10));
  if b : bool then Return "Positive" else
  b ← py_le sentiment_score (Q2Qc (27 # 10));
  if b : bool then Return "Negative" else
  Return "Neutral".

(** ["title" in article and article["title"] and article["title"] != "No
    Title"], for a dict: the title when the test holds *)
Definition given_title (article : list (string * json)) : option json :=
  match dict_get "title" article with
  | Some title =>
      if truthy title
         && match title with
            | JStr t => negb (bool_decide (t = "No Title"))
            | _ => true
            end
      then Some title
      else None
  | None => None
  end.

(** [x in v] for a string [x] and a list [v] *)
Definition listed (x : string) (v : list json) : bool :=
  existsb (fun e => match e with
                    | JStr s => bool_decide (s = x)
                    | _ => false
                    end) v.

(** [content[:200] + "..." if len(content) > 200 else content] *)
Definition preview (content : string) : string :=
  if bool_decide (200 < String.length content)%nat
  then PyStr.take 200 content ++ "..."
  else content.

(** What the [try] of the loop does with [article_analysis]: [Some] of the
    completed analysis when it is appended, [None] when the test on it is
    false.  On a number or a boolean that is true, [in] raises [TypeError];
    on a string or a list that holds ["Sentiment_Score"] the index by a
    string raises it. *)
Definition completed (title content : string) (article_analysis : json)
  : exc (option json) :=
  if negb (truthy article_analysis) then Return None else
  match article_analysis with
  | JObj m =>
      if dict_has "Sentiment_Score" m then
        let sentiment_score := dict_get_default "Sentiment_Score" JNull m in
        label ← label_of_score sentiment_score;
        let m := dict_set "Sentiment" (JStr label) m in
        let m := dict_set "Title" (JStr title) m in
        let m := dict_set "Content_Length"
                   (GeminiService.json_of_nat (String.length content)) m in
        let m := dict_set "Content_Preview" (JStr (preview content)) m in
        Return (Some (JObj m))
      else Return None
  | JStr s =>
      if PyStr.contains "Sentiment_Score" s then Raise TypeError else Return None
  | JArr l =>
      if listed "Sentiment_Score" l then Raise TypeError else Return None
  | _ => Raise TypeError
  end.

(** [if "Sentiment_Trend" in comparative_analysis:] and the two lines under
    it, which leave a dict as it is *)
Definition keep_trend (comparative_analysis : json) : exc unit :=
  match comparative_analysis with
  | JObj _ => Return tt
  | JStr s =>
      if PyStr.contains "Sentiment_Trend" s then Raise TypeError else Return tt
  | JArr l =>
      if listed "Sentiment_Trend" l then Raise TypeError else Return tt
  | _ => Raise TypeError
  end.

(** [datetime.now().strftime("%Y-%m-%d %H:%M:%S")], given what was done so
    far, and the text that [json.dump(results, f, indent=2)] writes *)
Class Desk : Type := {
  now : list Speech.action -> string;
  json_dumps : json -> string
}.

Section WithServices.
Context `{Environment} `{NewsScraper.Web} `{Speech.Host} `{Pickler} `{Desk}.

(** [self.gemini_service.<method>(...)]: [self.gemini_service] is [None]
    when the key was not in the environment *)
Definition on_service {A} (gemini_service : bool) (m : M A) : Run server A :=
  if gemini_service then on_gemini m
  else fun s => (Raise AttributeError, s).

(** the [for article in articles] loop, entered with the articles appended
    so far and with [successful_analyses].  [extract_title_from_article] is
    not defined in the module, so that calling it raises [NameError], kept
    as an [Exception] with its message.  [analyze_article] is modelled on
    strings, as its signature has it: the loop gives [None] when a title or
    a content that is not a string reaches it. *)
Fixpoint analyze_articles (gemini_service : bool) (articles : list json)
    (analysed : list json) (successful_analyses : nat)
  : Run server (option (list json * nat)) :=
  match articles with
  | [] => mret (Some (analysed, successful_analyses))
  | article :: rest =>
      content ← of_exc (py_get article "content" (JStr ""));
      title ←
        match article with
        | JObj m =>
            match given_title m with
            | Some title => mret title
            | None =>
                of_exc (Raise (Exception
                  "name 'extract_title_from_article' is not defined"))
            end
        | _ => of_exc (Raise AttributeError)
        end;
      match title, content with
      | JStr title, JStr content =>
          added ←
            try_except_run
              (article_analysis ←
                 on_service gemini_service
                   (GeminiService.analyze_article title content);
               of_exc (completed title content article_analysis))
              (fun e => mret None);
          match added with
          | Some article_analysis =>
              analyze_articles gemini_service rest
                (analysed ++ [article_analysis]) (successful_analyses + 1)
          | None =>
              analyze_articles gemini_service rest analysed successful_analyses
          end
      | _, _ => mret None
      end
  end.

(** [generate_tts_and_text], of a processor whose Gemini service is there
    (no other reaches it): the text is written whatever it is *)
Definition generate_tts_and_text (company_name : string)
    (final_sentiment_analysis : json) : Run Speech.studio unit :=
  try_except_run
    (if negb (truthy final_sentiment_analysis) then mret tt
     else
       let company_slug := slug company_name in
       let audio_dir := "data/output/audio" in
       let text_dir := "data/output/text" in
       Speech.act (Speech.Makedirs audio_dir);;
       Speech.act (Speech.Makedirs text_dir);;
       let audio_path := audio_dir ++ "/" ++ company_slug ++ ".mp3" in
       let text_path := text_dir ++ "/" ++ company_slug ++ "_hindi.txt" in
       spoken ← speak_final final_sentiment_analysis audio_path;
       let hindi_text := spoken.2 in
       Speech.act (Speech.WriteText text_path hindi_text))
    (fun e => mret tt).

(** [process_company]; the outer [None] is that of [analyze_articles] *)
Definition process_company (gemini_service : bool) (company_name : string)
  : Run server (option returned) :=
  try_except_run
    (let news_scraper := NewsScraper.init None 1%Qc in
     articles ← on_web (NewsScraper.search_company_news news_scraper company_name 10);
     match articles with
     | [] => mret (Some PyNone)
     | _ =>
         looped ← analyze_articles gemini_service articles [] 0;
         match looped with
         | None => mret None
         | Some (analysed, successful_analyses) =>
             let analysis_result :=
               [("Company", JStr company_name); ("Articles", JArr analysed)] in
             if bool_decide (3 <= successful_analyses)%nat
             then
               comparative_analysis ←
                 on_service gemini_service
                   (GeminiService.generate_comparative_analysis
                      company_name analysed);
               of_exc (keep_trend comparative_analysis);;
               let analysis_result :=
                 dict_set "Comparative_Sentiment_Score" comparative_analysis
                   analysis_result in
               final_sentiment ←
                 on_service gemini_service
                   (GeminiService.generate_final_sentiment
                      company_name (JObj analysis_result));
               let analysis_result :=
                 dict_set "Final_Sentiment_Analysis" final_sentiment
                   analysis_result in
               on_studio (generate_tts_and_text company_name final_sentiment);;
               mret (Some (Analysis analysis_result))
             else mret (Some (Analysis analysis_result))
         end
     end)
    (fun e => mret (Some PyNone)).

(** [save_result] *)
Definition save_result (company_name : string) (analysis_result : returned)
  : Run Speech.studio bool :=
  try_except_run
    (match analysis_result with
     | PyNone | Analysis [] => mret false
     | Analysis result =>
         let file_name := slug company_name in
         let file_path := pickle_path file_name in
         Speech.act (Speech.WriteText file_path (pickle_dumps (JObj result)));;
         mret true
     end)
    (fun e => mret false).

(** the [for company in companies] loop, entered with the counts so far.
    Nothing can raise between the update of a count and the end of the
    [try], so that the handler finds the counts as they were. *)
Fixpoint process_each (gemini_service : bool) (companies : list string)
    (success failed : nat) : Run server (option (nat * nat)) :=
  match companies with
  | [] => mret (Some (success, failed))
  | company :: rest =>
      counted ←
        try_except_run
          (processed ← process_company gemini_service company;
           match processed with
           | None => mret None
           | Some analysis_result =>
               saved ←
                 match analysis_result with
                 | PyNone | Analysis [] => mret false
                 | _ => on_studio (save_result company analysis_result)
                 end;
               on_studio (Speech.nap 2);;
               mret (Some (if saved : bool then (success + 1, failed)%nat
                           else (success, failed + 1)%nat))
           end)
          (fun e => mret (Some (success, failed + 1)%nat));
      match counted with
      | None => mret None
      | Some (success, failed) => process_each gemini_service rest success failed
      end
  end.

(** [process_all_companies], for the list that [load_company_list] gives *)
Definition process_all_companies (gemini_service : bool)
    (companies : list string) : Run server (option json) :=
  start_time ← on_studio (fun st => (Return (now (Speech.done st)), st));
  counted ← process_each gemini_service companies 0 0;
  match counted with
  | None => mret None
  | Some (success, failed) =>
      end_time ← on_studio (fun st => (Return (now (Speech.done st)), st));
      let results :=
        JObj [("total", GeminiService.json_of_nat (length companies));
              ("success", GeminiService.json_of_nat success);
              ("failed", GeminiService.json_of_nat failed);
              ("start_time", JStr start_time);
              ("end_time", JStr end_time)] in
      on_studio (Speech.act (Speech.WriteText "data/output/batch_results.json"
                               (json_dumps results)));;
      mret (Some results)
  end.

End WithServices.
End Batch.

(** * [app.py]: what the dashboard reads from the data of a company *)

Module Dashboard.

(** the locals of "Prepare data" in [display_detailed_analysis_report] *)
Record report_data : Type := ReportData {
  sentiment_counts : list (string * nat);
  topics_by_sentiment : list (string * list (string * nat));
  topic_counts : list (string * nat)
}.

(** [{"Positive": 0, "Negative": 0, "Neutral": 0}] *)
Definition no_counts : list (string * nat) :=
  [("Positive", 0%nat); ("Negative", 0%nat); ("Neutral", 0%nat)].

Definition initial_data : report_data :=
  {| sentiment_counts := no_counts;
     topics_by_sentiment := [];
     topic_counts := [] |}.

Section WithEnvironment.
Context `{Environment}.

(** [main]: what the card "Overall Sentiment Analysis" writes *)
Definition final_sentiment_shown (company_data : json) : exc json :=
  py_get company_data "Final_Sentiment_Analysis" (JStr "No analysis available").

(** [main]: the metric "Positive:Negative Ratio" *)
Definition sentiment_ratio_shown (company_data : json) : exc string :=
  comparative ← py_get company_data "Comparative_Sentiment_Score" (JObj []);
  sentiment_dist ← py_get comparative "Sentiment Distribution" (JObj []);
  pos_count ← py_get sentiment_dist "Positive" (JNum (Qc_of_Z 0));
  neg_count ← py_get sentiment_dist "Negative" (JNum (Qc_of_Z 0));
  Return (GeminiService.py_str pos_count ++ ":" ++ GeminiService.py_str neg_count).

(** [counts[sentiment] += 1]: a key that is not there raises [KeyError],
    kept as an [Exception] with its message, the [repr] of the key; a list
    or a dict is no key at all *)
Definition increment (sentiment : json) (counts : list (string * nat))
  : exc (list (string * nat)) :=
  match sentiment with
  | JStr s =>
      match dict_get s counts with
      | Some n => Return (dict_set s (n + 1)%nat counts)
      | None => Raise (Exception (py_repr sentiment))
      end
  | JArr _ | JObj _ => Raise TypeError
  | _ => Raise (Exception (py_repr sentiment))
  end.

(** the [for topic in article.get("Topics", [])] loop, for topics that are
    strings *)
Fixpoint count_topics (sentiment : json) (topics : list string) (d : report_data)
  : exc report_data :=
  match topics with
  | [] => Return d
  | topic :: rest =>
      let d :=
        if negb (dict_has topic (topics_by_sentiment d))
        then {| sentiment_counts := sentiment_counts d;
                topics_by_sentiment :=
                  dict_set topic no_counts (topics_by_sentiment d);
                topic_counts := dict_set topic 0%nat (topic_counts d) |}
        else d in
      counts ← increment sentiment
                 (dict_get_default topic [] (topics_by_sentiment d));
      count_topics sentiment rest
        {| sentiment_counts := sentiment_counts d;
           topics_by_sentiment := dict_set topic counts (topics_by_sentiment d);
           topic_counts :=
             dict_set topic (dict_get_default topic 0 (topic_counts d) + 1)%nat
               (topic_counts d) |}
  end.

(** the [for article in articles] loop of "Prepare data".  The dicts of the
    topics are modelled with strings as keys: the loop gives [None] when a
    topic is not a string. *)
Fixpoint prepare_data (articles : list json) (d : report_data)
  : exc (option report_data) :=
  match articles with
  | [] => Return (Some d)
  | article :: rest =>
      sentiment ← py_get article "Sentiment" (JStr "Neutral");
      counts ← increment sentiment (sentiment_counts d);
      topics ← py_get article "Topics" (JArr []);
      topics ← py_iter topics;
      match all_strings topics with
      | None => Return None
      | Some topics =>
          d ← count_topics sentiment topics
                {| sentiment_counts := counts;
                   topics_by_sentiment := topics_by_sentiment d;
                   topic_counts := topic_counts d |};
          prepare_data rest d
      end
  end.

End WithEnvironment.
End Dashboard.

(** * Notions used in the statements *)

Local Open Scope list_scope.

Definition is_call (e : event) : bool :=
  match e with Call _ _ => true | Sleep _ => false end.

(** how many outbound requests a trace holds *)
Definition calls_made (tr : list event) : nat := length (List.filter is_call tr).

(** the sleeps of a trace, in order *)
Definition sleeps_of (tr : list event) : list nat :=
  omap (fun e => match e with Sleep n => Some n | Call _ _ => None end) tr.

(** two worlds with the same cache directories *)
Definition same_store (w w' : world) : Prop :=
  store_up w' = store_up w /\ cache_dir w' = cache_dir w
  /\ translations_dir w' = translations_dir w.

(** the over-quota signal that [_call_api_with_retry] looks for *)
Definition rate_limited (o : outcome) : bool :=
  match o with
  | Failed msg | Unavailable msg => PyStr.contains "429" msg
  | Ok _ => false
  end.

(** [k] attempts with [prompt], each followed by its back-off sleep *)
Definition backoff_trace (prompt : string) (k : nat) : list event :=
  flat_map (fun i => [Call Gemini prompt;
                      Sleep (GeminiService.rate_limit_backoff * 2 ^ i)])
           (seq 0 k).

(** From the specification: "retry up to a fixed retry budget (3) with
    exponential backoff: wait = base(2s) x 2^attempt before each retry".
    The waits of the three retries, in seconds, and the events of the
    attempts with [prompt] that were each followed by one of [waits]. *)
Definition retry_waits : list nat := [2; 4; 8].

Definition attempts_with_waits (prompt : string) (waits : list nat) : list event :=
  flat_map (fun secs => [Call Gemini prompt; Sleep secs]) waits.

(** what an answer of the service becomes in the caller *)
Definition surfaced (o : outcome) : exc string :=
  match o with
  | Ok text => Return text
  | Failed msg | Unavailable msg => Raise (ApiError msg)
  end.

Import GeminiService.

(** the value that a cache lookup under [key] hands back to the caller *)
Definition cached_at (key : string) (w : world) : option json :=
  cache_hit (if store_up w then cache_dir w !! key else None).

(** the cached record that [analyze_article] would return, if any *)
Definition cached_analysis `{Environment} (title content : string) (w : world)
  : option json :=
  cached_at (analysis_cache_key title content) w.

Definition five_labels : list string :=
  ["Very Positive"; "Positive"; "Neutral"; "Negative"; "Very Negative"].

(** the label under which the tally counts an article: its ["Sentiment"],
    ["Neutral"] when it has none, provided it is one of the five labels *)
Definition counted_label (article : json) : option string :=
  match article with
  | JObj m =>
      match dict_get_default "Sentiment" (JStr "Neutral") m with
      | JStr s => if bool_decide (s ∈ five_labels) then Some s else None
      | _ => None
      end
  | _ => None
  end.

(** how many articles count under [label] *)
Definition count_label (label : string) (articles : list json) : nat :=
  length (List.filter (fun a => bool_decide (counted_label a = Some label)) articles).

(** the distribution that holds [f label] under each of the five labels *)
Definition dist_of (f : string -> nat) : list (string * nat) :=
  (fun label => (label, f label)) <$> five_labels.

(** the sum of the counts of a distribution *)
Definition counts_total (d : list (string * nat)) : nat := sum_list (d.*2).

(** the topics of one article, when they are strings *)
Definition article_topics (article : json) : list string :=
  match py_get article "Topics" (JArr []) with
  | Return v =>
      match py_iter v with
      | Return l => default [] (all_strings l)
      | Raise _ => []
      end
  | Raise _ => []
  end.

(** the topics seen across the articles, in the order they are met *)
Definition topics_seen (articles : list json) : list string :=
  flat_map article_topics articles.

(** the distinct members of a list in the order of their first occurrence,
    with [seen] already met *)
Fixpoint first_distinct (seen l : list string) : list string :=
  match l with
  | [] => []
  | x :: l' =>
      if bool_decide (x ∈ seen) then first_distinct seen l'
      else x :: first_distinct (x :: seen) l'
  end.

(** an article that is a dict *)
Definition is_object (a : json) : Prop := exists m, a = JObj m.

(** ["Title"] of an article, ["Unknown"] when it has none *)
Definition title_or_unknown (article : json) : json :=
  match article with
  | JObj m => dict_get_default "Title" (JStr "Unknown") m
  | _ => JNull
  end.

(** a field that is absent, or present with a false value *)
Definition missing_or_empty (k : string) (m : list (string * json)) : bool :=
  match dict_get k m with
  | Some v => negb (truthy v)
  | None => true
  end.


(** a record whose label is the one its own score gives *)
Definition label_consistent (v : json) : Prop :=
  exists m score label,
    v = JObj m
    /\ dict_get "Sentiment_Score" m = Some score
    /\ sentiment_of_score score = Return label
    /\ dict_get "Sentiment" m = Some (JStr label).

(** the translation that either [translate_to_hindi] would take from the
    cache, if any *)
Definition cached_translation `{Environment} (text : string) (w : world)
  : option string :=
  TextToSpeech.cache_hit
    (if store_up w
     then translations_dir w !! TextToSpeech._get_cache_key (PyStr.take 1000 text)
     else None).

(** the service that [_translate_chunk] of the multi-backend variant tries
    first, what it sends to it, and what it makes of the answer *)
Definition primary_backend (self : TextToSpeechCheckpoint.config) : service :=
  if bool_decide (TextToSpeechCheckpoint.translator_type self = "google")
     && TextToSpeechCheckpoint.key_given (TextToSpeechCheckpoint.google_api_key self)
  then GoogleTranslate
  else if bool_decide (TextToSpeechCheckpoint.translator_type self = "indicnlp")
  then IndicNLP
  else if bool_decide (TextToSpeechCheckpoint.translator_type self = "argos")
  then Argos
  else if bool_decide (TextToSpeechCheckpoint.translator_type self = "libretranslate")
  then LibreTranslate
  else if bool_decide (TextToSpeechCheckpoint.translator_type self = "gemini")
          && TextToSpeechCheckpoint.gemini_service self
  then Gemini
  else MyMemory.

Definition primary_payload (self : TextToSpeechCheckpoint.config) (text : string)
  : string :=
  match primary_backend self with
  | Gemini => TextToSpeech.translation_prompt text
  | _ => text
  end.

Definition primary_text (self : TextToSpeechCheckpoint.config) (reply : string)
  : string :=
  match primary_backend self with
  | Gemini => PyStr.strip reply
  | _ => reply
  end.

(** From the specification: "consecutive non-overlapping chunks of that
    fixed size (final chunk shorter)".  [fuel] bounds the number of chunks. *)
Fixpoint consecutive_chunks (fuel size : nat) (text : string) : list string :=
  match fuel with
  | O => []
  | S fuel' =>
      if bool_decide (text = EmptyString) then []
      else PyStr.take size text
           :: consecutive_chunks fuel' size (PyStr.drop size text)
  end.

(** strings put end to end, "with no separator" *)
Definition concat_strings (l : list string) : string := foldr String.app EmptyString l.

(** From the specification: "translate each chunk independently ... with a
    fixed 1-second pacing delay between chunk submissions, and concatenate
    results in original order".  One sleep of a second and one request per
    chunk; the answers, in order, and the trace at the end. *)
Fixpoint paced_run `{Environment} (svc : service) (payload post : string -> string)
    (chunks : list string) (tr : list event) : list string * list event :=
  match chunks with
  | [] => ([], tr)
  | chunk :: rest =>
      let tr1 := tr ++ [Sleep 1] in
      let reply :=
        match respond tr1 svc (payload chunk) with
        | Ok text => text
        | Failed _ | Unavailable _ => EmptyString
        end in
      let run := paced_run svc payload post rest (tr1 ++ [Call svc (payload chunk)]) in
      (post reply :: run.1, run.2)
  end.

(** a service that answers every request *)
Definition always_answers `{Environment} (svc : service) : Prop :=
  forall tr payload, exists text, respond tr svc payload = Ok text.

(** a world with another trace *)
Definition with_trace (tr : list event) (w : world) : world :=
  {| trace := tr; store_up := store_up w; cache_dir := cache_dir w;
     translations_dir := translations_dir w |}.

(** what the cache lookup of [generate_final_sentiment] ([field] is
    ["sentiment"]) or [generate_query_response] (["response"]) under [key]
    makes the operation return at once, if anything *)
Definition cached_answer (field key : string) (w : world) : exc (option json) :=
  cached_field field (if store_up w then cache_dir w !! key else None).

(** the run left the cache directories as they were, or it returned some [r]
    and wrote [entry r] under [key], and nothing else *)
Definition wrote_only {A} (key : string) (entry : A -> json) (w : world)
    (run : exc A * world) : Prop :=
  same_store w run.2
  \/ exists r, run.1 = Return r
               /\ store_up run.2 = store_up w
               /\ translations_dir run.2 = translations_dir w
               /\ cache_dir run.2 = <[key := entry r]> (cache_dir w).

(** what "Ensure all required fields are present" writes for a missing
    field *)
Definition field_default (field : string) : json :=
  if bool_decide (field ∈ ["Topics"; "Sentiment_Indicators"]%string) then JArr []
  else if bool_decide (field = "Sentiment_Score"%string) then JNum (Qc_of_Z 3)
  else JStr EmptyString.

(** a number, as the sums of Python see it *)
Definition numeric (v : json) : option Qc :=
  match v with
  | JNum q => Some q
  | JBool b => Some (if b then 1%Qc else 0%Qc)
  | _ => None
  end.

(** the score under which an article enters the average: its
    ["Sentiment_Score"], 3 when it has none *)
Definition score_of (article : json) : option Qc :=
  match article with
  | JObj m => numeric (dict_get_default "Sentiment_Score" (JNum (Qc_of_Z 3)) m)
  | _ => None
  end.

Definition sum_Qc (l : list Qc) : Qc := foldr Qcplus 0%Qc l.

(** the article that [search_company_news] makes of the simulated result
    number [i] and of the simulated content [a] *)
Definition simulated_article (company_name : string) (i : nat)
    (a : NewsScraper.article_data) : json :=
  JObj [("title", JStr (NewsScraper.title a));
        ("url", JStr (NewsScraper.simulated_url company_name i));
        ("source", JStr "Simulated News Source");
        ("published_at", JStr (NewsScraper.published_at a));
        ("content", JStr (NewsScraper.content a));
        ("word_count", GeminiService.json_of_nat (NewsScraper.word_count a))]%string.

(** a simulated search result, number [i] *)
Definition simulated_hit (company_name : string) (i : nat) (h : NewsScraper.hit)
  : Prop :=
  NewsScraper.hit_url h = Some (NewsScraper.simulated_url company_name i)
  /\ NewsScraper.hit_source h = "Simulated News Source"%string
  /\ NewsScraper.hit_published_at h = "2023-01-01"%string.

(** a content that [_generate_simulated_content] may return *)
Definition simulated_content (a : NewsScraper.article_data) : Prop :=
  NewsScraper.title a ∈ NewsScraper.title_templates
  /\ NewsScraper.word_count a = length (PyStr.words (NewsScraper.content a))
  /\ NewsScraper.published_at a = "2023-01-01"%string.

(** the pages that a list of visits requested *)
Definition pages_of (l : list NewsScraper.visit) : list string :=
  omap (fun v => match v with
                 | NewsScraper.Get url => Some url
                 | NewsScraper.Wait _ => None
                 end) l.

(** the two pages that [_search_web] may request *)
Definition search_urls (company_name : string) : list string :=
  let encoded_query := PyStr.join "+" (PyStr.words (company_name ++ " news")) in
  [("https://www.google.com/search?q=" ++ encoded_query ++ "&tbm=nws")%string;
   ("https://news.search.yahoo.com/search?p=" ++ encoded_query)%string].

(** the chunks spoken one after the other from part number [i] on, a sleep
    of one second after each *)
Fixpoint speaking (output_path : string) (i : nat) (chunks : list string)
  : list Speech.action :=
  match chunks with
  | [] => []
  | chunk :: rest =>
      Speech.Speak chunk (Speech.temp_path output_path i)
      :: Speech.Nap 1 :: speaking output_path (S i) rest
  end.

(** the parts of an output of [n] chunks, from part number [i] on *)
Definition parts (output_path : string) (i n : nat) : list string :=
  Speech.temp_path output_path <$> seq i n.

(** the three steps that put the parts together: the list of the parts is
    written, ffmpeg is run, the list is removed *)
Definition combination (output_path : string) (temp_files : list string)
  : list Speech.action :=
  [Speech.WriteText "file_list.txt" (Speech.file_list temp_files);
   Speech.RunProcess (Speech.ffmpeg_command output_path);
   Speech.Remove "file_list.txt"].

(** the actions that fail are those of [bad], whatever happened before *)
Definition fails_exactly `{Speech.Host} (bad : Speech.action -> bool) : Prop :=
  forall h a, is_Some (Speech.attempt h a) <-> bad a = true.

(** a studio with other actions done *)
Definition with_done (l : list Speech.action) (s : Speech.studio) : Speech.studio :=
  {| Speech.gemini := Speech.gemini s; Speech.done := l |}.

(** an article whose title and content are strings *)
Definition has_text (article : json) : Prop :=
  exists m title content,
    article = JObj m
    /\ dict_get_default "title" (JStr "No Title") m = JStr title
    /\ dict_get_default "content" (JStr "") m = JStr content.

(** [s'] has the actions of [s] and possibly more after them *)
Definition extends (s s' : Speech.studio) : Prop :=
  Speech.done s `prefix_of` Speech.done s'.

(** a computation that only adds actions *)
Definition adds_actions {A} (m : Run Speech.studio A) : Prop :=
  forall s, extends s (m s).2.

(** an article whose title is given and is a string, as its content is *)
Definition has_title (article : json) : Prop :=
  exists m title content,
    article = JObj m
    /\ Batch.given_title m = Some (JStr title)
    /\ dict_get_default "content" (JStr "") m = JStr content.

(** an analysis as the batch processor completes it: under ["Sentiment"],
    the label of its score by the thresholds of the processor *)
Definition relabelled (analysis : json) : Prop :=
  exists m label,
    analysis = JObj m
    /\ Batch.label_of_score (dict_get_default "Sentiment_Score" JNull m)
       = Return label
    /\ dict_get "Sentiment" m = Some (JStr label).

(** the result of a company of which no article was analysed *)
Definition empty_analysis (company_name : string) : list (string * json) :=
  [("Company", JStr company_name); ("Articles", JArr [])]%string.

(** what the batch processor does for such a company: the result is
    pickled, then a sleep of two seconds *)
Definition saves_empty `{Pickler} (company_name : string) : list Speech.action :=
  [Speech.WriteText (pickle_path (slug company_name))
     (pickle_dumps (JObj (empty_analysis company_name)));
   Speech.Nap 2].

(** the summary of a batch *)
Definition batch_results (total success failed : nat) (start_time end_time : string)
  : json :=
  JObj [("total", GeminiService.json_of_nat total);
        ("success", GeminiService.json_of_nat success);
        ("failed", GeminiService.json_of_nat failed);
        ("start_time", JStr start_time);
        ("end_time", JStr end_time)]%string.

Definition three_labels : list string := ["Positive"; "Negative"; "Neutral"]%string.

(** an article that the report of the dashboard can count: a dict whose
    sentiment is one of the three labels and whose topics are strings *)
Definition reportable (article : json) : Prop :=
  exists m label topics,
    article = JObj m
    /\ dict_get_default "Sentiment" (JStr "Neutral") m = JStr label
    /\ label ∈ three_labels
    /\ py_iter (dict_get_default "Topics" (JArr []) m) = Return topics
    /\ is_Some (all_strings topics).

(** every topic holds counts for the three labels *)
Definition three_each (d : Dashboard.report_data) : Prop :=
  forall topic counts,
    dict_get topic (Dashboard.topics_by_sentiment d) = Some counts ->
    counts.*1 = three_labels.

(** ** A concrete environment for the examples

    The service answers with the texts of a script, one per request, then
    with an empty JSON object.  [demo_json_loads] parses the three JSON texts
    that the examples use and rejects the rest; the examples give it no other
    JSON text.  The key function is the identity and a set is listed from its
    last occurrences, one of the orders a Python set may take. *)

(** the text [{"Sentiment": "Very Positive", "Sentiment_Score": 1.5}] *)
Definition demo_reply : string :=
  ("{" ++ dq ++ "Sentiment" ++ dq ++ ": " ++ dq ++ "Very Positive" ++ dq ++ ", "
   ++ dq ++ "Sentiment_Score" ++ dq ++ ": 1.5}")%string.

Definition demo_json_loads (s : string) : option json :=
  if bool_decide (s = "{}") then Some (JObj [])
  else if bool_decide (s = "[]") then Some (JArr [])
  else if bool_decide (s = demo_reply)
  then Some (JObj [("Sentiment", JStr "Very Positive");
                   ("Sentiment_Score", JNum (Q2Qc (3 # 2)))])
  else None.

Definition scripted (script : list outcome) : Environment :=
  {| respond := fun tr _ _ => nth (calls_made tr) script (Ok "{}");
     md5_hexdigest := fun s => s;
     json_loads := demo_json_loads;
     json_loads_raises := fun _ => JSONDecodeError;
     py_repr := fun _ => EmptyString;
     format_2f := fun _ => EmptyString;
     set_listing := remove_dups;
     set_listing_NoDup := NoDup_remove_dups;
     set_listing_elem := fun l x => elem_of_remove_dups l x |}.

Definition empty_world : world :=
  {| trace := []; store_up := true; cache_dir := ∅; translations_dir := ∅ |}.

(** the value of a run that returned, [d] otherwise *)
Definition returned {A} (d : A) (r : exc A) : A :=
  match r with
  | Return a => a
  | Raise _ => d
  end.

Definition is_return {A} (r : exc A) : bool :=
  match r with
  | Return _ => true
  | Raise _ => false
  end.

(** an analysed article for the examples *)
Definition demo_article (title label : string) (score : Z) (topics : list string)
  : json :=
  JObj [("Title", JStr title); ("Summary", JStr EmptyString);
        ("Sentiment", JStr label); ("Sentiment_Score", JNum (Qc_of_Z score));
        ("Topics", JArr (JStr <$> topics)); ("Sentiment_Indicators", JArr [])].

Definition demo_articles : list json :=
  [demo_article "A" "Positive" 4 ["x"; "y"; "x"];
   demo_article "B" "Positive" 4 ["z"];
   demo_article "C" "Negative" 2 []].

(** multi-backend service objects: one set up for LibreTranslate, one set
    up for Gemini *)
Definition demo_libre : TextToSpeechCheckpoint.config :=
  {| TextToSpeechCheckpoint.translator_type := "libretranslate";
     TextToSpeechCheckpoint.google_api_key := None;
     TextToSpeechCheckpoint.gemini_service := false |}.


(** one left with MyMemory *)
Definition demo_fallback : TextToSpeechCheckpoint.config :=
  {| TextToSpeechCheckpoint.translator_type := "fallback";
     TextToSpeechCheckpoint.google_api_key := None;
     TextToSpeechCheckpoint.gemini_service := false |}.

(** a web without network, and a [random] module that takes the templates
    in turn, the least number of sentences and the first sentences *)
Definition demo_web : NewsScraper.Web.
Proof.
  refine {| NewsScraper.session_get := fun _ _ => NewsScraper.Unreachable "offline";
            NewsScraper.parse_google_news := fun _ => [];
            NewsScraper.parse_yahoo_news := fun _ => [];
            NewsScraper.read_article := fun _ => None;
            NewsScraper.random_choice := fun d n => d mod n;
            NewsScraper.random_randint := fun _ a _ => a;
            NewsScraper.random_sample := fun _ n k => seq 0 (k `min` n) |}.
  - intros d n Hn. apply Nat.mod_upper_bound. lia.
  - intros d a b Hab. split; [reflexivity|exact Hab].
  - intros d n k Hk. rewrite length_seq. lia.
  - intros d n k. apply NoDup_seq.
  - intros d n k i Hi. apply elem_of_seq in Hi. lia.
Defined.

(** a scraper as [NewsScraper()] makes it, and the state before anything
    happened *)
Definition demo_scraper : NewsScraper.scraper := NewsScraper.init None 1%Qc.

Definition empty_net : NewsScraper.net :=
  {| NewsScraper.visits := []; NewsScraper.drawn := 0 |}.

(** a host on which the actions of [bad] fail, and only these *)
Definition failing (bad : Speech.action -> bool) : Speech.Host :=
  {| Speech.attempt := fun _ a => if bad a then Some "failed"%string else None |}.

Definition is_ffmpeg (a : Speech.action) : bool :=
  match a with
  | Speech.RunProcess _ => true
  | _ => false
  end.

Definition empty_studio : Speech.studio :=
  {| Speech.gemini := empty_world; Speech.done := [] |}.

(** stand-ins for the pickler, the clock and the dump of the summary *)
Definition demo_pickler : Pickler :=
  {| pickle_dumps := fun v =>
       match v with
       | JObj m => PyStr.join "," (m.*1)
       | _ => EmptyString
       end |}.

Definition demo_desk : Batch.Desk :=
  {| Batch.now := fun h => PyStr.of_nat (length h);
     Batch.json_dumps := fun v =>
       match v with
       | JObj m => PyStr.join "," (m.*1)
       | _ => EmptyString
       end |}.

Definition empty_server : server :=
  {| web := empty_net; services := empty_studio |}.

(** a framework for the examples, and whether an endpoint answered 200 *)
Definition demo_framework : Api.Framework :=
  {| Api.str_of := fun c =>
       match c with
       | Api.Http _ detail => detail
       | Api.Python _ => "error"%string
       end |}.

Definition answered_ok (r : option (Api.response * server)) : bool :=
  match r with
  | Some (Api.Ok _, _) => true
  | _ => false
  end.

(** * The retrying call wrapper *)

Section RetryProperties.
Context `{Environment}.

Lemma retry_loop_unfold prompt retries w :
  retries <= rate_limit_retries ->
  retry_loop prompt retries w =
  match respond (trace w) Gemini prompt with
  | Ok text => (Return text, log_event (Call Gemini prompt) w)
  | Failed msg | Unavailable msg =>
      if PyStr.contains "429" msg && bool_decide (retries < rate_limit_retries)
      then retry_loop prompt (S retries)
             (log_event (Sleep (rate_limit_backoff * 2 ^ retries))
                (log_event (Call Gemini prompt) w))
      else (Raise (ApiError msg), log_event (Call Gemini prompt) w)
  end.
Proof.
  intros Hle.
  set (rhs := match respond _ _ _ with Ok _ => _ | Failed _ | Unavailable _ => _ end).
  simp retry_loop. subst rhs.
  destruct (decide (retries <= rate_limit_retries)) as [?|?]; [|lia].
  simpl. unfold generate_content, request.
  destruct (respond (trace w) Gemini prompt) as [text|msg|msg]; simpl.
  - reflexivity.
  - destruct (PyStr.contains "429" msg && bool_decide (retries < rate_limit_retries));
      reflexivity.
  - destruct (PyStr.contains "429" msg && bool_decide (retries < rate_limit_retries));
      reflexivity.
Qed.

Lemma backoff_trace_S prompt k :
  backoff_trace prompt (S k) =
  backoff_trace prompt k
  ++ [Call Gemini prompt; Sleep (rate_limit_backoff * 2 ^ k)].
Proof.
  unfold backoff_trace. rewrite seq_S, flat_map_app. simpl.
  reflexivity.
Qed.

(** The loop entered with [retries = n] after [n] rate-limited attempts. *)
Lemma retry_loop_from (prompt : string) (base : list event) (m : nat) :
  forall (n : nat) (w : world),
    n + m = rate_limit_retries ->
    trace w = base ++ backoff_trace prompt n ->
    exists k,
      n <= k <= rate_limit_retries /\
      (forall i, n <= i < k ->
         rate_limited (respond (base ++ backoff_trace prompt i) Gemini prompt) = true) /\
      (k < rate_limit_retries ->
         rate_limited (respond (base ++ backoff_trace prompt k) Gemini prompt) = false) /\
      trace (retry_loop prompt n w).2 =
        base ++ backoff_trace prompt k ++ [Call Gemini prompt] /\
      same_store w (retry_loop prompt n w).2 /\
      (retry_loop prompt n w).1 =
        surfaced (respond (base ++ backoff_trace prompt k) Gemini prompt).
Proof.
  induction m as [|m IH]; intros n w Hn Htr.
  - (* the last attempt: the budget is spent *)
    exists n. rewrite retry_loop_unfold by lia. rewrite Htr.
    assert (bool_decide (n < rate_limit_retries) = false) as Hb
      by (apply bool_decide_eq_false; lia).
    split; [lia|]. split; [intros; lia|]. split; [intros; lia|].
    destruct (respond (base ++ backoff_trace prompt n) Gemini prompt) as [text|msg|msg];
      [|rewrite Hb, andb_false_r..]; simpl;
      rewrite Htr, <- app_assoc; repeat split; reflexivity.
  - rewrite retry_loop_unfold by lia. rewrite Htr.
    assert (bool_decide (n < rate_limit_retries) = true) as Hb
      by (apply bool_decide_eq_true; lia).
    destruct (respond (base ++ backoff_trace prompt n) Gemini prompt)
      as [text|msg|msg] eqn:Hresp.
    { exists n. rewrite Hresp. simpl. rewrite Htr, <- app_assoc.
      split; [lia|]. split; [intros; lia|]. repeat split; reflexivity. }
    all: rewrite Hb, andb_true_r.
    all: destruct (PyStr.contains "429" msg) eqn:H429;
      [ set (w1 := log_event _ (log_event _ w));
        destruct (IH (S n) w1) as (k & Hk & Hlim & Hstop & Htrace & Hstore & Hres);
        [ lia
        | subst w1; simpl; rewrite Htr, backoff_trace_S, <- !app_assoc; reflexivity
        | exists k; split; [lia|]; split; [|split; [exact Hstop|]];
          [ intros i Hi; destruct (decide (i = n)) as [->|Hne];
            [ rewrite Hresp; exact H429 | apply Hlim; lia ]
          | split; [exact Htrace|]; split; [|exact Hres];
            destruct Hstore as (? & ? & ?); repeat split; assumption ] ]
      | exists n; rewrite Hresp; simpl; rewrite Htr, <- app_assoc;
        split; [lia|]; split; [intros; lia|];
        split; [intros _; exact H429|]; repeat split; reflexivity ].
Qed.

Lemma call_api_with_retry_same_store (prompt : string) (w : world) :
  same_store w (_call_api_with_retry prompt w).2.
Proof.
  destruct (retry_loop_from prompt (trace w) rate_limit_retries 0 w)
    as (k & _ & _ & _ & _ & Hstore & _).
  { reflexivity. }
  { unfold backoff_trace. simpl. rewrite app_nil_r. reflexivity. }
  exact Hstore.
Qed.

Lemma call_api_with_retry_trace (prompt : string) (w : world) :
  exists k,
    k <= rate_limit_retries
    /\ trace (_call_api_with_retry prompt w).2
       = trace w ++ backoff_trace prompt k ++ [Call Gemini prompt].
Proof.
  destruct (retry_loop_from prompt (trace w) rate_limit_retries 0 w)
    as (k & Hk & _ & _ & Htrace & _).
  { reflexivity. }
  { unfold backoff_trace. simpl. rewrite app_nil_r. reflexivity. }
  exists k. split; [lia|exact Htrace].
Qed.

Lemma call_api_with_retry_answered (prompt text : string) (w : world) :
  respond (trace w) Gemini prompt = Ok text ->
  _call_api_with_retry prompt w = (Return text, log_event (Call Gemini prompt) w).
Proof.
  intros Hok. unfold _call_api_with_retry.
  rewrite retry_loop_unfold by (unfold rate_limit_retries; lia).
  rewrite Hok. reflexivity.
Qed.

Lemma backoff_trace_waits (prompt : string) (k : nat) :
  k <= 3 ->
  backoff_trace prompt k = attempts_with_waits prompt (take k retry_waits).
Proof.
  intros Hk. destruct k as [|[|[|[|k]]]]; [reflexivity..|lia].
Qed.

(** C6.  [_call_api_with_retry] sends the prompt, and sends it again after a
    failure only if the failure is a rate limit (its message contains 429)
    and fewer than 3 retries were made; before the retries it sleeps 2, 4
    and 8 seconds.  With [k <= 3] the number of retries made: the first [k]
    answers were rate limits, each followed by its wait; the answer to the
    last attempt is not a rate limit unless the 3 retries are spent; and
    that last answer is the result: its text is returned, or its failure is
    raised, the very exception of the last attempt.  The cache directories
    are not touched. *)
Theorem call_api_with_retry_behaviour (prompt : string) (w : world) :
  exists k,
    k <= 3
    /\ (forall i, i < k ->
          rate_limited
            (respond (trace w ++ attempts_with_waits prompt (take i [2; 4; 8]))
               Gemini prompt) = true)
    /\ (k < 3 ->
        rate_limited
          (respond (trace w ++ attempts_with_waits prompt (take k [2; 4; 8]))
             Gemini prompt) = false)
    /\ trace (_call_api_with_retry prompt w).2
       = trace w ++ attempts_with_waits prompt (take k [2; 4; 8])
         ++ [Call Gemini prompt]
    /\ same_store w (_call_api_with_retry prompt w).2
    /\ (_call_api_with_retry prompt w).1
       = surfaced
           (respond (trace w ++ attempts_with_waits prompt (take k [2; 4; 8]))
              Gemini prompt).
Proof.
  destruct (retry_loop_from prompt (trace w) rate_limit_retries 0 w)
    as (k & Hk & Hlim & Hstop & Htrace & Hstore & Hres).
  { reflexivity. }
  { unfold backoff_trace. simpl. rewrite app_nil_r. reflexivity. }
  unfold rate_limit_retries in Hk, Hstop.
  fold retry_waits.
  exists k. split; [lia|]. split.
  { intros i Hi. rewrite <- backoff_trace_waits by lia. apply Hlim. lia. }
  rewrite <- backoff_trace_waits by lia.
  split; [exact Hstop|]. split; [exact Htrace|]. split; [exact Hstore|exact Hres].
Qed.

End RetryProperties.

(** * Dicts, strings and the monad *)

(** splits an equation between two runs into its result and its world *)
Ltac split_run H :=
  let Hres := fresh "Hres" in
  let Hworld := fresh "Hworld" in
  apply pair_equal_spec in H; destruct H as [Hres Hworld];
  try (injection Hres as Hres); subst.

Section DictFacts.
Context {V : Type}.
Implicit Types (m : list (string * V)) (k : string).

Lemma dict_get_set_eq k (v : V) m : dict_get k (dict_set k v m) = Some v.
Proof.
  induction m as [|[k' v'] m IH]; simpl.
  - destruct (decide (k = k)); [reflexivity|congruence].
  - destruct (decide (k = k')) as [->|Hne]; simpl.
    + destruct (decide (k' = k')); [reflexivity|congruence].
    + destruct (decide (k = k')); [congruence|exact IH].
Qed.

Lemma dict_get_set_ne k k' (v : V) m :
  k <> k' -> dict_get k' (dict_set k v m) = dict_get k' m.
Proof.
  intros Hne. induction m as [|[k0 v0] m IH]; simpl.
  - destruct (decide (k' = k)); [congruence|reflexivity].
  - destruct (decide (k = k0)) as [->|Hk]; simpl.
    + destruct (decide (k' = k0)); [congruence|reflexivity].
    + destruct (decide (k' = k0)); [reflexivity|exact IH].
Qed.

Lemma dict_has_true k m : dict_has k m = true <-> is_Some (dict_get k m).
Proof.
  unfold dict_has. destruct (dict_get k m); split; intros Hx;
    try reflexivity; try discriminate; eauto.
  destruct Hx as [? Hx]; discriminate.
Qed.

Lemma dict_get_default_Some k (d v : V) m :
  dict_get k m = Some v -> dict_get_default k d m = v.
Proof. unfold dict_get_default. intros ->. reflexivity. Qed.

End DictFacts.

Lemma str_length_app (a b : string) :
  String.length (a ++ b)%string = String.length a + String.length b.
Proof. induction a as [|c a IH]; simpl; [reflexivity|rewrite IH; reflexivity]. Qed.

Lemma str_app_inv_tail (x y r : string) : (x ++ r = y ++ r)%string -> x = y.
Proof.
  revert y. induction x as [|c x IH]; intros [|d y] Heq; simpl in Heq.
  - reflexivity.
  - apply (f_equal String.length) in Heq.
    change (String.length r = S (String.length (y ++ r)%string)) in Heq.
    rewrite str_length_app in Heq. lia.
  - apply (f_equal String.length) in Heq.
    change (S (String.length (x ++ r)%string) = String.length r) in Heq.
    rewrite str_length_app in Heq. lia.
  - change (String c (x ++ r)%string = String d (y ++ r)%string) in Heq.
    injection Heq as -> Heq. f_equal. apply IH. exact Heq.
Qed.

(** * Article analysis *)

Section AnalysisProperties.
Context `{Environment}.

Lemma analyze_article_hit title content w v :
  cached_analysis title content w = Some v ->
  analyze_article title content w = (Return v, w).
Proof.
  unfold cached_analysis, cached_at, analyze_article, mbind, M_bind, _check_cache.
  intros ->. reflexivity.
Qed.

Lemma analyze_article_miss title content w :
  cached_analysis title content w = None ->
  analyze_article title content w =
  match _call_api_with_retry (analysis_prompt title content) w with
  | (Return text, w1) =>
      match analysis_of_reply title text with
      | Return r =>
          (Return r,
           if store_up w1
           then write_cache (analysis_cache_key title content) r w1
           else w1)
      | Raise e => (Raise e, w1)
      end
  | (Raise e, w1) => (Raise e, w1)
  end.
Proof.
  unfold cached_analysis, cached_at, analyze_article, mbind, M_bind, _check_cache.
  intros ->. unfold try_except, pure, _save_to_cache, raise, mret, M_ret.
  destruct (_call_api_with_retry _ w) as [[text|e] w1]; [|reflexivity].
  destruct (analysis_of_reply title text) as [r|e]; reflexivity.
Qed.

Lemma dict_has_fill_default_keep k f (m : list (string * json)) :
  dict_has k m = true -> dict_has k (fill_default m f) = true.
Proof.
  intros Hk. unfold fill_default.
  destruct (dict_has f m) eqn:Hf; simpl; [exact Hk|].
  assert (k <> f) as Hne by (intros ->; congruence).
  apply dict_has_true in Hk.
  repeat case_bool_decide; apply dict_has_true;
    rewrite dict_get_set_ne by congruence; exact Hk.
Qed.

Lemma dict_has_fill_default_new f (m : list (string * json)) :
  dict_has f (fill_default m f) = true.
Proof.
  unfold fill_default. destruct (dict_has f m) eqn:Hf; simpl; [exact Hf|].
  repeat case_bool_decide; apply dict_has_true; rewrite dict_get_set_eq; eauto.
Qed.

Lemma score_after_defaults (m : list (string * json)) :
  dict_has "Sentiment_Score" (fold_left fill_default required_fields m) = true.
Proof.
  unfold required_fields. simpl.
  do 2 apply dict_has_fill_default_keep. apply dict_has_fill_default_new.
Qed.

Lemma dict_get_preserve_title title k (m : list (string * json)) :
  k <> "Title" -> dict_get k (preserve_title title m) = dict_get k m.
Proof.
  intros Hne. unfold preserve_title.
  destruct (_ || _); [|reflexivity].
  apply dict_get_set_ne. congruence.
Qed.

Lemma analysis_of_reply_consistent title text r :
  analysis_of_reply title text = Return r -> label_consistent r.
Proof.
  unfold analysis_of_reply.
  destruct (json_loads (extract_json text)) as [[| | | | |m]|]; try discriminate.
  set (m' := preserve_title title (fold_left fill_default required_fields m)).
  destruct (dict_get "Sentiment_Score" m') as [score|] eqn:Hscore.
  - rewrite (dict_get_default_Some _ _ _ _ Hscore).
    destruct (sentiment_of_score score) as [label|e] eqn:Hlabel; simpl;
      [|discriminate].
    intros [= <-]. exists (dict_set "Sentiment" (JStr label) m'), score, label.
    split; [reflexivity|]. split.
    { rewrite dict_get_set_ne by discriminate. exact Hscore. }
    split; [exact Hlabel|apply dict_get_set_eq].
  - exfalso. subst m'.
    rewrite dict_get_preserve_title in Hscore by discriminate.
    pose proof (score_after_defaults m) as Hhas.
    apply dict_has_true in Hhas. rewrite Hscore in Hhas.
    destruct Hhas; discriminate.
Qed.





Lemma sentiment_of_score_label (score : json) (label : string) :
  sentiment_of_score score = Return label -> label ∈ five_labels.
Proof.
  unfold sentiment_of_score, five_labels, mbind, exc_bind.
  repeat match goal with
         | |- context [py_le ?x ?c] => destruct (py_le x c) as [[|]|]
         end;
    intros [= <-]; repeat constructor.
Qed.

(** a record that [analyze_article] returns counts in the tally of
    [generate_comparative_analysis] *)
Lemma label_consistent_counted (r : json) :
  label_consistent r -> is_Some (counted_label r).
Proof.
  intros (m & score & label & -> & _ & Hlabel & Hsent).
  apply sentiment_of_score_label in Hlabel.
  unfold counted_label. rewrite (dict_get_default_Some _ _ _ _ Hsent).
  rewrite bool_decide_eq_true_2 by exact Hlabel. eauto.
Qed.

Lemma label_consistent_truthy (r : json) : label_consistent r -> truthy r = true.
Proof.
  intros (m & score & label & -> & Hscore & _).
  destruct m; [discriminate|reflexivity].
Qed.

Lemma analyze_article_again title content w r w1 :
  store_up w = true ->
  cached_analysis title content w = None ->
  analyze_article title content w = (Return r, w1) ->
  cached_analysis title content w1 = Some r.
Proof.
  intros Hup Hmiss Hrun. rewrite (analyze_article_miss _ _ _ Hmiss) in Hrun.
  pose proof (call_api_with_retry_same_store (analysis_prompt title content) w)
    as (Hup1 & _ & _).
  destruct (_call_api_with_retry _ w) as [[text|e] w0]; [|discriminate].
  simpl in Hup1. rewrite Hup in Hup1.
  destruct (analysis_of_reply title text) as [r0|e] eqn:Hreply; [|discriminate].
  rewrite Hup1 in Hrun. split_run Hrun.
  unfold cached_analysis, cached_at. simpl. rewrite Hup1, lookup_insert_eq.
  unfold cache_hit.
  rewrite (label_consistent_truthy _ (analysis_of_reply_consistent _ _ _ Hreply)).
  reflexivity.
Qed.

(** C9.  With the cache store working and no record yet under the key of
    [(title, content)], a call of [analyze_article] that returns [r] has
    submitted the prompt to [_call_api_with_retry] exactly once: the events
    of the call are those of that one submission, that is one request,
    preceded only by the requests of the same prompt that were rate limited
    and their back-off sleeps (at most three), hence a single request when
    the service answers at once.  The same call made again returns [r] from
    the cache and leaves the world as it is: no request, no sleep, no
    write. *)
Theorem analyze_article_twice_calls_once (title content : string)
    (w w1 : world) (r : json) :
  store_up w = true ->
  cached_analysis title content w = None ->
  analyze_article title content w = (Return r, w1) ->
  (exists text w0,
     _call_api_with_retry (analysis_prompt title content) w = (Return text, w0)
     /\ trace w1 = trace w0)
  /\ (exists k,
        k <= rate_limit_retries
        /\ trace w1 = trace w ++ backoff_trace (analysis_prompt title content) k
                      ++ [Call Gemini (analysis_prompt title content)])
  /\ (forall text,
        respond (trace w) Gemini (analysis_prompt title content) = Ok text ->
        trace w1 = trace w ++ [Call Gemini (analysis_prompt title content)]
        /\ calls_made (trace w1) = calls_made (trace w) + 1)
  /\ analyze_article title content w1 = (Return r, w1).
Proof.
  intros Hup Hmiss Hrun.
  pose proof (analyze_article_again _ _ _ _ _ Hup Hmiss Hrun) as Hcached.
  rewrite (analyze_article_miss _ _ _ Hmiss) in Hrun.
  pose proof (call_api_with_retry_trace (analysis_prompt title content) w)
    as (k & Hk & Hktrace).
  destruct (_call_api_with_retry _ w) as [[text|e] w0] eqn:Hcall; [|discriminate].
  destruct (analysis_of_reply title text) as [r0|e] eqn:Hreply; [|discriminate].
  split_run Hrun.
  assert (trace (if store_up w0
                 then write_cache (analysis_cache_key title content) r w0
                 else w0) = trace w0) as Htr
    by (destruct (store_up w0); reflexivity).
  split; [exists text, w0; split; [reflexivity|exact Htr]|].
  split; [exists k; split; [exact Hk|rewrite Htr; exact Hktrace]|].
  split; [|apply analyze_article_hit; exact Hcached].
  intros text' Hok. rewrite Htr.
  rewrite (call_api_with_retry_answered _ _ _ Hok) in Hcall.
  split_run Hcall. simpl. split; [reflexivity|].
  unfold calls_made. rewrite List.filter_app, length_app. reflexivity.
Qed.

Lemma analysis_prompt_inj title c1 c2 :
  analysis_prompt title c1 = analysis_prompt title c2 ->
  PyStr.take 4000 c1 = PyStr.take 4000 c2.
Proof.
  unfold analysis_prompt. intros Heq.
  apply (inj (String.app (analysis_prompt_head title))) in Heq.
  apply str_app_inv_tail in Heq. exact Heq.
Qed.

(** C10.  The cache key of [analyze_article] is computed from the title and
    the first 1000 characters of the content, the prompt from the first 4000.
    So, with the cache store working, once [analyze_article title c1] has
    returned a record, [analyze_article title c2] returns that same record
    for every [c2] that agrees with [c1] on the first 1000 characters, and
    changes nothing in the world (no request is made), although the two
    prompts differ as soon as the contents differ in their first 4000
    characters. *)
Theorem analyze_article_stale_beyond_prefix (title c1 c2 : string)
    (w w1 : world) (r : json) :
  store_up w = true ->
  PyStr.take 1000 c1 = PyStr.take 1000 c2 ->
  analyze_article title c1 w = (Return r, w1) ->
  analysis_cache_key title c1 = analysis_cache_key title c2
  /\ (PyStr.take 4000 c1 <> PyStr.take 4000 c2 ->
      analysis_prompt title c1 <> analysis_prompt title c2)
  /\ analyze_article title c2 w1 = (Return r, w1).
Proof.
  intros Hup Hprefix Hrun.
  assert (analysis_cache_key title c1 = analysis_cache_key title c2) as Hkey
    by (unfold analysis_cache_key; rewrite Hprefix; reflexivity).
  split; [exact Hkey|].
  split; [intros Hne Heq; apply Hne, (analysis_prompt_inj title), Heq|].
  apply analyze_article_hit.
  assert (cached_analysis title c2 w1 = cached_analysis title c1 w1) as ->
    by (unfold cached_analysis; rewrite Hkey; reflexivity).
  destruct (cached_analysis title c1 w) as [v|] eqn:Hc.
  - rewrite (analyze_article_hit _ _ _ _ Hc) in Hrun.
    split_run Hrun. exact Hc.
  - apply (analyze_article_again _ _ _ _ _ Hup Hc Hrun).
Qed.

End AnalysisProperties.

(** * Comparative analysis *)

Lemma bind_Return {A B} (r : exc A) (k : A -> exc B) (b : B) :
  r ≫= k = Return b -> exists a, r = Return a /\ k a = Return b.
Proof. destruct r as [a|e]; simpl; [eauto|discriminate]. Qed.

Lemma all_strings_app (l1 l2 : list json) (s1 s2 : list string) :
  all_strings l1 = Some s1 -> all_strings l2 = Some s2 ->
  all_strings (l1 ++ l2) = Some (s1 ++ s2).
Proof.
  revert s1. induction l1 as [|x l1 IH]; intros s1 H1 H2; simpl in *.
  - injection H1 as <-. exact H2.
  - destruct x; try discriminate.
    destruct (all_strings l1) as [s1'|] eqn:Hl1; [|discriminate].
    simpl in H1. injection H1 as <-.
    rewrite (IH s1' eq_refl H2). reflexivity.
Qed.

Lemma dist_of_ext (f g : string -> nat) :
  (forall label, label ∈ five_labels -> f label = g label) ->
  dist_of f = dist_of g.
Proof.
  intros Hfg. unfold dist_of, five_labels. simpl.
  rewrite !Hfg by (unfold five_labels; repeat constructor). reflexivity.
Qed.

Lemma label_cases (s : string) :
  s ∈ five_labels ->
  s = "Very Positive" \/ s = "Positive" \/ s = "Neutral" \/ s = "Negative"
  \/ s = "Very Negative".
Proof.
  unfold five_labels. intros Hs.
  repeat (apply elem_of_cons in Hs; destruct Hs as [Hs|Hs]; [tauto|]).
  inversion Hs.
Qed.

Lemma count_label_cons (label : string) (a : json) (rest : list json) :
  count_label label (a :: rest) =
  (if bool_decide (counted_label a = Some label) then 1 else 0)
  + count_label label rest.
Proof.
  unfold count_label. simpl.
  destruct (bool_decide (counted_label a = Some label)); reflexivity.
Qed.

(** counting one more article under its label *)
Lemma increment_dist_of (f : string -> nat) (s : string) :
  s ∈ five_labels ->
  dict_has s (dist_of f) = true /\
  increment (JStr s) (dist_of f) =
  dist_of (fun label => f label + if bool_decide (Some s = Some label) then 1 else 0).
Proof.
  intros Hs. apply label_cases in Hs.
  destruct Hs as [->|[->|[->|[->| ->]]]];
    (split; [reflexivity|]);
    unfold increment, dist_of, five_labels; cbn -[Nat.add];
    rewrite !Nat.add_0_r; reflexivity.
Qed.

Lemma counts_total_dist_of (f : string -> nat) :
  counts_total (dist_of f) =
  f "Very Positive" + f "Positive" + f "Neutral" + f "Negative" + f "Very Negative".
Proof. unfold counts_total, dist_of, five_labels. simpl. lia. Qed.

Lemma counts_total_count_label (articles : list json) :
  Forall (fun a => is_Some (counted_label a)) articles ->
  counts_total (dist_of (fun label => count_label label articles))
  = length articles.
Proof.
  rewrite counts_total_dist_of.
  induction 1 as [|a rest [s Hs] _ IH]; [reflexivity|].
  rewrite !count_label_cons, Hs. simpl length.
  assert (s ∈ five_labels) as Hin.
  { unfold counted_label in Hs. destruct a; try discriminate.
    destruct (dict_get_default _ _ _); try discriminate.
    case_bool_decide; [|discriminate]. injection Hs as <-. assumption. }
  apply label_cases in Hin.
  destruct Hin as [->|[->|[->|[->| ->]]]];
    repeat case_bool_decide; try congruence; lia.
Qed.

Section AggregationProperties.
Context `{Environment}.

Lemma tally_article_inv (t t' : tally) (a : json) :
  tally_article t a = Return t' ->
  exists m new_topics,
    a = JObj m
    /\ py_iter (dict_get_default "Topics" (JArr []) m) = Return new_topics
    /\ all_topics t' = all_topics t ++ new_topics
    /\ sentiment_dist t' =
       match py_in_keys (dict_get_default "Sentiment" (JStr "Neutral") m)
               (sentiment_dist t) with
       | Return true =>
           increment (dict_get_default "Sentiment" (JStr "Neutral") m)
             (sentiment_dist t)
       | _ => sentiment_dist t
       end
    /\ py_add (total_score t) (dict_get_default "Sentiment_Score" (JNum (Qc_of_Z 3)) m)
       = Return (total_score t').
Proof.
  unfold tally_article. destruct a as [| | | | |m]; try discriminate.
  unfold py_get. intros Hrun.
  apply bind_Return in Hrun as (sentiment & [= <-] & Hrun).
  apply bind_Return in Hrun as (known & Hknown & Hrun).
  apply bind_Return in Hrun as (score & [= <-] & Hrun).
  apply bind_Return in Hrun as (total & Htotal & Hrun).
  apply bind_Return in Hrun as (title & [= <-] & Hrun).
  apply bind_Return in Hrun as (topics & [= <-] & Hrun).
  apply bind_Return in Hrun as (new_topics & Htopics & Hrun).
  apply bind_Return in Hrun as (indicators & [= <-] & Hrun).
  apply bind_Return in Hrun as (new_indicators & Hinds & Hrun).
  injection Hrun as <-. exists m, new_topics. simpl.
  rewrite Hknown. repeat split; try assumption.
Qed.

Lemma digest_article_inv (i : nat) (a : json) (d : string) :
  digest_article i a = Return d ->
  exists m l ss,
    a = JObj m
    /\ py_iter (dict_get_default "Topics" (JArr []) m) = Return l
    /\ all_strings l = Some ss.
Proof.
  unfold digest_article. destruct a as [| | | | |m]; try discriminate.
  unfold py_get. intros Hrun.
  apply bind_Return in Hrun as (title & [= <-] & Hrun).
  apply bind_Return in Hrun as (sentiment & [= <-] & Hrun).
  apply bind_Return in Hrun as (score & [= <-] & Hrun).
  apply bind_Return in Hrun as (topics & [= <-] & Hrun).
  apply bind_Return in Hrun as (topics_str & Hjoin & Hrun).
  unfold py_join in Hjoin.
  apply bind_Return in Hjoin as (l & Hiter & Hjoin).
  destruct (all_strings l) as [ss|] eqn:Hss; [|discriminate].
  exists m, l, ss. repeat split; assumption.
Qed.

Lemma tally_articles_objects (articles : list json) :
  forall t t', tally_articles t articles = Return t' ->
               Forall is_object articles.
Proof.
  induction articles as [|a rest IH]; intros t t' Hrun; [constructor|].
  simpl in Hrun. apply bind_Return in Hrun as (t1 & Hone & Hrest).
  apply tally_article_inv in Hone as (m & _ & -> & _).
  constructor; [exists m; reflexivity|eapply IH; eassumption].
Qed.

(** when the digest is built, the topics that the tally collected are strings *)
Lemma digest_topics_are_strings (articles : list json) :
  forall t t' i ds ss,
    tally_articles t articles = Return t' ->
    digest_articles i articles = Return ds ->
    all_strings (all_topics t) = Some ss ->
    all_strings (all_topics t') = Some (ss ++ topics_seen articles).
Proof.
  induction articles as [|a rest IH]; intros t t' i ds ss Htally Hdigest Hss.
  - simpl in Htally. injection Htally as <-. simpl. rewrite app_nil_r. exact Hss.
  - simpl in Htally, Hdigest.
    apply bind_Return in Htally as (t1 & Hone & Hrest).
    apply bind_Return in Hdigest as (d & Hd & Hdigest).
    apply bind_Return in Hdigest as (ds' & Hds & _).
    apply tally_article_inv in Hone as (m & new_topics & -> & Hiter & Htopics & _).
    apply digest_article_inv in Hd as (m' & l & ss' & [= <-] & Hiter' & Hl).
    rewrite Hiter in Hiter'. injection Hiter' as <-.
    assert (article_topics (JObj m) = ss') as Hat.
    { unfold article_topics, py_get. rewrite Hiter, Hl. reflexivity. }
    unfold topics_seen. simpl. rewrite Hat, app_assoc.
    apply (IH t1 t' (S i) ds'); [exact Hrest|exact Hds|].
    rewrite Htopics. apply all_strings_app; assumption.
Qed.

(** the tally counts each article under its label *)
Lemma tally_articles_dist (articles : list json) :
  forall t t' f,
    Forall (fun a => is_Some (counted_label a)) articles ->
    sentiment_dist t = dist_of f ->
    tally_articles t articles = Return t' ->
    sentiment_dist t' = dist_of (fun label => f label + count_label label articles).
Proof.
  induction articles as [|a rest IH]; intros t t' f Hall Hdist Hrun.
  - simpl in Hrun. injection Hrun as <-. rewrite Hdist.
    apply dist_of_ext. intros label _. unfold count_label. simpl. lia.
  - inversion Hall as [|? ? [s Hs] Hrest]; subst.
    simpl in Hrun. apply bind_Return in Hrun as (t1 & Hone & Hrun).
    apply tally_article_inv in Hone as (m & _ & -> & _ & _ & Hd & _).
    pose proof Hs as Hlabel. unfold counted_label in Hs.
    destruct (dict_get_default "Sentiment" (JStr "Neutral") m) as [| | |s'| |];
      try discriminate.
    case_bool_decide as Hin; [|discriminate]. injection Hs as ->.
    rewrite Hdist in Hd. unfold py_in_keys in Hd.
    destruct (increment_dist_of f s Hin) as [Hhas Hinc].
    rewrite Hhas, Hinc in Hd.
    rewrite (IH t1 t' _ Hrest Hd Hrun).
    apply dist_of_ext. intros label _.
    rewrite count_label_cons, Hlabel.
    lia.
Qed.


Lemma dict_has_dist_of (f : string -> nat) (s : string) :
  dict_has s (dist_of f) = true -> s ∈ five_labels.
Proof.
  unfold dict_has, dist_of, five_labels. simpl.
  repeat (destruct (decide (s = _)) as [->|?]; [intros _; repeat constructor|]).
  discriminate.
Qed.

(** the tally counts each article under its label, and an article whose
    label is none of the five under none *)
Lemma tally_articles_counts (articles : list json) :
  forall t t' f,
    sentiment_dist t = dist_of f ->
    tally_articles t articles = Return t' ->
    sentiment_dist t' = dist_of (fun label => f label + count_label label articles).
Proof.
  induction articles as [|a rest IH]; intros t t' f Hdist Hrun.
  - simpl in Hrun. injection Hrun as <-. rewrite Hdist.
    apply dist_of_ext. intros label _. unfold count_label. simpl. lia.
  - simpl in Hrun. apply bind_Return in Hrun as (t1 & Hone & Hrun).
    apply tally_article_inv in Hone as (m & _ & -> & _ & _ & Hd & _).
    rewrite Hdist in Hd.
    destruct (counted_label (JObj m)) as [s|] eqn:Hlabel.
    + pose proof Hlabel as Hs. unfold counted_label in Hs.
      destruct (dict_get_default "Sentiment" (JStr "Neutral") m) as [| | |s'| |];
        try discriminate.
      case_bool_decide as Hin; [|discriminate]. injection Hs as ->.
      unfold py_in_keys in Hd.
      destruct (increment_dist_of f s Hin) as [Hhas Hinc].
      rewrite Hhas, Hinc in Hd.
      rewrite (IH t1 t' _ Hd Hrun).
      apply dist_of_ext. intros label _.
      rewrite count_label_cons, Hlabel. lia.
    + assert (sentiment_dist t1 = dist_of f) as Hsame.
      { unfold counted_label in Hlabel.
        destruct (dict_get_default "Sentiment" (JStr "Neutral") m) as [| | |s'| |];
          try exact Hd.
        unfold py_in_keys in Hd.
        destruct (dict_has s' (dist_of f)) eqn:Hhas; [|exact Hd].
        apply dict_has_dist_of in Hhas.
        rewrite bool_decide_eq_true_2 in Hlabel by exact Hhas. discriminate. }
      rewrite (IH t1 t' _ Hsame Hrun).
      apply dist_of_ext. intros label _.
      rewrite count_label_cons, Hlabel.
      rewrite bool_decide_eq_false_2 by discriminate. lia.
Qed.

Lemma comprehension_titles (dflt : json) (articles : list json) :
  Forall is_object articles ->
  comprehension (fun article => py_get article "Title" dflt) articles
  = Return ((fun a => match a with
                      | JObj m => dict_get_default "Title" dflt m
                      | _ => JNull
                      end) <$> articles).
Proof.
  induction 1 as [|a rest [m ->] _ IH]; [reflexivity|].
  simpl. rewrite IH. reflexivity.
Qed.

Lemma first_two_titles_objects (articles : list json) :
  Forall is_object articles ->
  first_two_titles articles = Return (JArr (title_or_unknown <$> take 2 articles)).
Proof.
  intros Hobj. unfold first_two_titles.
  rewrite comprehension_titles by (apply Forall_take; exact Hobj).
  reflexivity.
Qed.

Lemma local_analysis_inv company articles t avg prompt :
  local_analysis company articles = Return (t, avg, prompt) ->
  tally_articles initial_tally articles = Return t
  /\ avg = average (total_score t) (length articles)
  /\ Forall is_object articles
  /\ all_strings (all_topics t) = Some (topics_seen articles).
Proof.
  unfold local_analysis. intros Hrun.
  apply bind_Return in Hrun as (t0 & Htally & Hrun).
  apply bind_Return in Hrun as (ds & Hdigest & Hrun).
  apply (f_equal (fun r => match r with
                           | Return (t', avg', _) => Some (t', avg')
                           | Raise _ => None
                           end)) in Hrun.
  injection Hrun as -> <-.
  split; [exact Htally|]. split; [reflexivity|].
  split; [eapply tally_articles_objects; exact Htally|].
  apply (digest_topics_are_strings articles initial_tally t 0 ds []
           Htally Hdigest eq_refl).
Qed.

(** the record completed from a reply that parsed to the object [m] *)
Lemma complete_result_fields t avg articles (m : list (string * json)) :
  Forall is_object articles ->
  all_strings (all_topics t) = Some (topics_seen articles) ->
  exists rm,
    complete_result t avg articles m = Return (JObj rm)
    /\ dict_get "Sentiment_Distribution" rm = Some (json_of_dist (sentiment_dist t))
    /\ dict_get "Average_Sentiment_Score" rm = Some (JNum avg)
    /\ dict_get "Coverage_Differences" rm =
       Some (if missing_or_empty "Coverage_Differences" m
             then JArr [fallback_difference (JArr (title_or_unknown <$> take 2 articles))]
             else dict_get_default "Coverage_Differences" JNull m)
    /\ dict_get "Topic_Analysis" rm =
       Some (default
               (JObj [("Common_Topics",
                       JArr (JStr <$> take 5 (set_listing (topics_seen articles))));
                      ("Topic_Sentiment_Map", JObj [])])
               (dict_get "Topic_Analysis" m)).
Proof.
  intros Hobj Htopics. unfold complete_result.
  set (m1 := dict_set "Sentiment_Distribution" _ m).
  set (m2 := dict_set "Average_Sentiment_Score" _ m1).
  assert (forall k, k <> "Sentiment_Distribution" -> k <> "Average_Sentiment_Score" ->
                    dict_get k m2 = dict_get k m) as Hkeep.
  { intros k H1 H2. subst m2 m1.
    rewrite !dict_get_set_ne by congruence. reflexivity. }
  rewrite (first_two_titles_objects _ Hobj).
  unfold distinct_topics. rewrite Htopics.
  set (fallback := JArr [fallback_difference _]).
  set (topics := JObj [("Common_Topics", _); _]).
  set (m3 := if negb (dict_has "Coverage_Differences" m2)
                || negb (truthy (dict_get_default "Coverage_Differences" JNull m2))
             then dict_set "Coverage_Differences" fallback m2 else m2).
  set (m4 := if negb (dict_has "Sentiment_Drivers" m3)
             then dict_set "Sentiment_Drivers" empty_drivers m3 else m3).
  set (m5 := if negb (dict_has "Topic_Analysis" m4)
             then dict_set "Topic_Analysis" topics m4 else m4).
  exists m5. split.
  { subst m5 m4 m3 fallback topics. unfold mbind, exc_bind.
    destruct (negb (dict_has "Coverage_Differences" m2)
              || negb (truthy (dict_get_default "Coverage_Differences" JNull m2)));
      cbv beta iota;
      match goal with
      | |- context [negb (dict_has "Topic_Analysis" ?x)] =>
          destruct (negb (dict_has "Topic_Analysis" x))
      end; reflexivity. }
  assert (forall k, k <> "Topic_Analysis" -> dict_get k m5 = dict_get k m4) as H54.
  { intros k Hk. subst m5.
    destruct (negb (dict_has "Topic_Analysis" m4)); [|reflexivity].
    apply dict_get_set_ne. congruence. }
  assert (forall k, k <> "Sentiment_Drivers" -> dict_get k m4 = dict_get k m3) as H43.
  { intros k Hk. subst m4.
    destruct (negb (dict_has "Sentiment_Drivers" m3)); [|reflexivity].
    apply dict_get_set_ne. congruence. }
  assert (forall k, k <> "Coverage_Differences" -> dict_get k m3 = dict_get k m2) as H32.
  { intros k Hk. subst m3.
    destruct (negb (dict_has "Coverage_Differences" m2) || _); [|reflexivity].
    apply dict_get_set_ne. congruence. }
  split.
  { rewrite H54, H43, H32 by discriminate. subst m2 m1.
    rewrite dict_get_set_ne by discriminate. apply dict_get_set_eq. }
  split.
  { rewrite H54, H43, H32 by discriminate. subst m2. apply dict_get_set_eq. }
  split.
  { rewrite H54, H43 by discriminate. subst m3.
    unfold missing_or_empty, dict_has, dict_get_default.
    rewrite Hkeep by discriminate.
    destruct (dict_get "Coverage_Differences" m) as [cd|] eqn:Hcd; simpl.
    - destruct (truthy cd); simpl.
      + rewrite Hkeep by discriminate. rewrite Hcd. reflexivity.
      + apply dict_get_set_eq.
    - apply dict_get_set_eq. }
  subst m5. unfold dict_has.
  destruct (dict_get "Topic_Analysis" m4) as [ta|] eqn:Hta; simpl.
  - rewrite Hta. rewrite H43, H32, Hkeep in Hta by discriminate.
    rewrite Hta. reflexivity.
  - rewrite dict_get_set_eq. rewrite H43, H32, Hkeep in Hta by discriminate.
    rewrite Hta. reflexivity.
Qed.

Lemma generate_comparative_analysis_hit company articles key w v :
  comparative_cache_key company articles = Return key ->
  cached_at key w = Some v ->
  generate_comparative_analysis company articles w = (Return v, w).
Proof.
  unfold cached_at, generate_comparative_analysis, mbind, M_bind, pure, _check_cache.
  intros -> ->. reflexivity.
Qed.

Lemma generate_comparative_analysis_miss company articles key w :
  comparative_cache_key company articles = Return key ->
  cached_at key w = None ->
  generate_comparative_analysis company articles w =
  match local_analysis company articles with
  | Raise e => (Raise e, w)
  | Return (t, avg, prompt) =>
      match _call_api_with_retry prompt w with
      | (Raise e, w1) => (Raise e, w1)
      | (Return text, w1) =>
          match comparison_of_reply t avg articles text with
          | Raise e => (Raise e, w1)
          | Return r =>
              (Return r, if store_up w1 then write_cache key r w1 else w1)
          end
      end
  end.
Proof.
  unfold cached_at, generate_comparative_analysis, mbind, M_bind, pure, _check_cache.
  intros -> ->. unfold try_except, _save_to_cache, raise, mret, M_ret.
  destruct (local_analysis company articles) as [[[t avg] prompt]|e]; [|reflexivity].
  destruct (_call_api_with_retry prompt w) as [[text|e] w1]; [|reflexivity].
  destruct (comparison_of_reply t avg articles text) as [r|e]; reflexivity.
Qed.


(** what [generate_comparative_analysis] makes of a reply is a non-empty dict *)
Lemma comparison_of_reply_truthy company articles t avg prompt text r :
  local_analysis company articles = Return (t, avg, prompt) ->
  comparison_of_reply t avg articles text = Return r ->
  truthy r = true.
Proof.
  intros Hlocal Hreply.
  apply local_analysis_inv in Hlocal as (_ & _ & Hobj & Htopics).
  unfold comparison_of_reply in Hreply.
  destruct (json_loads (extract_json text)) as [[| | | | |m]|]; try discriminate.
  - destruct (complete_result_fields t avg articles m Hobj Htopics)
      as (rm & Hrm & Hsd & _).
    rewrite Hrm in Hreply. injection Hreply as <-.
    destruct rm; [discriminate|reflexivity].
  - destruct (json_loads_raises _); try discriminate.
    unfold basic_result in Hreply.
    rewrite (first_two_titles_objects _ Hobj) in Hreply.
    unfold distinct_topics in Hreply. rewrite Htopics in Hreply.
    injection Hreply as <-. reflexivity.
Qed.

(** Two lists of articles with the same cache key: with the cache store
    working, once the first has been analysed the second gets the record of
    the first, and nothing is computed or requested for it. *)
Lemma generate_comparative_analysis_same_key company first second key w w1 r :
  store_up w = true ->
  comparative_cache_key company first = Return key ->
  comparative_cache_key company second = Return key ->
  generate_comparative_analysis company first w = (Return r, w1) ->
  generate_comparative_analysis company second w1 = (Return r, w1).
Proof.
  intros Hup Hkey1 Hkey2 Hrun.
  apply (generate_comparative_analysis_hit _ _ _ _ _ Hkey2).
  destruct (cached_at key w) as [v|] eqn:Hc.
  - rewrite (generate_comparative_analysis_hit _ _ _ _ _ Hkey1 Hc) in Hrun.
    split_run Hrun. exact Hc.
  - rewrite (generate_comparative_analysis_miss _ _ _ _ Hkey1 Hc) in Hrun.
    destruct (local_analysis company first) as [[[t avg] prompt]|e] eqn:Hlocal;
      [|discriminate].
    pose proof (call_api_with_retry_same_store prompt w) as (Hup1 & _ & _).
    destruct (_call_api_with_retry prompt w) as [[text|e] w0]; [|discriminate].
    simpl in Hup1. rewrite Hup in Hup1.
    destruct (comparison_of_reply t avg first text) as [r0|e] eqn:Hreply;
      [|discriminate].
    rewrite Hup1 in Hrun. split_run Hrun.
    unfold cached_at. simpl. rewrite Hup1, lookup_insert_eq. unfold cache_hit.
    rewrite (comparison_of_reply_truthy _ _ _ _ _ _ _ Hlocal Hreply).
    reflexivity.
Qed.

Lemma first_distinct_elem (l seen : list string) (x : string) :
  x ∈ first_distinct seen l <-> x ∈ l /\ x ∉ seen.
Proof.
  revert seen. induction l as [|y l IH]; intros seen; simpl.
  - split; [intros Hx; inversion Hx|intros [Hx _]; inversion Hx].
  - case_bool_decide as Hy.
    + rewrite IH, elem_of_cons. split; [tauto|].
      intros [[->|Hx] Hseen]; [contradiction|tauto].
    + rewrite !elem_of_cons, IH, elem_of_cons. split.
      * intros [->|[Hx Hns]]; [tauto|]. split; [tauto|]. tauto.
      * intros [[->|Hx] Hseen]; [tauto|].
        destruct (decide (x = y)) as [->|Hne]; [tauto|]. right. tauto.
Qed.

Lemma first_distinct_NoDup (l seen : list string) : NoDup (first_distinct seen l).
Proof.
  revert seen. induction l as [|y l IH]; intros seen; simpl; [constructor|].
  case_bool_decide; [apply IH|]. constructor; [|apply IH].
  rewrite first_distinct_elem, elem_of_cons. tauto.
Qed.

Lemma set_listing_first_distinct (l : list string) :
  set_listing l ≡ₚ first_distinct [] l.
Proof.
  apply NoDup_Permutation;
    [apply set_listing_NoDup|apply first_distinct_NoDup|].
  intros x. rewrite set_listing_elem, first_distinct_elem.
  split; [intros Hx; split; [exact Hx|apply not_elem_of_nil]|tauto].
Qed.

(** C2 (amended).  When no comparative analysis is cached under the key of
    the company name and the first three titles, and every article counts
    under one of the five labels, the record that
    [generate_comparative_analysis] returns holds under
    ["Sentiment_Distribution"] the distribution counted from the articles,
    one count per article under its label, whatever distribution the reply
    proposed, and the five counts sum to the number of articles. *)
Theorem comparison_distribution_recomputed (company : string)
    (articles : list json) (key : string) (w w' : world) (r : json) :
  comparative_cache_key company articles = Return key ->
  cached_at key w = None ->
  Forall (fun a => is_Some (counted_label a)) articles ->
  generate_comparative_analysis company articles w = (Return r, w') ->
  exists m,
    r = JObj m
    /\ dict_get "Sentiment_Distribution" m
       = Some (json_of_dist (dist_of (fun label => count_label label articles)))
    /\ counts_total (dist_of (fun label => count_label label articles))
       = length articles.
Proof.
  intros Hkey Hmiss Hlabels Hrun.
  rewrite (generate_comparative_analysis_miss _ _ _ _ Hkey Hmiss) in Hrun.
  destruct (local_analysis company articles) as [[[t avg] prompt]|e] eqn:Hlocal;
    [|discriminate].
  apply local_analysis_inv in Hlocal as (Htally & _ & Hobj & Htopics).
  assert (sentiment_dist t = dist_of (fun label => count_label label articles))
    as Hdist.
  { rewrite (tally_articles_dist articles initial_tally t (fun _ => 0)
               Hlabels eq_refl Htally).
    apply dist_of_ext. intros label _. reflexivity. }
  destruct (_call_api_with_retry prompt w) as [[text|e] w1]; [|discriminate].
  destruct (comparison_of_reply t avg articles text) as [r0|e] eqn:Hreply;
    [|discriminate].
  split_run Hrun. rewrite <- Hdist.
  unfold comparison_of_reply in Hreply.
  destruct (json_loads (extract_json text)) as [[| | | | |m]|]; try discriminate.
  - destruct (complete_result_fields t avg articles m Hobj Htopics)
      as (rm & Hrm & Hsd & _).
    rewrite Hrm in Hreply. injection Hreply as <-.
    exists rm. split; [reflexivity|]. split; [exact Hsd|].
    rewrite Hdist. apply counts_total_count_label. exact Hlabels.
  - destruct (json_loads_raises _); try discriminate.
    unfold basic_result in Hreply.
    rewrite (first_two_titles_objects _ Hobj) in Hreply.
    unfold distinct_topics in Hreply. rewrite Htopics in Hreply.
    injection Hreply as <-. eexists. split; [reflexivity|].
    split; [reflexivity|].
    rewrite Hdist. apply counts_total_count_label. exact Hlabels.
Qed.

(** C7.  On a cache miss, when the call returns a text that parses to a JSON
    object, [generate_comparative_analysis] returns a record whose
    ["Coverage_Differences"] is never empty: if the reply has no such field,
    or has it empty, it is exactly one entry, with the fixed comparison and
    impact texts and, as articles involved, the titles of the first two
    articles as they are (["Unknown"] for an article without a title);
    otherwise it is the list of the reply. *)
Theorem comparison_coverage_differences_never_empty (company : string)
    (articles : list json) (key : string) (t : tally) (avg : Qc)
    (prompt text : string) (w w1 : world) (m : list (string * json)) :
  comparative_cache_key company articles = Return key ->
  cached_at key w = None ->
  local_analysis company articles = Return (t, avg, prompt) ->
  _call_api_with_retry prompt w = (Return text, w1) ->
  json_loads (extract_json text) = Some (JObj m) ->
  exists rm w' cd,
    generate_comparative_analysis company articles w = (Return (JObj rm), w')
    /\ dict_get "Coverage_Differences" rm = Some cd
    /\ truthy cd = true
    /\ (missing_or_empty "Coverage_Differences" m = true ->
        cd = JArr [JObj
               [("Comparison", JStr "Differences in reporting emphasis");
                ("Articles_Involved",
                   JArr (title_or_unknown <$> take 2 articles));
                ("Impact",
                   JStr "Creates varied impressions of company priorities")]])
    /\ (missing_or_empty "Coverage_Differences" m = false ->
        dict_get "Coverage_Differences" m = Some cd).
Proof.
  intros Hkey Hmiss Hlocal Hcall Hparse.
  rewrite (generate_comparative_analysis_miss _ _ _ _ Hkey Hmiss), Hlocal, Hcall.
  apply local_analysis_inv in Hlocal as (_ & _ & Hobj & Htopics).
  unfold comparison_of_reply. rewrite Hparse.
  destruct (complete_result_fields t avg articles m Hobj Htopics)
    as (rm & -> & _ & _ & Hcd & _).
  eexists rm, _, _. split; [reflexivity|]. split; [exact Hcd|].
  unfold missing_or_empty, dict_get_default.
  destruct (dict_get "Coverage_Differences" m) as [cd|]; simpl.
  - destruct (truthy cd) eqn:Hcdt; simpl.
    + split; [exact Hcdt|]. split; [discriminate|reflexivity].
    + split; [reflexivity|]. split; [reflexivity|discriminate].
  - split; [reflexivity|]. split; [reflexivity|discriminate].
Qed.

(** C8 (amended).  On a cache miss, when the call returns a text that parses
    to a JSON object without ["Topic_Analysis"], the record returned has an
    empty topic sentiment map and, as common topics, the first five entries
    of the listing of the set of the topics seen: no topic twice, each one a
    topic seen, five of them or all the distinct topics if these are fewer;
    with at most five distinct topics they are the topics in order of first
    observation up to the order of the listing. *)
Theorem comparison_default_topics (company : string)
    (articles : list json) (key : string) (t : tally) (avg : Qc)
    (prompt text : string) (w w1 : world) (m : list (string * json)) :
  comparative_cache_key company articles = Return key ->
  cached_at key w = None ->
  local_analysis company articles = Return (t, avg, prompt) ->
  _call_api_with_retry prompt w = (Return text, w1) ->
  json_loads (extract_json text) = Some (JObj m) ->
  dict_get "Topic_Analysis" m = None ->
  exists rm w' ts,
    generate_comparative_analysis company articles w = (Return (JObj rm), w')
    /\ dict_get "Topic_Analysis" rm
       = Some (JObj [("Common_Topics", JArr (JStr <$> ts));
                     ("Topic_Sentiment_Map", JObj [])])
    /\ ts = take 5 (set_listing (topics_seen articles))
    /\ NoDup ts
    /\ (forall x, x ∈ ts -> x ∈ topics_seen articles)
    /\ length ts = 5 `min` length (first_distinct [] (topics_seen articles))
    /\ (length (first_distinct [] (topics_seen articles)) <= 5 ->
        ts ≡ₚ first_distinct [] (topics_seen articles)).
Proof.
  intros Hkey Hmiss Hlocal Hcall Hparse Hnone.
  rewrite (generate_comparative_analysis_miss _ _ _ _ Hkey Hmiss), Hlocal, Hcall.
  apply local_analysis_inv in Hlocal as (_ & _ & Hobj & Htopics).
  unfold comparison_of_reply. rewrite Hparse.
  destruct (complete_result_fields t avg articles m Hobj Htopics)
    as (rm & -> & _ & _ & _ & Hta).
  rewrite Hnone in Hta. simpl in Hta.
  pose proof (set_listing_first_distinct (topics_seen articles)) as Hperm.
  eexists rm, _, _. split; [reflexivity|]. split; [exact Hta|].
  split; [reflexivity|]. split.
  { eapply sublist_NoDup; [apply set_listing_NoDup|apply sublist_take]. }
  split.
  { intros x Hx. apply set_listing_elem. eapply subseteq_take; exact Hx. }
  split.
  { rewrite length_take, (Permutation_length Hperm). reflexivity. }
  intros Hfew. rewrite take_ge; [exact Hperm|].
  rewrite (Permutation_length Hperm). exact Hfew.
Qed.

End AggregationProperties.

(** * Translation *)

Section StringFacts.
Implicit Types (s : string) (n : nat).

Lemma str_take_drop n s : (PyStr.take n s ++ PyStr.drop n s)%string = s.
Proof.
  revert s. induction n as [|n IH]; intros [|c s]; try reflexivity.
  simpl. change (String c (PyStr.take n s ++ PyStr.drop n s)%string = String c s).
  rewrite IH. reflexivity.
Qed.

Lemma str_length_take n s : String.length (PyStr.take n s) = n `min` String.length s.
Proof.
  revert s. induction n as [|n IH]; intros [|c s]; try reflexivity.
  simpl. rewrite IH. reflexivity.
Qed.

Lemma str_length_drop n s : String.length (PyStr.drop n s) = String.length s - n.
Proof.
  revert s. induction n as [|n IH]; intros [|c s]; try reflexivity.
  simpl. apply IH.
Qed.

Lemma str_drop_drop a b s : PyStr.drop a (PyStr.drop b s) = PyStr.drop (b + a) s.
Proof.
  revert s. induction b as [|b IH]; intros s; [reflexivity|].
  destruct s as [|c s]; simpl.
  - destruct a; reflexivity.
  - apply IH.
Qed.

Lemma str_drop_0 s : PyStr.drop 0 s = s.
Proof. destruct s; reflexivity. Qed.

Lemma str_slice_window i n s :
  PyStr.slice i (i + n) s = PyStr.take n (PyStr.drop i s).
Proof. unfold PyStr.slice. replace (i + n - i) with n by lia. reflexivity. Qed.

Lemma str_length_0 s : String.length s = 0 -> s = EmptyString.
Proof. destruct s; [reflexivity|discriminate]. Qed.

Lemma str_app_nil_r s : (s ++ EmptyString)%string = s.
Proof.
  induction s as [|c s IH]; [reflexivity|].
  change (String c (s ++ EmptyString)%string = String c s). rewrite IH. reflexivity.
Qed.

Lemma join_empty_concat (l : list string) :
  PyStr.join EmptyString l = concat_strings l.
Proof.
  induction l as [|x l IH]; [reflexivity|].
  destruct l as [|y l].
  - simpl. rewrite str_app_nil_r. reflexivity.
  - change (PyStr.join EmptyString (x :: y :: l))
      with (x ++ EmptyString ++ PyStr.join EmptyString (y :: l))%string.
    rewrite IH. reflexivity.
Qed.

End StringFacts.

Section ChunkFacts.
Import TextToSpeechCheckpoint.
Variable size : nat.
Hypothesis size_pos : 0 < size.

Lemma chunk_count_step (len : nat) :
  1 <= len -> (len + size - 1) / size = S ((len - size + size - 1) / size).
Proof.
  intros Hlen. destruct (decide (size <= len)) as [Hge|Hlt].
  - replace (len + size - 1) with ((len - size + size - 1) + 1 * size) by lia.
    rewrite Nat.div_add by lia. lia.
  - replace (len - size + size - 1) with (size - 1) by lia.
    rewrite (Nat.div_small (size - 1)) by lia.
    replace (len + size - 1) with ((len - 1) + 1 * size) by lia.
    rewrite Nat.div_add by lia. rewrite Nat.div_small by lia. reflexivity.
Qed.

Lemma chunk_windows_shift (text : string) (k n : nat) :
  (fun i => PyStr.slice i (i + size) text) <$> ((fun j => j * size) <$> seq (S k) n)
  = (fun i => PyStr.slice i (i + size) (PyStr.drop size text))
      <$> ((fun j => j * size) <$> seq k n).
Proof.
  rewrite <- fmap_S_seq, <- !list_fmap_compose.
  apply list_fmap_ext. intros _ j _. simpl.
  rewrite !str_slice_window, str_drop_drop. reflexivity.
Qed.

(** the list comprehension over [range] yields the consecutive chunks *)
Lemma chunks_of_consecutive (fuel : nat) :
  forall text, String.length text <= fuel ->
               chunks_of size text = consecutive_chunks fuel size text.
Proof.
  induction fuel as [|fuel IH]; intros text Hlen.
  - rewrite (str_length_0 text) by lia. unfold chunks_of, range_step. simpl.
    rewrite Nat.div_small by lia. reflexivity.
  - simpl. case_bool_decide as Hempty.
    + subst text. unfold chunks_of, range_step. simpl.
      rewrite Nat.div_small by lia. reflexivity.
    + assert (1 <= String.length text) as Hpos
        by (destruct text; [congruence|simpl; lia]).
      rewrite <- (IH (PyStr.drop size text))
        by (rewrite str_length_drop; lia).
      unfold chunks_of, range_step.
      rewrite (chunk_count_step _ Hpos), str_length_drop.
      change (seq 0 (S ?n)) with (0 :: seq 1 n). rewrite !fmap_cons.
      rewrite chunk_windows_shift. f_equal.
      rewrite str_slice_window, str_drop_0. reflexivity.
Qed.

Lemma consecutive_chunks_concat (fuel : nat) :
  forall text, String.length text <= fuel ->
               concat_strings (consecutive_chunks fuel size text) = text.
Proof.
  induction fuel as [|fuel IH]; intros text Hlen; simpl.
  - symmetry. apply str_length_0. lia.
  - case_bool_decide as Hempty; [subst; reflexivity|]. simpl.
    assert (1 <= String.length text) as Hpos
      by (destruct text; [congruence|simpl; lia]).
    rewrite IH by (rewrite str_length_drop; lia).
    apply str_take_drop.
Qed.

(** every chunk but the last has the full size, the last has between one
    character and the full size *)
Lemma consecutive_chunks_sizes (fuel : nat) :
  forall text i chunk,
    String.length text <= fuel ->
    consecutive_chunks fuel size text !! i = Some chunk ->
    1 <= String.length chunk <= size
    /\ (S i < length (consecutive_chunks fuel size text) ->
        String.length chunk = size).
Proof.
  induction fuel as [|fuel IH]; intros text i chunk Hlen Hi; simpl in *.
  - discriminate.
  - case_bool_decide as Hempty; [discriminate|].
    assert (1 <= String.length text) as Hpos
      by (destruct text; [congruence|simpl; lia]).
    destruct i as [|i]; simpl in *.
    + injection Hi as <-. rewrite str_length_take. split; [lia|].
      intros Hmore.
      destruct fuel as [|fuel']; simpl in Hmore; [lia|].
      case_bool_decide as Hrest; [simpl in Hmore; lia|].
      assert (String.length (PyStr.drop size text) <> 0) as Hne
        by (intros H0; apply Hrest, str_length_0, H0).
      rewrite str_length_drop in Hne. lia.
    + destruct (IH (PyStr.drop size text) i chunk) as [Hsize Hfull];
        [rewrite str_length_drop; lia|exact Hi|].
      split; [exact Hsize|]. intros Hmore. apply Hfull. lia.
Qed.

End ChunkFacts.

Section TranslationProperties.
Context `{Environment}.
Import TextToSpeechCheckpoint.

Lemma live_translate_miss (text : string) (w : world) :
  cached_translation text w = None ->
  TextToSpeech.translate_to_hindi text w =
  match _call_api_with_retry (TextToSpeech.translation_prompt text) w with
  | (Return reply, w1) =>
      (Return (PyStr.strip reply),
       if store_up w1
       then write_translation (TextToSpeech._get_cache_key (PyStr.take 1000 text))
              (PyStr.strip reply) w1
       else w1)
  | (Raise e, w1) =>
      (Raise (Exception
         "Translation failed. Please check the Gemini API key and configuration."),
       w1)
  end.
Proof.
  unfold cached_translation, TextToSpeech.translate_to_hindi, mbind, M_bind,
    TextToSpeech._check_translation_cache.
  intros ->.
  unfold try_except, TextToSpeech._save_translation_to_cache, raise, mret, M_ret.
  destruct (_call_api_with_retry _ w) as [[reply|e] w1]; reflexivity.
Qed.

(** [_fallback_translate] by the answer of MyMemory: a failure of the call
    is caught and the text kept; a failure of the import is not caught *)
Lemma fallback_translate_run (text : string) (w : world) :
  _fallback_translate text w =
  match respond (trace w) MyMemory text with
  | Ok t => (Return t, log_event (Call MyMemory text) w)
  | Failed _ => (Return text, log_event (Call MyMemory text) w)
  | Unavailable msg => (Raise (Exception msg), w)
  end.
Proof.
  unfold _fallback_translate, import_translator, try_except, request, mbind,
    M_bind, mret, M_ret.
  destruct (respond (trace w) MyMemory text) eqn:Hanswer; simpl;
    rewrite ?Hanswer; reflexivity.
Qed.


Lemma translate_chunk_answered (self : config) (text reply : string) (w : world) :
  respond (trace w) (primary_backend self) (primary_payload self text) = Ok reply ->
  _translate_chunk self text w =
  (Return (primary_text self reply),
   log_event (Call (primary_backend self) (primary_payload self text)) w).
Proof.
  unfold _translate_chunk, primary_payload, primary_text, primary_backend.
  repeat match goal with
         | |- context [if ?c then _ else _] => destruct c
         end;
    intros Hok;
    unfold try_except, _google_translate, _indicnlp_translate, _argos_translate,
      _libretranslate, _gemini_translate, try_except,
      request, mbind, M_bind, mret, M_ret;
    rewrite ?fallback_translate_run;
    try (rewrite Hok; reflexivity).
  rewrite (call_api_with_retry_answered _ _ _ Hok). reflexivity.
Qed.

Lemma with_trace_same (w : world) : with_trace (trace w) w = w.
Proof. destruct w; reflexivity. Qed.

(** with a backend that answers, the loop is the paced run *)
Lemma translate_chunks_paced (self : config) (chunks : list string) :
  always_answers (primary_backend self) ->
  forall translations w,
    let run := paced_run (primary_backend self) (primary_payload self)
                 (primary_text self) chunks (trace w) in
    translate_chunks self chunks translations w
    = (Return (translations ++ run.1), with_trace run.2 w).
Proof.
  intros Hanswers. induction chunks as [|chunk rest IH]; intros translations w.
  - simpl. rewrite app_nil_r, with_trace_same. reflexivity.
  - simpl. unfold mbind, M_bind, sleep.
    destruct (Hanswers (trace w ++ [Sleep 1]) (primary_payload self chunk))
      as [reply Hreply].
    rewrite (translate_chunk_answered self chunk reply (log_event (Sleep 1) w))
      by exact Hreply.
    rewrite IH. simpl. rewrite Hreply, <- app_assoc. reflexivity.
Qed.

Lemma paced_run_trace (svc : service) (payload post : string -> string)
    (chunks : list string) :
  forall tr,
    (paced_run svc payload post chunks tr).2
    = tr ++ flat_map (fun chunk => [Sleep 1; Call svc (payload chunk)]) chunks
    /\ length (paced_run svc payload post chunks tr).1 = length chunks.
Proof.
  induction chunks as [|chunk rest IH]; intros tr; simpl.
  - rewrite app_nil_r. split; reflexivity.
  - destruct (IH ((tr ++ [Sleep 1]) ++ [Call svc (payload chunk)])) as [-> ->].
    rewrite <- !app_assoc. split; reflexivity.
Qed.


Lemma checkpoint_translate_miss (self : config) (text : string) (w : world) :
  cached_translation text w = None ->
  translate_to_hindi self text w =
  match (if bool_decide (max_chunk_size < String.length text)
         then translations ← translate_chunks self (chunks_of max_chunk_size text) [];
              mret (PyStr.join EmptyString translations)
         else _translate_chunk self text) w with
  | (Return full, w1) =>
      (Return full,
       if store_up w1
       then write_translation (TextToSpeech._get_cache_key (PyStr.take 1000 text))
              full w1
       else w1)
  | (Raise e, w1) => (Raise e, w1)
  end.
Proof.
  unfold cached_translation, translate_to_hindi, _check_translation_cache,
    TextToSpeech._check_translation_cache, _get_cache_key,
    TextToSpeech._get_cache_key, _save_translation_to_cache,
    TextToSpeech._save_translation_to_cache.
  unfold mbind at 1, M_bind at 1. intros ->.
  unfold mbind at 1, M_bind at 1.
  match goal with
  | |- context [match ?run w with _ => _ end] =>
      destruct (run w) as [[full|e] w1]
  end; reflexivity.
Qed.

(** C4 (amended).  With no cached translation and a backend that answers:
    the comprehension over [range] cuts the text into consecutive chunks of
    4000 characters that put end to end give the text back, every chunk but
    the last of exactly 4000 characters, the last of 1 to 4000.  The
    multi-backend [translate_to_hindi] sends a text of at most 4000
    characters in one request without sleeping; a longer text it sends chunk
    by chunk, one sleep of one second then one request for each chunk (the
    first included), and returns the results put end to end in the order of
    the chunks, with nothing between them.  The Gemini-only
    [translate_to_hindi] never cuts: whatever the length, it submits the
    whole text once to [_call_api_with_retry] and returns the stripped
    reply. *)
Theorem translation_chunking (self : config) (text : string) (w : world) :
  cached_translation text w = None ->
  always_answers (primary_backend self) ->
  let chunks := chunks_of max_chunk_size text in
  let key := TextToSpeech._get_cache_key (PyStr.take 1000 text) in
  let svc := primary_backend self in
  let save := fun (t : string) (w1 : world) =>
    if store_up w1 then write_translation key t w1 else w1 in
  chunks = consecutive_chunks (String.length text) max_chunk_size text
  /\ concat_strings chunks = text
  /\ length chunks = (String.length text + max_chunk_size - 1) / max_chunk_size
  /\ (forall i chunk,
        chunks !! i = Some chunk ->
        1 <= String.length chunk <= max_chunk_size
        /\ (S i < length chunks -> String.length chunk = max_chunk_size))
  /\ (String.length text <= max_chunk_size ->
      exists reply,
        respond (trace w) svc (primary_payload self text) = Ok reply
        /\ translate_to_hindi self text w
           = (Return (primary_text self reply),
              save (primary_text self reply)
                (log_event (Call svc (primary_payload self text)) w)))
  /\ (max_chunk_size < String.length text ->
      let run := paced_run svc (primary_payload self) (primary_text self)
                   chunks (trace w) in
      translate_to_hindi self text w
      = (Return (concat_strings run.1),
         save (concat_strings run.1) (with_trace run.2 w))
      /\ run.2 = trace w ++ flat_map
                   (fun chunk => [Sleep 1; Call svc (primary_payload self chunk)])
                   chunks
      /\ length run.1 = length chunks)
  /\ TextToSpeech.translate_to_hindi text w
     = match _call_api_with_retry (TextToSpeech.translation_prompt text) w with
       | (Return reply, w1) => (Return (PyStr.strip reply), save (PyStr.strip reply) w1)
       | (Raise e, w1) =>
           (Raise (Exception
              "Translation failed. Please check the Gemini API key and configuration."),
            w1)
       end.
Proof.
  intros Hmiss Hanswers chunks key svc save.
  assert (0 < max_chunk_size) as Hpos by (unfold max_chunk_size; lia).
  assert (chunks = consecutive_chunks (String.length text) max_chunk_size text)
    as Hchunks by (apply chunks_of_consecutive; [exact Hpos|lia]).
  split; [exact Hchunks|]. split.
  { rewrite Hchunks. apply consecutive_chunks_concat; [exact Hpos|lia]. }
  split.
  { subst chunks. unfold chunks_of, range_step. rewrite !length_fmap, length_seq.
    reflexivity. }
  split.
  { intros i chunk Hi. rewrite Hchunks in Hi |- *.
    eapply consecutive_chunks_sizes; [exact Hpos|lia|exact Hi]. }
  split; [|split].
  - intros Hshort.
    destruct (Hanswers (trace w) (primary_payload self text)) as [reply Hreply].
    exists reply. split; [exact Hreply|].
    rewrite (checkpoint_translate_miss _ _ _ Hmiss).
    rewrite bool_decide_eq_false_2 by lia.
    rewrite (translate_chunk_answered self text reply w Hreply).
    reflexivity.
  - intros Hlong run.
    pose proof (paced_run_trace svc (primary_payload self) (primary_text self)
                  chunks (trace w)) as [Htrace Hlength].
    split; [|split; [exact Htrace|exact Hlength]].
    rewrite (checkpoint_translate_miss _ _ _ Hmiss).
    rewrite bool_decide_eq_true_2 by lia.
    unfold mbind, M_bind.
    rewrite (translate_chunks_paced self _ Hanswers [] w).
    unfold mret, M_ret. rewrite app_nil_l, join_empty_concat. reflexivity.
  - apply live_translate_miss. exact Hmiss.
Qed.


End TranslationProperties.

(** * Final sentiment and query answers *)

Section FinalAndQueryProperties.
Context `{Environment}.

Lemma generate_query_response_run company data query w :
  generate_query_response company data query w =
  match cached_answer "response" (query_cache_key company query) w with
  | Raise e => (Raise e, w)
  | Return (Some v) => (Return v, w)
  | Return None =>
      match _call_api_with_retry (query_prompt company query) w with
      | (Return text, w0) =>
          (Return (JStr (PyStr.strip text)),
           if store_up w0
           then write_cache (query_cache_key company query)
                  (JObj [("response", JStr text)]) w0
           else w0)
      | (Raise e, w0) => (Raise e, w0)
      end
  end.
Proof.
  unfold cached_answer, generate_query_response, mbind, M_bind, _check_cache, pure.
  destruct (cached_field "response" _) as [[v|]|e]; try reflexivity.
  unfold try_except, _save_to_cache, raise, mret, M_ret.
  destruct (_call_api_with_retry _ w) as [[text|e] w0]; reflexivity.
Qed.

Lemma generate_final_sentiment_run company analysis w :
  generate_final_sentiment company analysis w =
  match cached_answer "sentiment" (final_cache_key company) w with
  | Raise e => (Raise e, w)
  | Return (Some v) => (Return v, w)
  | Return None =>
      match final_local company analysis with
      | Raise e => (Raise e, w)
      | Return prompt =>
          match _call_api_with_retry prompt w with
          | (Return text, w0) =>
              (Return (JStr (PyStr.strip text)),
               if store_up w0
               then write_cache (final_cache_key company)
                      (JObj [("sentiment", JStr (PyStr.strip text))]) w0
               else w0)
          | (Raise e, w0) => (Raise e, w0)
          end
      end
  end.
Proof.
  unfold cached_answer, generate_final_sentiment, mbind, M_bind, _check_cache, pure.
  destruct (cached_field "sentiment" _) as [[v|]|e]; try reflexivity.
  unfold try_except, _save_to_cache, raise, mret, M_ret.
  destruct (final_local company analysis) as [prompt|e]; [|reflexivity].
  destruct (_call_api_with_retry _ w) as [[text|e] w0]; reflexivity.
Qed.

Lemma cached_answer_written field key (v : json) w :
  store_up w = true ->
  cached_answer field key (write_cache key (JObj [(field, v)]) w) = Return (Some v).
Proof.
  intros Hup. unfold cached_answer. simpl. rewrite Hup, lookup_insert_eq.
  simpl. destruct (decide (field = field)); [reflexivity|congruence].
Qed.

Lemma summary_lines_objects (articles : list json) :
  forall i, Forall is_object articles ->
            exists ls, summary_lines i articles = Return ls.
Proof.
  induction articles as [|a rest IH]; intros i Hobj; simpl; [eauto|].
  inversion Hobj as [|? ? [m ->] Hrest]; subst.
  destruct (IH (S i) Hrest) as [ls ->]. simpl. eauto.
Qed.

(** the prompt is a function of the average and of the drivers *)
Lemma final_local_inv company analysis prompt :
  final_local company analysis = Return prompt ->
  exists m comparative drivers positive negative avg,
    analysis = JObj m
    /\ comparative = dict_get_default "Comparative_Sentiment_Score" (JObj []) m
    /\ py_get comparative "Sentiment_Drivers" (JObj []) = Return drivers
    /\ (pf ← py_get drivers "Positive_Factors" (JArr []); py_join ", " pf)
       = Return positive
    /\ (nf ← py_get drivers "Negative_Factors" (JArr []); py_join ", " nf)
       = Return negative
    /\ (a ← py_get comparative "Average_Sentiment_Score" (JNum (Qc_of_Z 3));
        py_format_2f a) = Return avg
    /\ prompt = final_prompt company positive negative avg.
Proof.
  unfold final_local. intros Hrun.
  destruct analysis as [| | | | |m]; try discriminate.
  assert (forall k d, py_get (JObj m) k d = Return (dict_get_default k d m))
    as Hget by reflexivity.
  rewrite !Hget in Hrun. simpl in Hrun.
  set (comparative := dict_get_default "Comparative_Sentiment_Score" (JObj []) m) in *.
  apply bind_Return in Hrun as (dist & _ & Hrun).
  apply bind_Return in Hrun as (avg_score & Havg & Hrun).
  apply bind_Return in Hrun as (drivers & Hdrivers & Hrun).
  apply bind_Return in Hrun as (pf & Hpf & Hrun).
  apply bind_Return in Hrun as (nf & Hnf & Hrun).
  apply bind_Return in Hrun as (first_three & _ & Hrun).
  apply bind_Return in Hrun as (lines & _ & Hrun).
  apply bind_Return in Hrun as (positive & Hpos & Hrun).
  apply bind_Return in Hrun as (negative & Hneg & Hrun).
  apply bind_Return in Hrun as (avg & Hfmt & Hrun).
  injection Hrun as <-.
  exists m, comparative, drivers, positive, negative, avg.
  rewrite Hdrivers, Hpf, Hnf, Havg. simpl. repeat split; assumption.
Qed.

(** X1.  The cache key of [generate_final_sentiment] is made of the company
    name alone.  With the cache store working, once a final sentiment has
    been returned for a company, every later call for that company returns
    that same value and leaves the world as it is (no request, no write),
    whatever analysis result it is given, be it one from which no prompt
    could be built. *)
Theorem final_sentiment_keyed_by_company (company : string) (first second : json)
    (w w1 : world) (r : json) :
  store_up w = true ->
  generate_final_sentiment company first w = (Return r, w1) ->
  generate_final_sentiment company second w1 = (Return r, w1).
Proof.
  intros Hup Hrun. rewrite generate_final_sentiment_run in Hrun |- *.
  destruct (cached_answer "sentiment" (final_cache_key company) w)
    as [[v|]|e] eqn:Hc; [| |discriminate].
  - split_run Hrun. rewrite Hc. reflexivity.
  - destruct (final_local company first) as [prompt|e]; [|discriminate].
    pose proof (call_api_with_retry_same_store prompt w) as (Hup0 & _ & _).
    destruct (_call_api_with_retry prompt w) as [[text|e] w0]; [|discriminate].
    simpl in Hup0. rewrite Hup in Hup0. rewrite Hup0 in Hrun.
    split_run Hrun.
    rewrite cached_answer_written by exact Hup0. reflexivity.
Qed.

(** X2.  An analysis result without ["Comparative_Sentiment_Score"], such as
    the dict of the keys ["Company"] and ["Articles"] that [analyze_company]
    of [api.py] passes, gives on a cache miss one prompt only: the one with
    empty positive and negative factors and the score 3 formatted to two
    decimals.  Either building the prompt raises and the operation raises
    that exception without a request, or that prompt is the one submitted;
    it is built whenever the first three articles are dicts. *)
Theorem final_sentiment_without_comparative (company : string)
    (m : list (string * json)) (w : world) :
  dict_get "Comparative_Sentiment_Score" m = None ->
  cached_answer "sentiment" (final_cache_key company) w = Return None ->
  let prompt := final_prompt company "" "" (format_2f (Qc_of_Z 3)) in
  ((exists e, final_local company (JObj m) = Raise e
              /\ generate_final_sentiment company (JObj m) w = (Raise e, w))
   \/ (final_local company (JObj m) = Return prompt
       /\ generate_final_sentiment company (JObj m) w
          = match _call_api_with_retry prompt w with
            | (Return text, w0) =>
                (Return (JStr (PyStr.strip text)),
                 if store_up w0
                 then write_cache (final_cache_key company)
                        (JObj [("sentiment", JStr (PyStr.strip text))]) w0
                 else w0)
            | (Raise e, w0) => (Raise e, w0)
            end))
  /\ (forall articles,
        dict_get_default "Articles" (JArr []) m = JArr articles ->
        Forall is_object (take 3 articles) ->
        final_local company (JObj m) = Return prompt).
Proof.
  intros Hnone Hmiss prompt. split.
  - rewrite generate_final_sentiment_run, Hmiss.
    destruct (final_local company (JObj m)) as [p|e] eqn:Hlocal.
    + right. apply final_local_inv in Hlocal
        as (m' & comp & d & pos & neg & avg & [= <-] & -> & Hd & Hp & Hn & Ha & ->).
      unfold dict_get_default in *. rewrite Hnone in *. simpl in *.
      injection Hd as <-. simpl in *. injection Hp as <-. injection Hn as <-.
      injection Ha as <-. split; reflexivity.
    + left. exists e. split; reflexivity.
  - intros articles Harts Hobj. unfold final_local.
    assert (forall k d, py_get (JObj m) k d = Return (dict_get_default k d m))
      as Hget by reflexivity.
    rewrite !Hget. simpl. rewrite Harts.
    unfold dict_get_default. rewrite Hnone. simpl.
    destruct (summary_lines_objects _ 0 Hobj) as [ls ->]. reflexivity.
Qed.

(** X3.  The prompt of [generate_final_sentiment] depends on the analysis
    result through the average score and the sentiment drivers of its
    comparative part only: two results whose comparative parts agree on
    these two fields give the same prompt, whatever their articles and
    their sentiment distributions. *)
Theorem final_prompt_ignores_articles (company : string)
    (m1 m2 c1 c2 : list (string * json)) (p1 p2 : string) :
  dict_get "Comparative_Sentiment_Score" m1 = Some (JObj c1) ->
  dict_get "Comparative_Sentiment_Score" m2 = Some (JObj c2) ->
  dict_get "Average_Sentiment_Score" c1 = dict_get "Average_Sentiment_Score" c2 ->
  dict_get "Sentiment_Drivers" c1 = dict_get "Sentiment_Drivers" c2 ->
  final_local company (JObj m1) = Return p1 ->
  final_local company (JObj m2) = Return p2 ->
  p1 = p2.
Proof.
  intros Hc1 Hc2 Havg Hdrv H1 H2.
  apply final_local_inv in H1
    as (m1' & comp1 & d1 & pos1 & neg1 & avg1 & [= <-] & -> & Hd1 & Hp1 & Hn1 & Ha1 & ->).
  apply final_local_inv in H2
    as (m2' & comp2 & d2 & pos2 & neg2 & avg2 & [= <-] & -> & Hd2 & Hp2 & Hn2 & Ha2 & ->).
  unfold dict_get_default in *. rewrite Hc1 in *. rewrite Hc2 in *. simpl in *.
  unfold dict_get_default in *. rewrite Havg in Ha1. rewrite Hdrv in Hd1.
  rewrite Hd1 in Hd2. injection Hd2 as ->.
  rewrite Hp1 in Hp2. rewrite Hn1 in Hn2. rewrite Ha1 in Ha2.
  congruence.
Qed.

(** X4.  [generate_query_response] returns the stripped reply of the model
    but writes the reply as received to the cache, and a cached reply is
    returned as stored.  So, with the cache store working and nothing usable
    cached for the company and the query, the first call returns the reply
    without its leading and trailing whitespace, and the same query asked
    again returns the reply with it, without a request and whatever company
    data is passed. *)
Theorem query_response_repeated_is_raw (company : string) (data data' : json)
    (query text : string) (w w0 : world) :
  store_up w = true ->
  cached_answer "response" (query_cache_key company query) w = Return None ->
  _call_api_with_retry (query_prompt company query) w = (Return text, w0) ->
  let w1 := write_cache (query_cache_key company query)
              (JObj [("response", JStr text)]) w0 in
  generate_query_response company data query w
  = (Return (JStr (PyStr.strip text)), w1)
  /\ generate_query_response company data' query w1 = (Return (JStr text), w1).
Proof.
  intros Hup Hmiss Hcall w1.
  pose proof (call_api_with_retry_same_store (query_prompt company query) w)
    as (Hup0 & _ & _).
  rewrite Hcall in Hup0. simpl in Hup0. rewrite Hup in Hup0.
  split.
  - rewrite generate_query_response_run, Hmiss, Hcall, Hup0. reflexivity.
  - rewrite generate_query_response_run. subst w1.
    rewrite cached_answer_written by exact Hup0. reflexivity.
Qed.

Lemma same_store_refl w : same_store w w.
Proof. repeat split. Qed.

(** a call followed by the optional write of [v] under [key] *)
Lemma wrote_only_after_call {A} key (entry : A -> json) prompt w (r : A) :
  let w0 := (_call_api_with_retry prompt w).2 in
  wrote_only key entry w
    (Return r, if store_up w0 then write_cache key (entry r) w0 else w0).
Proof.
  intros w0.
  pose proof (call_api_with_retry_same_store prompt w) as (Hup & Hcache & Htr).
  fold w0 in Hup, Hcache, Htr.
  destruct (store_up w0) eqn:Hup0.
  - right. exists r. simpl.
    split; [reflexivity|]. split; [congruence|]. split; [exact Htr|].
    rewrite Hcache. reflexivity.
  - left. unfold same_store. simpl.
    split; [congruence|]. split; [exact Hcache|exact Htr].
Qed.

Lemma wrote_only_raised {A} key (entry : A -> json) w w' e :
  same_store w w' -> wrote_only key entry w (Raise e, w').
Proof. intros Hs. left. exact Hs. Qed.

(** X5.  Each of the four operations of [GeminiService] changes the cache
    directories by at most one entry, written under its own key when it
    returns: [analyze_article] and [generate_comparative_analysis] the
    record they return, [generate_final_sentiment] the returned text under
    ["sentiment"], [generate_query_response] the reply under ["response"].
    An operation that raises leaves the cache directories as they were, and
    none of them touches the translation cache. *)
Theorem gemini_operations_write_own_entry :
  (forall title content w,
     wrote_only (analysis_cache_key title content) id w
       (analyze_article title content w))
  /\ (forall company articles w,
        match comparative_cache_key company articles with
        | Return key =>
            wrote_only key id w (generate_comparative_analysis company articles w)
        | Raise e =>
            generate_comparative_analysis company articles w = (Raise e, w)
        end)
  /\ (forall company analysis w,
        wrote_only (final_cache_key company)
          (fun r => JObj [("sentiment"%string, r)]) w
          (generate_final_sentiment company analysis w))
  /\ (forall company data query w,
        exists text,
          wrote_only (query_cache_key company query)
            (fun _ : json => JObj [("response"%string, JStr text)]) w
            (generate_query_response company data query w)).
Proof.
  split; [|split; [|split]].
  - intros title content w.
    destruct (cached_analysis title content w) as [v|] eqn:Hc.
    + rewrite (analyze_article_hit _ _ _ _ Hc). left. apply same_store_refl.
    + rewrite (analyze_article_miss _ _ _ Hc).
      pose proof (wrote_only_after_call (analysis_cache_key title content) id
                    (analysis_prompt title content) w) as Hw.
      pose proof (call_api_with_retry_same_store (analysis_prompt title content) w)
        as Hs.
      destruct (_call_api_with_retry _ w) as [[text|e] w0];
        [|left; exact Hs].
      destruct (analysis_of_reply title text) as [r|e]; [|left; exact Hs].
      apply (Hw r).
  - intros company articles w.
    destruct (comparative_cache_key company articles) as [key|e] eqn:Hkey.
    + destruct (cached_at key w) as [v|] eqn:Hc.
      * rewrite (generate_comparative_analysis_hit _ _ _ _ _ Hkey Hc).
        left. apply same_store_refl.
      * rewrite (generate_comparative_analysis_miss _ _ _ _ Hkey Hc).
        destruct (local_analysis company articles) as [[[t avg] prompt]|e];
          [|left; apply same_store_refl].
        pose proof (wrote_only_after_call key id prompt w) as Hw.
        pose proof (call_api_with_retry_same_store prompt w) as Hs.
        destruct (_call_api_with_retry _ w) as [[text|e] w0];
          [|left; exact Hs].
        destruct (comparison_of_reply t avg articles text) as [r|e];
          [|left; exact Hs].
        apply (Hw r).
    + unfold generate_comparative_analysis, mbind, M_bind, pure.
      rewrite Hkey. reflexivity.
  - intros company analysis w. rewrite generate_final_sentiment_run.
    destruct (cached_answer _ _ w) as [[v|]|e];
      [left; apply same_store_refl| |left; apply same_store_refl].
    destruct (final_local company analysis) as [prompt|e];
      [|left; apply same_store_refl].
    pose proof (wrote_only_after_call (final_cache_key company)
                  (fun r => JObj [("sentiment"%string, r)]) prompt w) as Hw.
    pose proof (call_api_with_retry_same_store prompt w) as Hs.
    destruct (_call_api_with_retry _ w) as [[text|e] w0]; [|left; exact Hs].
    apply (Hw (JStr (PyStr.strip text))).
  - intros company data query w. rewrite generate_query_response_run.
    destruct (cached_answer _ _ w) as [[v|]|e];
      [exists ""%string; left; apply same_store_refl|
      |exists ""%string; left; apply same_store_refl].
    pose proof (call_api_with_retry_same_store (query_prompt company query) w) as Hs.
    destruct (_call_api_with_retry _ w) as [[text|e] w0] eqn:Hcall;
      [|exists ""%string; left; exact Hs].
    exists text.
    pose proof (wrote_only_after_call (query_cache_key company query)
                  (fun _ : json => JObj [("response"%string, JStr text)])
                  (query_prompt company query) w (JStr (PyStr.strip text))) as Hw.
    rewrite Hcall in Hw. exact Hw.
Qed.

End FinalAndQueryProperties.

(** * Replies and records *)

Section ReplyProperties.
Context `{Environment}.

Lemma dict_get_fill_default k f (m : list (string * json)) :
  dict_get k (fill_default m f) =
  match dict_get k m with
  | Some v => Some v
  | None => if decide (k = f) then Some (field_default f) else None
  end.
Proof.
  unfold fill_default, dict_has, field_default.
  destruct (dict_get f m) as [vf|] eqn:Hf; simpl.
  - destruct (dict_get k m) as [v|] eqn:Hk; [reflexivity|].
    destruct (decide (k = f)) as [->|]; [congruence|reflexivity].
  - destruct (decide (k = f)) as [->|Hne].
    + rewrite Hf. repeat case_bool_decide; apply dict_get_set_eq.
    + repeat case_bool_decide;
        (rewrite dict_get_set_ne by congruence);
        destruct (dict_get k m); reflexivity.
Qed.

Lemma dict_get_defaults k (m : list (string * json)) :
  dict_get k (fold_left fill_default required_fields m) =
  match dict_get k m with
  | Some v => Some v
  | None => if bool_decide (k ∈ required_fields) then Some (field_default k) else None
  end.
Proof.
  unfold required_fields. simpl. rewrite !dict_get_fill_default.
  destruct (dict_get k m) as [v|]; [reflexivity|].
  repeat (destruct (decide (k = _)) as [->|?]; [reflexivity|]).
  rewrite bool_decide_eq_false_2; [reflexivity|].
  intros Hin. repeat (apply elem_of_cons in Hin as [?|Hin]; [congruence|]).
  inversion Hin.
Qed.

Lemma dict_get_preserve_title_eq title (m : list (string * json)) :
  dict_get "Title" (preserve_title title m) =
  Some (if missing_or_empty "Title" m then JStr title
        else default JNull (dict_get "Title" m)).
Proof.
  unfold preserve_title, missing_or_empty, dict_has, dict_get_default.
  destruct (dict_get "Title" m) as [t|] eqn:Ht; simpl.
  - destruct (truthy t); simpl; [exact Ht|apply dict_get_set_eq].
  - apply dict_get_set_eq.
Qed.

(** X6.  On a cache miss, when the reply parses to a JSON object,
    [analyze_article] returns that object completed: every field of the
    reply is kept as it is, except ["Sentiment"], which is the label of the
    score, and ["Title"], which is the title passed in when the reply has
    none or an empty one; a required field that the reply lacks is there
    with its default (an empty list for the topics and the indicators, 3 for
    the score, the empty string for the summary).  It raises, without
    writing, exactly when the score of the reply is not a number. *)
Theorem analyze_article_completes_record (title content text : string)
    (w w1 : world) (m0 : list (string * json)) :
  cached_analysis title content w = None ->
  _call_api_with_retry (analysis_prompt title content) w = (Return text, w1) ->
  json_loads (extract_json text) = Some (JObj m0) ->
  match sentiment_of_score (default (JNum (Qc_of_Z 3)) (dict_get "Sentiment_Score" m0)) with
  | Raise e => analyze_article title content w = (Raise e, w1)
  | Return label =>
      exists m w',
        analyze_article title content w = (Return (JObj m), w')
        /\ forall k,
             dict_get k m =
             if decide (k = "Sentiment"%string) then Some (JStr label)
             else if decide (k = "Title"%string)
             then Some (if missing_or_empty "Title" m0 then JStr title
                        else default JNull (dict_get "Title" m0))
             else match dict_get k m0 with
                  | Some v => Some v
                  | None => if bool_decide (k ∈ required_fields)
                            then Some (field_default k) else None
                  end
  end.
Proof.
  intros Hmiss Hcall Hparse.
  rewrite (analyze_article_miss _ _ _ Hmiss), Hcall.
  unfold analysis_of_reply. rewrite Hparse.
  set (m1 := fold_left fill_default required_fields m0).
  assert (dict_get_default "Sentiment_Score" JNull (preserve_title title m1)
          = default (JNum (Qc_of_Z 3)) (dict_get "Sentiment_Score" m0)) as ->.
  { unfold dict_get_default. rewrite dict_get_preserve_title by discriminate.
    subst m1. rewrite dict_get_defaults.
    destruct (dict_get "Sentiment_Score" m0); reflexivity. }
  destruct (sentiment_of_score _) as [label|e]; simpl; [|reflexivity].
  eexists _, _. split; [reflexivity|].
  intros k. destruct (decide (k = "Sentiment"%string)) as [->|Hs].
  { apply dict_get_set_eq. }
  rewrite dict_get_set_ne by congruence.
  destruct (decide (k = "Title"%string)) as [->|Ht].
  - rewrite dict_get_preserve_title_eq.
    unfold missing_or_empty. subst m1. rewrite dict_get_defaults.
    destruct (dict_get "Title" m0) as [t|]; reflexivity.
  - rewrite dict_get_preserve_title by exact Ht.
    subst m1. apply dict_get_defaults.
Qed.
(** X7.  A reply that parses to JSON which is not an object (a list, a
    string, a number, [null]) makes both [analyze_article] and
    [generate_comparative_analysis] raise [TypeError] after the call, and
    nothing is written to the cache: the basic result of the comparative
    analysis is built only for a reply that does not parse. *)
Theorem replies_that_are_not_objects (v : json) (text : string) :
  json_loads (extract_json text) = Some v ->
  (forall m, v <> JObj m) ->
  (forall title content w w1,
     cached_analysis title content w = None ->
     _call_api_with_retry (analysis_prompt title content) w = (Return text, w1) ->
     analyze_article title content w = (Raise TypeError, w1) /\ same_store w w1)
  /\ (forall company articles key t avg prompt w w1,
        comparative_cache_key company articles = Return key ->
        cached_at key w = None ->
        local_analysis company articles = Return (t, avg, prompt) ->
        _call_api_with_retry prompt w = (Return text, w1) ->
        generate_comparative_analysis company articles w = (Raise TypeError, w1)
        /\ same_store w w1).
Proof.
  intros Hparse Hobj. split.
  - intros title content w w1 Hmiss Hcall.
    pose proof (call_api_with_retry_same_store (analysis_prompt title content) w)
      as Hs.
    rewrite (analyze_article_miss _ _ _ Hmiss), Hcall. rewrite Hcall in Hs.
    split; [|exact Hs].
    unfold analysis_of_reply. rewrite Hparse.
    destruct v; try reflexivity. edestruct Hobj; reflexivity.
  - intros company articles key t avg prompt w w1 Hkey Hmiss Hlocal Hcall.
    pose proof (call_api_with_retry_same_store prompt w) as Hs.
    rewrite (generate_comparative_analysis_miss _ _ _ _ Hkey Hmiss), Hlocal, Hcall.
    rewrite Hcall in Hs. split; [|exact Hs].
    unfold comparison_of_reply. rewrite Hparse.
    destruct v; try reflexivity. edestruct Hobj; reflexivity.
Qed.

Lemma py_add_numeric acc v total :
  py_add acc v = Return total -> exists q, numeric v = Some q /\ total = (acc + q)%Qc.
Proof.
  destruct v; simpl; try discriminate; intros [= <-]; eauto.
Qed.

Lemma tally_articles_total (articles : list json) :
  forall t t',
    tally_articles t articles = Return t' ->
    exists scores,
      Forall2 (fun a q => score_of a = Some q) articles scores
      /\ total_score t' = (total_score t + sum_Qc scores)%Qc.
Proof.
  induction articles as [|a rest IH]; intros t t' Hrun; simpl in Hrun.
  - injection Hrun as <-. exists []. split; [constructor|].
    simpl. ring.
  - apply bind_Return in Hrun as (t1 & Hone & Hrest).
    apply tally_article_inv in Hone as (m & _ & -> & _ & _ & _ & Hadd).
    apply py_add_numeric in Hadd as (q & Hq & Htotal).
    destruct (IH _ _ Hrest) as (scores & Hall & Hsum).
    exists (q :: scores). split; [constructor; [exact Hq|exact Hall]|].
    rewrite Hsum, Htotal. simpl. ring.
Qed.

(** X8.  On a cache miss, the record that [generate_comparative_analysis]
    returns holds under ["Average_Sentiment_Score"] the mean of the scores of
    the articles, each article entering with its ["Sentiment_Score"], or 3
    when it has none, and 3 when there is no article; the average that the
    reply proposed is overwritten. *)
Theorem comparison_average_recomputed (company : string)
    (articles : list json) (key : string) (w w' : world) (r : json) :
  comparative_cache_key company articles = Return key ->
  cached_at key w = None ->
  generate_comparative_analysis company articles w = (Return r, w') ->
  exists m scores,
    r = JObj m
    /\ Forall2 (fun a q => score_of a = Some q) articles scores
    /\ dict_get "Average_Sentiment_Score" m
       = Some (JNum (match articles with
                     | [] => Qc_of_Z 3
                     | _ => sum_Qc scores / Qc_of_Z (Z.of_nat (length articles))
                     end)).
Proof.
  intros Hkey Hmiss Hrun.
  rewrite (generate_comparative_analysis_miss _ _ _ _ Hkey Hmiss) in Hrun.
  destruct (local_analysis company articles) as [[[t avg] prompt]|e] eqn:Hlocal;
    [|discriminate].
  apply local_analysis_inv in Hlocal as (Htally & Havg & Hobj & Htopics).
  destruct (tally_articles_total _ _ _ Htally) as (scores & Hscores & Htotal).
  assert (avg = match articles with
                | [] => Qc_of_Z 3
                | _ => (sum_Qc scores / Qc_of_Z (Z.of_nat (length articles)))%Qc
                end) as Havg'.
  { rewrite Havg, Htotal. unfold average.
    destruct articles; simpl; [reflexivity|]. f_equal. ring. }
  destruct (_call_api_with_retry prompt w) as [[text|e] w1]; [|discriminate].
  destruct (comparison_of_reply t avg articles text) as [r0|e] eqn:Hreply;
    [|discriminate].
  split_run Hrun.
  unfold comparison_of_reply in Hreply.
  destruct (json_loads (extract_json text)) as [[| | | | |m]|]; try discriminate.
  - destruct (complete_result_fields t (average (total_score t) (length articles))
                articles m Hobj Htopics) as (rm & Hrm & _ & Hav & _).
    rewrite Hrm in Hreply. injection Hreply as <-.
    exists rm, scores. split; [reflexivity|]. split; [exact Hscores|].
    rewrite <- Havg'. exact Hav.
  - destruct (json_loads_raises _); try discriminate.
    unfold basic_result in Hreply.
    rewrite (first_two_titles_objects _ Hobj) in Hreply.
    unfold distinct_topics in Hreply. rewrite Htopics in Hreply.
    injection Hreply as <-. eexists _, scores. split; [reflexivity|].
    split; [exact Hscores|]. rewrite <- Havg'. reflexivity.
Qed.

(** C3 (amended).  On a cache miss, once the local tally, average and
    prompt are computed.  If the call fails, its exception reaches the
    caller and nothing is written.  If the call returns a text on which
    [json.loads] raises [JSONDecodeError], nothing is raised and the record
    returned, and written to the cache under the key, holds the distribution
    counted from the articles (one count per article under its label), the
    mean of their scores (3 when there is no article), the trend "Unable to
    determine due to processing error", one coverage difference (the error
    entry, with the titles of the first two articles), empty positive and
    negative factors, and as common topics up to five of the topics seen,
    with an empty topic sentiment map.  The failure of the call is not the
    only exception that reaches the caller: so do another exception of
    [json.loads] and the [TypeError] of a reply that parses to a value which
    is not an object, and then nothing is written. *)
Theorem comparison_degrades_when_reply_unparseable (company : string)
    (articles : list json) (key : string) (t : tally) (avg : Qc)
    (prompt : string) (w : world) :
  comparative_cache_key company articles = Return key ->
  cached_at key w = None ->
  local_analysis company articles = Return (t, avg, prompt) ->
  exists scores,
    Forall2 (fun a q => score_of a = Some q) articles scores
    /\ match _call_api_with_retry prompt w with
       | (Raise e, w1) =>
           generate_comparative_analysis company articles w = (Raise e, w1)
           /\ same_store w w1
       | (Return text, w1) =>
           let degraded :=
             JObj
               [("Sentiment_Distribution",
                   json_of_dist (dist_of (fun label => count_label label articles)));
                ("Average_Sentiment_Score",
                   JNum (match articles with
                         | [] => Qc_of_Z 3
                         | _ => sum_Qc scores / Qc_of_Z (Z.of_nat (length articles))
                         end));
                ("Sentiment_Trend",
                   JStr "Unable to determine due to processing error");
                ("Coverage_Differences",
                   JArr [JObj
                     [("Comparison", JStr "Analysis encountered an error");
                      ("Articles_Involved",
                         JArr (title_or_unknown <$> take 2 articles));
                      ("Impact",
                         JStr "Complete comparative analysis not available")]]);
                ("Sentiment_Drivers",
                   JObj [("Positive_Factors", JArr []);
                         ("Negative_Factors", JArr [])]);
                ("Topic_Analysis",
                   JObj [("Common_Topics",
                            JArr (JStr <$> take 5 (set_listing (topics_seen articles))));
                         ("Topic_Sentiment_Map", JObj [])])] in
           same_store w w1
           /\ (json_loads (extract_json text) = None ->
               json_loads_raises (extract_json text) = JSONDecodeError ->
               generate_comparative_analysis company articles w
               = (Return degraded,
                  if store_up w1 then write_cache key degraded w1 else w1)
               /\ (store_up w = true ->
                   cached_at key (write_cache key degraded w1) = Some degraded))
           /\ (json_loads (extract_json text) = None ->
               json_loads_raises (extract_json text) <> JSONDecodeError ->
               generate_comparative_analysis company articles w
               = (Raise (json_loads_raises (extract_json text)), w1))
           /\ (forall v,
                 json_loads (extract_json text) = Some v ->
                 (forall m, v <> JObj m) ->
                 generate_comparative_analysis company articles w
                 = (Raise TypeError, w1))
       end.
Proof.
  intros Hkey Hmiss Hlocal.
  rewrite (generate_comparative_analysis_miss _ _ _ _ Hkey Hmiss), Hlocal.
  apply local_analysis_inv in Hlocal as (Htally & Havg & Hobj & Htopics).
  destruct (tally_articles_total _ _ _ Htally) as (scores & Hscores & Htotal).
  exists scores. split; [exact Hscores|].
  assert (avg = match articles with
                | [] => Qc_of_Z 3
                | _ => (sum_Qc scores / Qc_of_Z (Z.of_nat (length articles)))%Qc
                end) as Havg'.
  { rewrite Havg, Htotal. unfold average.
    destruct articles; simpl; [reflexivity|]. f_equal. ring. }
  assert (sentiment_dist t = dist_of (fun label => count_label label articles))
    as Hdist.
  { rewrite (tally_articles_counts articles initial_tally t (fun _ => 0)
               eq_refl Htally).
    apply dist_of_ext. intros label _. reflexivity. }
  pose proof (call_api_with_retry_same_store prompt w) as Hstore.
  destruct (_call_api_with_retry prompt w) as [[text|e] w1];
    [|split; [reflexivity|exact Hstore]].
  intros degraded. split; [exact Hstore|].
  unfold comparison_of_reply. split; [|split].
  - intros Hparse Hraises. rewrite Hparse, Hraises.
    unfold basic_result. rewrite (first_two_titles_objects _ Hobj).
    unfold distinct_topics. rewrite Htopics.
    subst degraded. rewrite <- Hdist, <- Havg'.
    split; [reflexivity|].
    intros Hup. destruct Hstore as (Hup1 & _ & _). simpl in Hup1.
    unfold cached_at. simpl. rewrite Hup1, Hup, lookup_insert_eq. reflexivity.
  - intros Hparse Hraises. rewrite Hparse.
    destruct (json_loads_raises (extract_json text)); try reflexivity.
    contradiction.
  - intros v Hparse Hv. rewrite Hparse.
    destruct v; try reflexivity. edestruct Hv; reflexivity.
Qed.

End ReplyProperties.

(** * Fenced replies *)

Section SplitFacts.
Implicit Types (s sep cur : string) (c : Ascii.ascii).

Lemma str_app_assoc (a b d : string) : ((a ++ b) ++ d = a ++ (b ++ d))%string.
Proof.
  induction a as [|c a IH]; [reflexivity|].
  change (String c ((a ++ b) ++ d)%string = String c (a ++ (b ++ d))%string).
  rewrite IH. reflexivity.
Qed.

Lemma split_aux_length sep k cur s : 1 <= length (PyStr.split_aux sep k cur s).
Proof.
  revert k cur. induction s as [|c s IH]; intros k cur; simpl; [lia|].
  destruct k as [|k]; [|apply IH].
  destruct (PyStr.startswith sep (String c s)); [simpl; lia|apply IH].
Qed.

(** [sep in s] puts at least two pieces in [s.split(sep)] *)
Lemma split_aux_contains sep s :
  sep <> EmptyString ->
  forall cur, PyStr.contains sep s = true ->
              2 <= length (PyStr.split_aux sep 0 cur s).
Proof.
  intros Hsep. induction s as [|c s IH]; intros cur Hin.
  - destruct sep; [congruence|discriminate].
  - change (PyStr.contains sep (String c s))
      with (PyStr.startswith sep (String c s) || PyStr.contains sep s) in Hin.
    change (PyStr.split_aux sep 0 cur (String c s))
      with (if PyStr.startswith sep (String c s)
            then String.rev cur
                 :: PyStr.split_aux sep (String.length sep - 1) EmptyString s
            else PyStr.split_aux sep 0 (String c cur) s).
    destruct (PyStr.startswith sep (String c s)).
    + pose proof (split_aux_length sep (String.length sep - 1) EmptyString s).
      simpl. lia.
    + apply IH. exact Hin.
Qed.

(** the characters skipped after a separator was recognised *)
Lemma split_aux_skip sep cur (x : string) :
  forall b, PyStr.split_aux sep (String.length x) cur (x ++ b)
            = PyStr.split_aux sep 0 cur b.
Proof.
  induction x as [|c x IH]; intros b; [destruct b; reflexivity|].
  simpl. apply IH.
Qed.

Lemma startswith_app sep b : PyStr.startswith sep (sep ++ b) = true.
Proof.
  induction sep as [|c sep IH]; [reflexivity|].
  simpl. rewrite bool_decide_eq_true_2 by reflexivity. exact IH.
Qed.

(** a separator met at the head of the text *)
Lemma split_aux_at_sep c sep cur b :
  PyStr.split_aux (String c sep) 0 cur (String c sep ++ b)
  = String.rev cur :: PyStr.split_aux (String c sep) 0 EmptyString b.
Proof.
  change (PyStr.split_aux (String c sep) 0 cur (String c sep ++ b))
    with (if PyStr.startswith (String c sep) (String c sep ++ b)
          then String.rev cur
               :: PyStr.split_aux (String c sep) (String.length (String c sep) - 1)
                    EmptyString (sep ++ b)
          else PyStr.split_aux (String c sep) 0 (String c cur) (sep ++ b)).
  rewrite startswith_app. f_equal.
  replace (String.length (String c sep) - 1) with (String.length sep)
    by (simpl; lia).
  apply split_aux_skip.
Qed.

Lemma rev_app_app (s x : string) :
  String.rev_app s x = (String.rev s ++ x)%string.
Proof.
  unfold String.rev. revert x. induction s as [|c s IH]; intros x; [reflexivity|].
  simpl. rewrite (IH (String c x)), (IH (String c EmptyString)), str_app_assoc.
  reflexivity.
Qed.

Lemma rev_rev_app (a cur : string) :
  String.rev (String.rev_app a cur) = (String.rev cur ++ a)%string.
Proof.
  revert cur. induction a as [|c a IH]; intros cur; simpl.
  - symmetry. apply str_app_nil_r.
  - rewrite IH. unfold String.rev at 1. simpl.
    rewrite rev_app_app, str_app_assoc. reflexivity.
Qed.

Lemma contains_cons_false (c x : Ascii.ascii) (a : string) :
  PyStr.contains (String c EmptyString) (String x a) = false ->
  x <> c /\ PyStr.contains (String c EmptyString) a = false.
Proof.
  simpl. intros Hf. apply orb_false_iff in Hf as [Hx Ha].
  rewrite andb_true_r in Hx. apply bool_decide_eq_false in Hx.
  split; [congruence|exact Ha].
Qed.

(** a stretch of text without the first character of the separator *)
Lemma split_aux_free c sep (a : string) :
  PyStr.contains (String c EmptyString) a = false ->
  forall cur rest,
    PyStr.split_aux (String c sep) 0 cur (a ++ rest)
    = PyStr.split_aux (String c sep) 0 (String.rev_app a cur) rest.
Proof.
  induction a as [|x a IH]; intros Hfree cur rest; [reflexivity|].
  apply contains_cons_false in Hfree as [Hx Ha].
  change (PyStr.split_aux (String c sep) 0 cur (String x a ++ rest))
    with (if bool_decide (c = x) && PyStr.startswith sep (a ++ rest)
          then String.rev cur
               :: PyStr.split_aux (String c sep) (String.length (String c sep) - 1)
                    EmptyString (a ++ rest)
          else PyStr.split_aux (String c sep) 0 (String x cur) (a ++ rest)).
  rewrite bool_decide_eq_false_2 by congruence. simpl.
  apply IH. exact Ha.
Qed.

Lemma split_free c sep (a : string) :
  PyStr.contains (String c EmptyString) a = false ->
  PyStr.split (String c sep) a = [a].
Proof.
  intros Hfree. unfold PyStr.split.
  rewrite <- (str_app_nil_r a) at 1.
  rewrite (split_aux_free c sep a Hfree). simpl.
  rewrite rev_rev_app. reflexivity.
Qed.

Lemma split_free_then_sep c sep (a b : string) :
  PyStr.contains (String c EmptyString) a = false ->
  PyStr.split (String c sep) (a ++ String c sep ++ b)
  = a :: PyStr.split (String c sep) b.
Proof.
  intros Hfree. unfold PyStr.split.
  rewrite (split_aux_free c sep a Hfree), split_aux_at_sep, rev_rev_app.
  reflexivity.
Qed.

Lemma startswith_app_l p q s :
  PyStr.startswith (p ++ q) s = true -> PyStr.startswith p s = true.
Proof.
  revert s. induction p as [|c p IH]; intros s Hs; [reflexivity|].
  destruct s as [|x s]; [discriminate|]. simpl in *.
  apply andb_true_iff in Hs as [Hc Hs]. rewrite Hc. simpl. apply IH. exact Hs.
Qed.

Lemma contains_app_l p q s :
  PyStr.contains p s = false -> PyStr.contains (p ++ q) s = false.
Proof.
  induction s as [|x s IH].
  - simpl. rewrite !orb_false_r. intros Hp.
    destruct (PyStr.startswith (p ++ q) "") eqn:Hpq; [|reflexivity].
    apply startswith_app_l in Hpq. congruence.
  - change (PyStr.contains p (String x s))
      with (PyStr.startswith p (String x s) || PyStr.contains p s).
    change (PyStr.contains (p ++ q) (String x s))
      with (PyStr.startswith (p ++ q) (String x s) || PyStr.contains (p ++ q) s).
    intros Hp. apply orb_false_iff in Hp as [Hhere Hrest].
    rewrite (IH Hrest), orb_false_r.
    destruct (PyStr.startswith (p ++ q) (String x s)) eqn:Hpq; [|reflexivity].
    apply startswith_app_l in Hpq. congruence.
Qed.

Lemma contains_at sep a b : PyStr.contains sep (a ++ sep ++ b) = true.
Proof.
  induction a as [|x a IH].
  - change (("" ++ sep ++ b)%string) with ((sep ++ b)%string).
    destruct (sep ++ b)%string eqn:Heq; simpl;
      rewrite <- Heq, startswith_app; reflexivity.
  - change (PyStr.contains sep (String x a ++ sep ++ b))
      with (PyStr.startswith sep (String x (a ++ sep ++ b))
            || PyStr.contains sep (a ++ sep ++ b)).
    rewrite IH. apply orb_true_r.
Qed.

(** [s.split(sep) == [s]] when [sep] does not occur in [s] *)
Lemma split_aux_absent sep s :
  forall cur, PyStr.contains sep s = false ->
              PyStr.split_aux sep 0 cur s = [(String.rev cur ++ s)%string].
Proof.
  induction s as [|c s IH]; intros cur Hin.
  - simpl. rewrite str_app_nil_r. reflexivity.
  - change (PyStr.contains sep (String c s))
      with (PyStr.startswith sep (String c s) || PyStr.contains sep s) in Hin.
    apply orb_false_iff in Hin as [Hhere Hrest].
    change (PyStr.split_aux sep 0 cur (String c s))
      with (if PyStr.startswith sep (String c s)
            then String.rev cur
                 :: PyStr.split_aux sep (String.length sep - 1) EmptyString s
            else PyStr.split_aux sep 0 (String c cur) s).
    rewrite Hhere, (IH _ Hrest). unfold String.rev. simpl.
    rewrite rev_app_app, str_app_assoc. reflexivity.
Qed.

Lemma split_absent sep s : PyStr.contains sep s = false -> PyStr.split sep s = [s].
Proof. intros Hin. unfold PyStr.split. rewrite split_aux_absent by exact Hin. reflexivity. Qed.

(** X9.  What "Clean up response to extract JSON" keeps of a reply, for a
    preamble and a body without backquote.  A body between a [```json]
    fence and a closing fence is returned stripped, provided no second
    [```json] follows; so is a body between two plain fences when the reply
    holds no [```json] at all, and a body after a [```json] fence that is
    never closed.  A reply without a backquote is returned as it is, not
    even stripped. *)
Theorem extract_json_fenced_reply (pre body post : string) :
  PyStr.contains "`" pre = false ->
  PyStr.contains "`" body = false ->
  (PyStr.contains "```json" (body ++ "```" ++ post) = false ->
   extract_json (pre ++ "```json" ++ body ++ "```" ++ post) = PyStr.strip body)
  /\ (PyStr.contains "```json" (pre ++ "```" ++ body ++ "```" ++ post) = false ->
      extract_json (pre ++ "```" ++ body ++ "```" ++ post) = PyStr.strip body)
  /\ extract_json (pre ++ "```json" ++ body) = PyStr.strip body
  /\ extract_json pre = pre.
Proof.
  intros Hpre Hbody.
  assert (PyStr.split "```" body = [body]) as Hsplit_body
    by (apply (split_free _ "``"); exact Hbody).
  split; [|split; [|split]].
  - intros Hone. unfold extract_json.
    rewrite (contains_at "```json" pre).
    rewrite (split_free_then_sep _ "``json" pre _ Hpre).
    rewrite (split_absent _ _ Hone). unfold PyStr.item at 2. simpl nth.
    rewrite (split_free_then_sep _ "``" body post Hbody). reflexivity.
  - intros Hnone. unfold extract_json. rewrite Hnone.
    rewrite (contains_at "```" pre).
    rewrite (split_free_then_sep _ "``" pre _ Hpre).
    rewrite (split_free_then_sep _ "``" body post Hbody).
    unfold PyStr.item at 2. simpl nth. rewrite Hsplit_body. reflexivity.
  - unfold extract_json.
    rewrite (contains_at "```json" pre body).
    rewrite (split_free_then_sep _ "``json" pre body Hpre).
    rewrite (split_free _ "``json" body Hbody).
    unfold PyStr.item at 2. simpl nth. rewrite Hsplit_body. reflexivity.
  - unfold extract_json.
    assert (PyStr.contains "```json" pre = false) as ->
      by exact (contains_app_l "`" "``json" pre Hpre).
    assert (PyStr.contains "```" pre = false) as ->
      by exact (contains_app_l "`" "``" pre Hpre).
    reflexivity.
Qed.

(** X10.  The index [[1]] that follows the test [sep in response_text] is
    always in range: when a non-empty separator occurs in a text, splitting
    the text on it gives at least two pieces. *)
Theorem fence_index_in_range (sep s : string) :
  sep <> EmptyString ->
  PyStr.contains sep s = true ->
  exists first second rest, PyStr.split sep s = first :: second :: rest.
Proof.
  intros Hsep Hin.
  pose proof (split_aux_contains sep s Hsep EmptyString Hin) as Hlen.
  unfold PyStr.split.
  destruct (PyStr.split_aux sep 0 "" s) as [|first [|second rest]];
    simpl in Hlen; try lia.
  eauto.
Qed.

End SplitFacts.

(** * The translation cache *)

Section TranslationCacheProperties.
Context `{Environment}.
Import TextToSpeechCheckpoint.

Lemma same_store_trans w1 w2 w3 :
  same_store w1 w2 -> same_store w2 w3 -> same_store w1 w3.
Proof.
  intros (? & ? & ?) (? & ? & ?). repeat split; congruence.
Qed.

Lemma request_same_store svc payload w : same_store w (request svc payload w).2.
Proof.
  unfold request. destruct (respond (trace w) svc payload); repeat split.
Qed.

Lemma translate_chunk_same_store (self : config) (text : string) (w : world) :
  same_store w (_translate_chunk self text w).2.
Proof.
  assert (forall w0, same_store w0 (_fallback_translate text w0).2) as Hfb.
  { intros w0. rewrite fallback_translate_run.
    destruct (respond (trace w0) MyMemory text); repeat split. }
  assert (forall w0, same_store w0 (_gemini_translate text w0).2) as Hg.
  { intros w0. unfold _gemini_translate, try_except, mbind, M_bind.
    pose proof (call_api_with_retry_same_store
                  (TextToSpeech.translation_prompt text) w0) as Hs.
    destruct (_call_api_with_retry _ w0) as [[t|e] w1]; exact Hs. }
  unfold _translate_chunk, try_except.
  match goal with
  | |- context [match ?run w with _ => _ end] =>
      assert (same_store w (run w).2) as Hs;
      [|destruct (run w) as [[t|e] w1]; [exact Hs|]]
  end.
  { repeat match goal with
           | |- context [if ?c then _ else _] => destruct c
           end;
      try apply request_same_store; [apply Hg|apply Hfb]. }
  simpl in Hs. eapply same_store_trans; [exact Hs|apply Hfb].
Qed.

Lemma translate_chunks_same_store (self : config) (chunks : list string) :
  forall translations w,
    same_store w (translate_chunks self chunks translations w).2.
Proof.
  induction chunks as [|chunk rest IH]; intros translations w; simpl.
  - apply same_store_refl.
  - unfold mbind, M_bind, sleep.
    pose proof (translate_chunk_same_store self chunk (log_event (Sleep 1) w)) as Hs.
    destruct (_translate_chunk self chunk (log_event (Sleep 1) w)) as [[t|e] w1].
    + eapply same_store_trans; [|apply IH].
      eapply same_store_trans; [|exact Hs]. repeat split.
    + eapply same_store_trans; [|exact Hs]. repeat split.
Qed.

Lemma live_translate_hit (text t : string) (w : world) :
  cached_translation text w = Some t ->
  TextToSpeech.translate_to_hindi text w = (Return t, w).
Proof.
  unfold cached_translation, TextToSpeech.translate_to_hindi, mbind, M_bind,
    TextToSpeech._check_translation_cache.
  intros ->. reflexivity.
Qed.

Lemma checkpoint_translate_hit (self : config) (text t : string) (w : world) :
  cached_translation text w = Some t ->
  translate_to_hindi self text w = (Return t, w).
Proof.
  unfold cached_translation, translate_to_hindi, _check_translation_cache,
    TextToSpeech._check_translation_cache, _get_cache_key,
    TextToSpeech._get_cache_key.
  unfold mbind at 1, M_bind at 1. intros ->. reflexivity.
Qed.

Lemma cached_translation_prefix (t1 t2 : string) (w : world) :
  PyStr.take 1000 t1 = PyStr.take 1000 t2 ->
  cached_translation t2 w = cached_translation t1 w.
Proof. unfold cached_translation. intros ->. reflexivity. Qed.

Lemma cached_translation_written (text r : string) (w : world) :
  store_up w = true ->
  cached_translation text
    (write_translation (TextToSpeech._get_cache_key (PyStr.take 1000 text)) r w)
  = if bool_decide (r = EmptyString) then None else Some r.
Proof.
  intros Hup. unfold cached_translation. simpl. rewrite Hup, lookup_insert_eq.
  reflexivity.
Qed.

(** after a translation was returned, what the cache hands back for the text *)
Lemma live_translated_then_cached (text r : string) (w w1 : world) :
  store_up w = true ->
  TextToSpeech.translate_to_hindi text w = (Return r, w1) ->
  r <> EmptyString -> cached_translation text w1 = Some r.
Proof.
  intros Hup Hrun Hr.
  destruct (cached_translation text w) as [t|] eqn:Hc.
  - rewrite (live_translate_hit _ _ _ Hc) in Hrun. split_run Hrun. exact Hc.
  - rewrite (live_translate_miss _ _ Hc) in Hrun.
    pose proof (call_api_with_retry_same_store
                  (TextToSpeech.translation_prompt text) w) as (Hup0 & _ & _).
    destruct (_call_api_with_retry _ w) as [[reply|e] w0]; [|discriminate].
    simpl in Hup0. rewrite Hup in Hup0. rewrite Hup0 in Hrun.
    split_run Hrun. rewrite cached_translation_written by exact Hup0.
    rewrite bool_decide_eq_false_2 by exact Hr. reflexivity.
Qed.

Lemma checkpoint_translated_then_cached (self : config) (text r : string)
    (w w1 : world) :
  store_up w = true ->
  translate_to_hindi self text w = (Return r, w1) ->
  r <> EmptyString -> cached_translation text w1 = Some r.
Proof.
  intros Hup Hrun Hr.
  destruct (cached_translation text w) as [t|] eqn:Hc.
  - rewrite (checkpoint_translate_hit _ _ _ _ Hc) in Hrun. split_run Hrun. exact Hc.
  - rewrite (checkpoint_translate_miss _ _ _ Hc) in Hrun.
    match type of Hrun with
    | context [match ?run w with _ => _ end] =>
        assert (same_store w (run w).2) as Hs;
        [|destruct (run w) as [[full|e] w0]; [|discriminate]]
    end.
    { destruct (bool_decide (max_chunk_size < String.length text)).
      - unfold mbind, M_bind.
        pose proof (translate_chunks_same_store self
                      (chunks_of max_chunk_size text) [] w) as Hs.
        destruct (translate_chunks self _ [] w) as [[ts|e] w0]; exact Hs.
      - apply translate_chunk_same_store. }
    destruct Hs as (Hup0 & _ & _). simpl in Hup0. rewrite Hup in Hup0.
    rewrite Hup0 in Hrun. split_run Hrun.
    rewrite cached_translation_written by exact Hup0.
    rewrite bool_decide_eq_false_2 by exact Hr. reflexivity.
Qed.

(** X11.  Both [translate_to_hindi] compute the cache key from the first
    1000 characters of the text.  With the cache store working, once a
    non-empty translation has been returned for a text, every text with the
    same first 1000 characters gets that translation and leaves the world as
    it is, whatever follows these characters and, in the multi-backend
    variant, whatever backend is configured. *)
Theorem translation_cached_by_prefix (t1 t2 r : string) (w w1 : world) :
  store_up w = true ->
  PyStr.take 1000 t1 = PyStr.take 1000 t2 ->
  r <> EmptyString ->
  (TextToSpeech.translate_to_hindi t1 w = (Return r, w1) ->
   TextToSpeech.translate_to_hindi t2 w1 = (Return r, w1))
  /\ (forall self self',
        translate_to_hindi self t1 w = (Return r, w1) ->
        translate_to_hindi self' t2 w1 = (Return r, w1)).
Proof.
  intros Hup Hprefix Hr. split.
  - intros Hrun. apply live_translate_hit.
    rewrite (cached_translation_prefix _ _ _ Hprefix).
    apply (live_translated_then_cached _ _ _ _ Hup Hrun Hr).
  - intros self self' Hrun. apply checkpoint_translate_hit.
    rewrite (cached_translation_prefix _ _ _ Hprefix).
    apply (checkpoint_translated_then_cached _ _ _ _ _ Hup Hrun Hr).
Qed.

End TranslationCacheProperties.

(** * The news scraper *)

Section ScraperProperties.
Import NewsScraper.
Context `{Web}.

Lemma paragraphs_run (k : nat) :
  forall acc n,
    exists ps d,
      paragraphs k acc n = (Return ps, {| visits := visits n; drawn := d |}).
Proof.
  induction k as [|k IH]; intros acc n; simpl.
  - exists acc, (drawn n). destruct n; reflexivity.
  - unfold mbind, Run_bind, draw. simpl.
    match goal with
    | |- context [paragraphs k ?acc' ?m] =>
        destruct (IH acc' m) as (ps & d & ->)
    end.
    exists ps, d. reflexivity.
Qed.

Lemma generate_simulated_content_run (n : net) :
  exists a d,
    _generate_simulated_content n = (Return a, {| visits := visits n; drawn := d |})
    /\ simulated_content a.
Proof.
  unfold _generate_simulated_content, mbind, Run_bind, draw. simpl.
  match goal with
  | |- context [paragraphs ?k ?acc ?m] =>
      destruct (paragraphs_run k acc m) as (ps & d & ->)
  end.
  simpl. eexists _, _. split; [reflexivity|].
  split; [|split; reflexivity]. simpl.
  destruct (nth_lookup_or_length title_templates
              (random_choice (drawn n) (length title_templates)) EmptyString)
    as [Hl|Hlen].
  - eapply list_elem_of_lookup_2. exact Hl.
  - pose proof (random_choice_lt (drawn n) (length title_templates)) as Hlt.
    simpl in Hlen, Hlt. lia.
Qed.

Lemma simulate_results_run (company : string) (k : nat) :
  forall i acc n,
    exists hs d,
      simulate_results company i k acc n
      = (Return (acc ++ hs), {| visits := visits n; drawn := d |})
      /\ Forall2 (simulated_hit company) (seq (i + 1) k) hs.
Proof.
  induction k as [|k IH]; intros i acc n; simpl.
  - exists [], (drawn n). rewrite app_nil_r. split; [destruct n; reflexivity|constructor].
  - unfold mbind, Run_bind.
    destruct (generate_simulated_content_run n) as (a & d & -> & _).
    match goal with
    | |- context [simulate_results company (S i) k (acc ++ [?h]) ?m] =>
        destruct (IH (S i) (acc ++ [h]) m) as (hs & d' & -> & Hhs);
        exists (h :: hs), d'
    end.
    rewrite <- app_assoc. split; [reflexivity|].
    constructor; [repeat split|exact Hhs].
Qed.

Lemma search_news_api_run (company : string) (max_results : Z) (n : net) :
  exists hs d,
    _search_news_api company max_results n
    = (Return hs, {| visits := visits n; drawn := d |})
    /\ Forall2 (simulated_hit company) (seq 1 (Z.to_nat (Z.min 10 max_results))) hs.
Proof.
  unfold _search_news_api, try_except_run.
  destruct (simulate_results_run company (Z.to_nat (Z.min 10 max_results)) 0 [] n)
    as (hs & d & -> & Hhs).
  exists hs, d. split; [reflexivity|exact Hhs].
Qed.

Lemma simulated_url_example (company : string) (i : nat) :
  PyStr.startswith "https://example.com" (simulated_url company i) = true.
Proof. reflexivity. Qed.

Lemma collect_run (self : scraper) (company : string) :
  Qle_bool 0%Qc (request_delay self) = true ->
  forall idxs hs, Forall2 (simulated_hit company) idxs hs ->
  forall acc n,
    exists arts d,
      collect self hs acc n
      = (Return (acc ++ arts),
         {| visits := visits n ++ replicate (length hs) (Wait (request_delay self));
            drawn := d |})
      /\ Forall2 (fun i art => exists a, art = simulated_article company i a
                                         /\ simulated_content a) idxs arts.
Proof.
  intros Hdelay idxs hs Hhs.
  induction Hhs as [|i h idxs hs (Hurl & Hsrc & Hdate) _ IH]; intros acc n.
  - exists [], (drawn n). simpl. rewrite !app_nil_r.
    split; [destruct n; reflexivity|constructor].
  - simpl. unfold mbind at 1, Run_bind at 1.
    unfold _extract_article_content. rewrite Hurl.
    rewrite simulated_url_example, orb_true_r.
    unfold mbind at 1, Run_bind at 1.
    destruct (generate_simulated_content_run n) as (a & d & -> & Ha).
    unfold mret at 1, Run_ret at 1.
    change (dict_of_article_data a) with
      [("title"%string, JStr (title a)); ("content"%string, JStr (content a));
       ("word_count"%string, GeminiService.json_of_nat (word_count a));
       ("published_at"%string, JStr (published_at a))].
    cbv beta iota.
    unfold mbind at 1, Run_bind at 1, sleep at 1. rewrite Hdelay.
    match goal with
    | |- context [collect self hs (acc ++ [?art]) ?m] =>
        destruct (IH (acc ++ [art]) m) as (arts & d' & -> & Harts);
        exists (art :: arts), d'
    end.
    simpl. rewrite <- !app_assoc. split; [reflexivity|].
    constructor; [|exact Harts].
    exists a. split; [|exact Ha].
    destruct h as [ht hu hs' hd]. simpl in *. subst.
    reflexivity.
Qed.

Lemma title_templates_placeholder (t : string) :
  t ∈ title_templates -> PyStr.contains "{Company}" t = true.
Proof.
  unfold title_templates. intros Ht.
  repeat (apply elem_of_cons in Ht as [->|Ht]; [reflexivity|]).
  inversion Ht.
Qed.

Lemma search_company_news_run (self : scraper) (company : string)
    (max_results : Z) (n : net) :
  (1 <= max_results <= 21)%Z ->
  Qle_bool 0%Qc (request_delay self) = true ->
  exists articles d,
    search_company_news self company max_results n
    = (Return articles,
       {| visits := visits n
                    ++ replicate (Z.to_nat (Z.min 10 max_results))
                         (Wait (request_delay self));
          drawn := d |})
    /\ Forall2 (fun i art => exists a, art = simulated_article company i a
                                       /\ simulated_content a)
         (seq 1 (Z.to_nat (Z.min 10 max_results))) articles.
Proof.
  intros Hmax Hdelay.
  unfold search_company_news, try_except_run.
  unfold mbind at 1, Run_bind at 1.
  destruct (search_news_api_run company max_results n) as (hs & d & -> & Hhs).
  pose proof (Forall2_length _ _ _ Hhs) as Hlen. rewrite length_seq in Hlen.
  assert (match hs with [] => true | _ :: _ => false end
          || (Z.of_nat (length hs) <? max_results / 2)%Z = false) as ->.
  { apply orb_false_iff. split.
    - destruct hs; [|reflexivity]. simpl in Hlen. lia.
    - apply Z.ltb_ge. rewrite <- Hlen.
      assert (max_results / 2 < 11)%Z
        by (apply Z.div_lt_upper_bound; lia).
      assert (max_results / 2 <= max_results)%Z
        by (apply Z.div_le_upper_bound; lia).
      lia. }
  unfold mbind at 1, Run_bind at 1, mret at 1, Run_ret at 1.
  assert (py_slice_to max_results hs = hs) as ->.
  { unfold py_slice_to. rewrite (proj2 (Z.leb_le 0 max_results)) by lia.
    apply take_ge. lia. }
  destruct (collect_run self company Hdelay _ _ Hhs []
              {| visits := visits n; drawn := d |})
    as (arts & d' & -> & Harts).
  exists arts, d'. rewrite app_nil_l. simpl visits. rewrite <- Hlen.
  split; [reflexivity|exact Harts].
Qed.

(** X12.  Asked for 1 to 21 results, as its callers do with 10,
    [search_company_news] of a scraper with a non-negative delay never
    requests a page: it returns the simulated results, as many as asked but
    at most 10, each merged with a simulated content drawn afresh, and
    sleeps once per article.  The title of every article returned is one of
    the ten templates as written, with the placeholder [{Company}] still in
    it, and its url is the [example.com] url of its rank. *)
Theorem search_company_news_is_simulated (self : scraper) (company : string)
    (max_results : Z) (n : net) :
  (1 <= max_results <= 21)%Z ->
  Qle_bool 0%Qc (request_delay self) = true ->
  exists articles n',
    search_company_news self company max_results n = (Return articles, n')
    /\ length articles = Z.to_nat (Z.min 10 max_results)
    /\ visits n' = visits n ++ replicate (length articles) (Wait (request_delay self))
    /\ forall i article,
         articles !! i = Some article ->
         exists a,
           article = simulated_article company (i + 1) a
           /\ title a ∈ title_templates
           /\ PyStr.contains "{Company}" (title a) = true
           /\ word_count a = length (PyStr.words (content a))
           /\ published_at a = "2023-01-01"%string.
Proof.
  intros Hmax Hdelay.
  destruct (search_company_news_run self company max_results n Hmax Hdelay)
    as (arts & d & -> & Harts).
  pose proof (Forall2_length _ _ _ Harts) as Hlen. rewrite length_seq in Hlen.
  exists arts, {| visits := visits n
                            ++ replicate (Z.to_nat (Z.min 10 max_results))
                                 (Wait (request_delay self));
                  drawn := d |}.
  split; [reflexivity|]. split; [lia|]. split; [simpl; congruence|].
  intros i article Hi.
  destruct (Forall2_lookup_r _ _ _ _ _ Harts Hi) as (j & Hj & a & -> & Ha).
  apply lookup_seq in Hj as [-> _].
  destruct Ha as (Htitle & Hwords & Hdate).
  exists a. replace (i + 1) with (1 + i) by lia.
  split; [reflexivity|]. split; [exact Htitle|].
  split; [apply title_templates_placeholder; exact Htitle|].
  split; [exact Hwords|exact Hdate].
Qed.

Lemma net_eta (n : net) : {| visits := visits n; drawn := drawn n |} = n.
Proof. destruct n; reflexivity. Qed.

Lemma sleep_run (secs : Qc) (n : net) :
  exists r new, sleep secs n = (r, {| visits := visits n ++ new; drawn := drawn n |})
                /\ pages_of new = [].
Proof.
  unfold sleep. destruct (Qle_bool 0%Qc secs).
  - eexists _, [Wait secs]. split; reflexivity.
  - eexists _, []. rewrite app_nil_r, net_eta. split; reflexivity.
Qed.

Lemma pages_of_app (a b : list visit) : pages_of (a ++ b) = pages_of a ++ pages_of b.
Proof. unfold pages_of. apply omap_app. Qed.

(** the loop requests a prefix of the urls it is given *)
Lemma search_pages_run (self : scraper) (max_results : Z) (urls : list string) :
  forall results n,
    exists r new,
      search_pages self urls max_results results n
      = (r, {| visits := visits n ++ new; drawn := drawn n |})
      /\ pages_of new `prefix_of` urls
      /\ ((max_results <= Z.of_nat (length results))%Z ->
          r = Return results /\ new = []).
Proof.
  induction urls as [|url rest IH]; intros results n; simpl.
  - exists (Return results), []. rewrite app_nil_r, net_eta.
    split; [reflexivity|]. split; [reflexivity|]. intros _. split; reflexivity.
  - destruct (max_results <=? Z.of_nat (length results))%Z eqn:Hfull.
    + exists (Return results), []. rewrite app_nil_r, net_eta.
      split; [reflexivity|]. split; [apply prefix_nil|].
      intros _. split; reflexivity.
    + apply Z.leb_gt in Hfull.
      unfold mbind at 1, Run_bind at 1, get at 1.
      destruct (session_get (visits n) url) as [status text|msg].
      * cbv beta iota. simpl fst. simpl snd.
        case_bool_decide as Hstatus.
        -- unfold mbind at 1, Run_bind at 1.
           match goal with
           | |- context [sleep ?secs ?m] =>
               destruct (sleep_run secs m) as (r1 & new1 & -> & Hnew1)
           end.
           destruct r1 as [[]|e].
           ++ match goal with
              | |- context [search_pages self rest max_results ?rs ?m] =>
                  destruct (IH rs m) as (r & new & -> & Hpre & _)
              end.
              exists r, ([Get url] ++ new1 ++ new). simpl.
              rewrite <- !app_assoc. split; [reflexivity|].
              split; [|intros; lia].
              rewrite pages_of_app, Hnew1. simpl.
              apply prefix_cons. exact Hpre.
           ++ exists (Raise e), ([Get url] ++ new1). simpl.
              rewrite <- !app_assoc. split; [reflexivity|].
              split; [|intros; lia].
              rewrite Hnew1. apply prefix_cons, prefix_nil.
        -- match goal with
           | |- context [search_pages self rest max_results ?rs ?m] =>
               destruct (IH rs m) as (r & new & -> & Hpre & _)
           end.
           exists r, ([Get url] ++ new). simpl. rewrite <- !app_assoc.
           split; [reflexivity|]. split; [|intros; lia].
           apply prefix_cons. exact Hpre.
      * exists (Raise (Exception msg)), [Get url]. simpl.
        split; [reflexivity|]. split; [|intros; lia].
        apply prefix_cons, prefix_nil.
Qed.

Lemma py_slice_to_length {A} (k : Z) (l : list A) :
  (Z.of_nat (length (py_slice_to k l)) <= Z.max 0 k)%Z
  \/ (k < 0)%Z.
Proof.
  unfold py_slice_to. destruct (0 <=? k)%Z eqn:Hk.
  - left. apply Z.leb_le in Hk. rewrite length_take. lia.
  - right. apply Z.leb_gt in Hk. exact Hk.
Qed.

(** X13.  [_search_web] never raises and requests at most two pages, the
    Google search then the Yahoo search for the company name followed by
    "news", in that order; it returns at most [max_results] results, and
    requests nothing when [max_results] is not positive. *)
Theorem search_web_bounded (self : scraper) (company : string)
    (max_results : Z) (n : net) :
  exists hits new,
    _search_web self company max_results n
    = (Return hits, {| visits := visits n ++ new; drawn := drawn n |})
    /\ pages_of new `prefix_of` search_urls company
    /\ (Z.of_nat (length hits) <= Z.max 0 max_results)%Z
    /\ ((max_results <= 0)%Z -> new = []).
Proof.
  unfold _search_web, try_except_run. unfold mbind at 1, Run_bind at 1.
  match goal with
  | |- context [search_pages self ?urls max_results [] n] =>
      change urls with (search_urls company);
      destruct (search_pages_run self max_results (search_urls company) [] n)
        as (r & new & -> & Hpre & Hfull)
  end.
  destruct r as [results|e].
  - exists (py_slice_to max_results results), new.
    split; [reflexivity|]. split; [exact Hpre|].
    destruct (decide (max_results <= 0)%Z) as [Hle|Hgt].
    + destruct (Hfull ltac:(simpl; lia)) as [[= ->] ->].
      split; [|intros _; reflexivity].
      unfold py_slice_to. destruct (0 <=? max_results)%Z; simpl;
        rewrite ?take_nil; simpl; lia.
    + split; [|intros; lia].
      destruct (py_slice_to_length max_results results); lia.
  - exists [], new. split; [reflexivity|]. split; [exact Hpre|].
    split; [simpl; lia|].
    intros Hle. destruct (Hfull ltac:(simpl; lia)) as [? _]. discriminate.
Qed.

(** X14.  Asked for no result, or for a negative number of results,
    [search_company_news] returns the empty list and does nothing: no page
    is requested, no simulated content is drawn, no sleep. *)
Theorem search_company_news_nothing_asked (self : scraper) (company : string)
    (max_results : Z) (n : net) :
  (max_results <= 0)%Z ->
  search_company_news self company max_results n = (Return [], n).
Proof.
  intros Hle. unfold search_company_news, try_except_run.
  unfold mbind at 1, Run_bind at 1.
  unfold _search_news_api, try_except_run.
  replace (Z.to_nat (Z.min 10 max_results)) with 0 by lia. simpl.
  unfold mbind at 1, Run_bind at 1. unfold mbind at 1, Run_bind at 1.
  match goal with
  | |- context [_search_web self company ?k n] =>
      destruct (search_web_bounded self company k n)
        as (hits & new & -> & _ & Hlen & Hnew)
  end.
  rewrite (Hnew ltac:(lia)), app_nil_r, net_eta.
  assert (hits = []) as -> by (destruct hits; [reflexivity|simpl in Hlen; lia]).
  unfold mret at 1, Run_ret at 1. simpl.
  unfold py_slice_to. destruct (0 <=? max_results)%Z; simpl; rewrite ?take_nil;
    reflexivity.
Qed.

End ScraperProperties.

(** * Audio generation *)

Section AudioProperties.
Import Speech.
Context `{Environment} `{Host}.

Lemma act_ok (a : action) (s : studio) :
  attempt (done s) a = None ->
  act a s = (Return tt, with_done (done s ++ [a]) s).
Proof. unfold act. intros ->. reflexivity. Qed.

Lemma act_failed (a : action) (s : studio) (msg : string) :
  attempt (done s) a = Some msg ->
  act a s = (Raise (Exception msg), with_done (done s ++ [a]) s).
Proof. unfold act. intros ->. reflexivity. Qed.

Lemma good_action (bad : action -> bool) (a : action) (h : list action) :
  fails_exactly bad -> bad a = false -> attempt h a = None.
Proof.
  intros Hbad Ha. destruct (attempt h a) as [msg|] eqn:Hat; [|reflexivity].
  assert (bad a = true) by (apply (Hbad h a); rewrite Hat; eauto). congruence.
Qed.

Lemma bad_action (bad : action -> bool) (a : action) (h : list action) :
  fails_exactly bad -> bad a = true -> exists msg, attempt h a = Some msg.
Proof.
  intros Hbad Ha. apply (Hbad h a) in Ha as [msg Hmsg]. eauto.
Qed.

Lemma with_done_with_done l l' s : with_done l (with_done l' s) = with_done l s.
Proof. reflexivity. Qed.

Lemma with_done_same s : with_done (done s) s = s.
Proof. destruct s; reflexivity. Qed.

Lemma speak_chunks_run (bad : action -> bool) (output_path : string)
    (chunks : list string) :
  fails_exactly bad ->
  forall i temp_files s,
    Forall (fun a => bad a = false) (speaking output_path i chunks) ->
    speak_chunks output_path i chunks temp_files s
    = (Return (temp_files ++ parts output_path i (length chunks)),
       with_done (done s ++ speaking output_path i chunks) s).
Proof.
  intros Hbad. induction chunks as [|chunk rest IH]; intros i temp_files s Hspeak.
  - simpl. unfold parts. simpl. rewrite !app_nil_r, with_done_same. reflexivity.
  - simpl in Hspeak. apply Forall_cons in Hspeak as [Hchunk Hrest].
    apply Forall_cons in Hrest as [_ Hrest].
    simpl. unfold mbind at 1, Run_bind at 1.
    rewrite act_ok by (eapply good_action; [exact Hbad|exact Hchunk]).
    unfold mbind at 1, Run_bind at 1, nap at 1.
    rewrite IH by exact Hrest. simpl. unfold parts. simpl. rewrite <- !app_assoc. reflexivity.
Qed.

Lemma remove_all_run (bad : action -> bool) (files : list string) :
  fails_exactly bad ->
  Forall (fun f => bad (Remove f) = false) files ->
  forall s,
    remove_all files s = (Return tt, with_done (done s ++ (Remove <$> files)) s).
Proof.
  intros Hbad Hfiles. induction Hfiles as [|f rest Hf _ IH]; intros s.
  - simpl. rewrite app_nil_r, with_done_same. reflexivity.
  - simpl. unfold mbind at 1, Run_bind at 1.
    rewrite act_ok by (eapply good_action; [exact Hbad|exact Hf]).
    rewrite IH. simpl. rewrite <- app_assoc. reflexivity.
Qed.

Lemma chunks_of_length (size : nat) (text : string) :
  length (TextToSpeechCheckpoint.chunks_of size text)
  = (String.length text + size - 1) / size.
Proof.
  unfold TextToSpeechCheckpoint.chunks_of, TextToSpeechCheckpoint.range_step.
  rewrite !length_fmap, length_seq. reflexivity.
Qed.

Lemma generate_audio_returns (text output_path : string) (s : studio) :
  exists ok s', generate_audio text output_path s = (Return ok, s').
Proof.
  unfold generate_audio, try_except_run.
  match goal with
  | |- context [match ?run s with _ => _ end] => destruct (run s) as [[ok|e] s']
  end; eauto.
Qed.

(** X16.  [generate_audio] on a text of more than 3000 characters, when the
    directory, the synthesis, the copy and the removal of the parts work
    and a step of the combination fails, be it the writing of the list of
    the parts, the run of ffmpeg or the removal of the list after ffmpeg
    succeeded: the steps are tried up to the first that fails, then the
    first part is copied over the output, the parts are removed, and [True]
    is returned.  The output then holds the speech of the first 3000
    characters only. *)
Theorem generate_audio_falls_back_to_first_part (text output_path : string)
    (bad : action -> bool) (s : studio) :
  max_chunk_size < String.length text ->
  fails_exactly bad ->
  let chunks := TextToSpeechCheckpoint.chunks_of max_chunk_size text in
  let temp_files := parts output_path 0 (length chunks) in
  (forall a,
     a ∈ Makedirs (dirname output_path)
         :: speaking output_path 0 chunks
         ++ Copy (temp_path output_path 0) output_path
         :: (Remove <$> temp_files) ->
     bad a = false) ->
  (exists a, a ∈ combination output_path temp_files /\ bad a = true) ->
  exists k failed,
    combination output_path temp_files !! k = Some failed
    /\ bad failed = true
    /\ (forall j a, j < k -> combination output_path temp_files !! j = Some a ->
                    bad a = false)
    /\ generate_audio text output_path s
       = (Return true,
          with_done
            (done s ++ [Makedirs (dirname output_path)]
             ++ speaking output_path 0 chunks
             ++ take (S k) (combination output_path temp_files)
             ++ [Copy (temp_path output_path 0) output_path]
             ++ (Remove <$> temp_files)) s).
Proof.
  intros Hlong Hbad chunks temp_files Hgood (a0 & Hin0 & Ha0).
  assert (bad (Makedirs (dirname output_path)) = false) as Hmk.
  { apply Hgood. apply elem_of_cons. left. reflexivity. }
  assert (Forall (fun a => bad a = false) (speaking output_path 0 chunks))
    as Hspeak.
  { apply Forall_forall. intros a Ha. apply Hgood.
    apply elem_of_cons. right. apply elem_of_app. left. exact Ha. }
  assert (bad (Copy (temp_path output_path 0) output_path) = false) as Hcopy.
  { apply Hgood. apply elem_of_cons. right. apply elem_of_app. right.
    apply elem_of_cons. left. reflexivity. }
  assert (Forall (fun f => bad (Remove f) = false) temp_files) as Hremove.
  { apply Forall_forall. intros f Hf. apply Hgood.
    apply elem_of_cons. right. apply elem_of_app. right.
    apply elem_of_cons. right. apply list_elem_of_fmap. exists f. split; [reflexivity|exact Hf]. }
  assert (exists n, length chunks = S n) as [n Hn].
  { unfold chunks. rewrite chunks_of_length. unfold max_chunk_size in *.
    assert (1 <= (String.length text + 3000 - 1) / 3000)
      by (apply Nat.div_le_lower_bound; lia).
    destruct ((String.length text + 3000 - 1) / 3000); [lia|eauto]. }
  assert (temp_files = temp_path output_path 0 :: parts output_path 1 n) as Htemps.
  { unfold temp_files, parts. rewrite Hn. reflexivity. }
  (* the run up to the combination *)
  unfold generate_audio, try_except_run.
  unfold mbind at 1, Run_bind at 1.
  rewrite act_ok by (eapply good_action; [exact Hbad|exact Hmk]).
  rewrite bool_decide_eq_true_2 by exact Hlong.
  unfold mbind at 1, Run_bind at 1. unfold mbind at 1, Run_bind at 1.
  fold chunks.
  rewrite (speak_chunks_run bad output_path chunks Hbad 0 [] _ Hspeak).
  rewrite app_nil_l. fold temp_files.
  set (s1 := with_done _ _).
  clearbody temp_files. subst temp_files.
  set (temp_files := temp_path output_path 0 :: parts output_path 1 n) in *.
  (* what the handler does from any state *)
  assert (forall s2,
            (match temp_files with
             | [] => mret ()
             | first :: _ => act (Copy first output_path);; remove_all temp_files
             end) s2
            = (Return tt,
               with_done (done s2 ++ [Copy (temp_path output_path 0) output_path]
                          ++ (Remove <$> temp_files)) s2)) as Hhandler.
  { intros s2. unfold temp_files at 1. cbv beta iota.
    unfold mbind at 1, Run_bind at 1.
    rewrite act_ok by (eapply good_action; [exact Hbad|exact Hcopy]).
    rewrite (remove_all_run bad temp_files Hbad Hremove). simpl.
    rewrite <- app_assoc. reflexivity. }
  unfold try_except_run.
  set (a1 := WriteText "file_list.txt" (file_list temp_files)).
  set (a2 := RunProcess (ffmpeg_command output_path)).
  set (a3 := Remove "file_list.txt").
  assert (combination output_path temp_files = [a1; a2; a3]) as Hcomb by reflexivity.
  destruct (bad a1) eqn:Hb1.
  { destruct (bad_action bad a1 (done s1) Hbad Hb1) as [msg Hmsg].
    exists 0, a1. rewrite Hcomb. split; [reflexivity|]. split; [exact Hb1|].
    split; [intros; lia|].
    unfold mbind at 1, Run_bind at 1. rewrite (act_failed _ _ _ Hmsg).
    rewrite Hhandler. subst s1. simpl. unfold with_done. simpl.
    rewrite <- !app_assoc. reflexivity. }
  unfold mbind at 1, Run_bind at 1.
  rewrite act_ok by (eapply good_action; [exact Hbad|exact Hb1]).
  destruct (bad a2) eqn:Hb2.
  { destruct (bad_action bad a2 (done (with_done (done s1 ++ [a1]) s1)) Hbad Hb2)
      as [msg Hmsg].
    exists 1, a2. rewrite Hcomb. split; [reflexivity|]. split; [exact Hb2|].
    split.
    { intros j a Hj Hja. destruct j as [|j]; [|lia]. injection Hja as <-. exact Hb1. }
    unfold mbind at 1, Run_bind at 1. rewrite (act_failed _ _ _ Hmsg).
    rewrite Hhandler. subst s1. simpl. unfold with_done. simpl.
    rewrite <- !app_assoc. reflexivity. }
  unfold mbind at 1, Run_bind at 1.
  rewrite act_ok by (eapply good_action; [exact Hbad|exact Hb2]).
  destruct (bad a3) eqn:Hb3.
  { unfold mbind at 1, Run_bind at 1.
    match goal with
    | |- context [act a3 ?st] =>
        destruct (bad_action bad a3 (done st) Hbad Hb3) as [msg Hmsg]
    end.
    exists 2, a3. rewrite Hcomb. split; [reflexivity|]. split; [exact Hb3|].
    split.
    { intros j a Hj Hja. destruct j as [|[|j]]; [| |lia]; injection Hja as <-;
        assumption. }
    rewrite (act_failed _ _ _ Hmsg).
    rewrite Hhandler. subst s1. simpl. unfold with_done. simpl.
    rewrite <- !app_assoc. reflexivity. }
  exfalso. pose proof Hin0 as Hin. rewrite Hcomb in Hin.
  repeat (apply elem_of_cons in Hin as [Heq|Hin];
          [rewrite Heq in Ha0; congruence|]).
  inversion Hin.
Qed.

(** X15.  [generate_audio] when no action fails.  A text of at most 3000
    characters is spoken in one piece into the output, after the directory
    of the output is made.  A longer text is cut into consecutive chunks of
    3000 characters that put end to end give the text back; chunk number [i]
    is spoken into [<output>.part<i>.mp3], with a sleep of one second after
    each; then the list of the parts is written, ffmpeg is run, the list
    and the parts are removed.  [True] is returned. *)
Theorem generate_audio_when_nothing_fails (text output_path : string) (s : studio) :
  (forall h a, attempt h a = None) ->
  let chunks := TextToSpeechCheckpoint.chunks_of max_chunk_size text in
  let temp_files := parts output_path 0 (length chunks) in
  concat_strings chunks = text
  /\ (String.length text <= max_chunk_size ->
      generate_audio text output_path s
      = (Return true,
         with_done (done s ++ [Makedirs (dirname output_path);
                               Speak text output_path]) s))
  /\ (max_chunk_size < String.length text ->
      generate_audio text output_path s
      = (Return true,
         with_done
           (done s ++ [Makedirs (dirname output_path)]
            ++ speaking output_path 0 chunks
            ++ combination output_path temp_files
            ++ (Remove <$> temp_files)) s)).
Proof.
  intros Hok chunks temp_files.
  assert (fails_exactly (fun _ => false)) as Hbad.
  { intros h a. rewrite Hok. split; [intros [? ?]|]; discriminate. }
  split; [|split].
  - unfold chunks.
    rewrite (chunks_of_consecutive max_chunk_size ltac:(unfold max_chunk_size; lia)
               (String.length text) text (le_n _)).
    apply consecutive_chunks_concat; [unfold max_chunk_size; lia|lia].
  - intros Hshort. unfold generate_audio, try_except_run.
    unfold mbind at 1, Run_bind at 1. rewrite act_ok by apply Hok.
    rewrite bool_decide_eq_false_2 by lia.
    unfold mbind at 1, Run_bind at 1. rewrite act_ok by apply Hok.
    unfold mret, Run_ret, with_done. simpl. rewrite <- app_assoc. reflexivity.
  - intros Hlong. unfold generate_audio, try_except_run.
    unfold mbind at 1, Run_bind at 1. rewrite act_ok by apply Hok.
    rewrite bool_decide_eq_true_2 by exact Hlong.
    unfold mbind at 1, Run_bind at 1. unfold mbind at 1, Run_bind at 1.
    fold chunks.
    rewrite (speak_chunks_run (fun _ => false) output_path chunks Hbad 0 [])
      by (apply Forall_forall; reflexivity).
    rewrite app_nil_l. fold temp_files.
    unfold mbind at 1, Run_bind at 1. rewrite act_ok by apply Hok.
    unfold mbind at 1, Run_bind at 1. rewrite act_ok by apply Hok.
    unfold mbind at 1, Run_bind at 1. rewrite act_ok by apply Hok.
    rewrite (remove_all_run (fun _ => false) temp_files Hbad)
      by (apply Forall_forall; reflexivity).
    unfold mret, Run_ret, with_done, combination. simpl.
    rewrite <- !app_assoc. reflexivity.
Qed.

(** the multi-backend translation raises when the import of the client of
    MyMemory fails and MyMemory is what is left to try *)
Lemma checkpoint_translate_import_fails (self : TextToSpeechCheckpoint.config)
    (text msg : string) (w : world) :
  cached_translation text w = None ->
  String.length text <= TextToSpeechCheckpoint.max_chunk_size ->
  primary_backend self = MyMemory ->
  respond (trace w) MyMemory text = Unavailable msg ->
  TextToSpeechCheckpoint.translate_to_hindi self text w = (Raise (Exception msg), w).
Proof.
  intros Hmiss Hshort Hbackend Hanswer.
  rewrite (checkpoint_translate_miss _ _ _ Hmiss).
  rewrite bool_decide_eq_false_2 by lia.
  assert (TextToSpeechCheckpoint._translate_chunk self text w
          = (Raise (Exception msg), w)) as ->; [|reflexivity].
  revert Hbackend.
  unfold TextToSpeechCheckpoint._translate_chunk, primary_backend.
  repeat match goal with
         | |- context [if ?c then _ else _] => destruct c
         end; try discriminate.
  intros _. unfold try_except.
  rewrite fallback_translate_run, Hanswer.
  rewrite fallback_translate_run, Hanswer. reflexivity.
Qed.

(** X17.  [generate_hindi_speech_from_english] of [utils/text_to_speech.py]
    never raises: a translation that fails gives [(None, "")] and nothing is
    done to the file system; otherwise the text returned is the translation,
    and the path is the path asked for when [generate_audio] returned
    [True], [None] when it returned [False].  The multi-backend variant has
    no guard: when its translation raises, that exception is raised and
    nothing is done to the file system, and this happens when the import in
    [_fallback_translate] fails; when the translation returns, the result
    is made of it in the same way. *)
Theorem hindi_speech_from_translation (text save_path : string) (s : studio) :
  match TextToSpeech.translate_to_hindi text (gemini s) with
  | (Raise e, w1) =>
      generate_hindi_speech_from_english text save_path s
      = (Return (None, EmptyString), {| gemini := w1; done := done s |})
  | (Return hindi_text, w1) =>
      exists success s',
        generate_audio hindi_text save_path {| gemini := w1; done := done s |}
        = (Return success, s')
        /\ generate_hindi_speech_from_english text save_path s
           = (Return (if success then Some save_path else None, hindi_text), s')
  end
  /\ (forall self,
        match TextToSpeechCheckpoint.translate_to_hindi self text (gemini s) with
        | (Raise e, w1) =>
            generate_hindi_speech_from_english_checkpoint self text save_path s
            = (Raise e, {| gemini := w1; done := done s |})
        | (Return hindi_text, w1) =>
            exists success s',
              generate_audio hindi_text save_path {| gemini := w1; done := done s |}
              = (Return success, s')
              /\ generate_hindi_speech_from_english_checkpoint self text save_path s
                 = (Return (if success then Some save_path else None, hindi_text), s')
        end)
  /\ (forall self msg,
        cached_translation text (gemini s) = None ->
        String.length text <= TextToSpeechCheckpoint.max_chunk_size ->
        primary_backend self = MyMemory ->
        respond (trace (gemini s)) MyMemory text = Unavailable msg ->
        generate_hindi_speech_from_english_checkpoint self text save_path s
        = (Raise (Exception msg), s)).
Proof.
  split; [|split].
  - destruct (TextToSpeech.translate_to_hindi text (gemini s)) as [[hindi|e] w1]
      eqn:Ht.
    + destruct (generate_audio_returns hindi save_path
                  {| gemini := w1; done := done s |}) as (ok & s' & Haudio).
      exists ok, s'. split; [exact Haudio|].
      unfold generate_hindi_speech_from_english, try_except_run, mbind, Run_bind,
        lift.
      rewrite Ht. simpl. rewrite Haudio. destruct ok; reflexivity.
    + unfold generate_hindi_speech_from_english, try_except_run, mbind, Run_bind,
        lift.
      rewrite Ht. reflexivity.
  - intros self.
    destruct (TextToSpeechCheckpoint.translate_to_hindi self text (gemini s))
      as [[hindi|e] w1] eqn:Ht.
    + destruct (generate_audio_returns hindi save_path
                  {| gemini := w1; done := done s |}) as (ok & s' & Haudio).
      exists ok, s'. split; [exact Haudio|].
      unfold generate_hindi_speech_from_english_checkpoint.
      unfold mbind at 1, Run_bind at 1, lift at 1. rewrite Ht. simpl.
      unfold mbind, Run_bind. rewrite Haudio. destruct ok; reflexivity.
    + unfold generate_hindi_speech_from_english_checkpoint.
      unfold mbind at 1, Run_bind at 1, lift at 1. rewrite Ht. reflexivity.
  - intros self msg Hmiss Hshort Hbackend Hanswer.
    unfold generate_hindi_speech_from_english_checkpoint.
    unfold mbind at 1, Run_bind at 1, lift at 1.
    rewrite (checkpoint_translate_import_fails self text msg _ Hmiss Hshort
               Hbackend Hanswer).
    destruct s; reflexivity.
Qed.

End AudioProperties.

(** * The endpoints *)

Section ApiProperties.
Import Speech Api.
Context `{Environment} `{NewsScraper.Web} `{Host} `{Pickler} `{Framework}.

Lemma extends_refl s : extends s s.
Proof. unfold extends. reflexivity. Qed.

Lemma extends_trans s1 s2 s3 : extends s1 s2 -> extends s2 s3 -> extends s1 s3.
Proof. unfold extends. intros H12 H23. etrans; eassumption. Qed.

Lemma adds_actions_ret {A} (a : A) : adds_actions (mret a : Run studio A).
Proof. intros s. apply extends_refl. Qed.

Lemma adds_actions_bind {A B} (m : Run studio A) (k : A -> Run studio B) :
  adds_actions m -> (forall a, adds_actions (k a)) -> adds_actions (m ≫= k).
Proof.
  intros Hm Hk s. unfold mbind, Run_bind. specialize (Hm s).
  destruct (m s) as [[a|e] s1]; simpl in *.
  - eapply extends_trans; [exact Hm|apply Hk].
  - exact Hm.
Qed.

Lemma adds_actions_try {A} (m : Run studio A) (handler : exn -> Run studio A) :
  adds_actions m -> (forall e, adds_actions (handler e)) ->
  adds_actions (try_except_run m handler).
Proof.
  intros Hm Hh s. unfold try_except_run. specialize (Hm s).
  destruct (m s) as [[a|e] s1]; simpl in *.
  - exact Hm.
  - eapply extends_trans; [exact Hm|apply Hh].
Qed.

Lemma adds_actions_act (a : action) : adds_actions (act a).
Proof.
  intros s. unfold act, extends.
  destruct (attempt (done s) a); simpl; apply prefix_app_r; reflexivity.
Qed.

Lemma adds_actions_nap (secs : nat) : adds_actions (nap secs).
Proof. intros s. unfold nap, extends. simpl. apply prefix_app_r. reflexivity. Qed.

Lemma adds_actions_lift {A} (m : M A) : adds_actions (lift m).
Proof. intros s. unfold lift, extends. simpl. reflexivity. Qed.

Lemma adds_actions_speak_chunks (output_path : string) (chunks : list string) :
  forall i temp_files, adds_actions (speak_chunks output_path i chunks temp_files).
Proof.
  induction chunks as [|chunk rest IH]; intros i temp_files; simpl.
  - apply adds_actions_ret.
  - apply adds_actions_bind; [apply adds_actions_act|intros _].
    apply adds_actions_bind; [apply adds_actions_nap|intros _]. apply IH.
Qed.

Lemma adds_actions_remove_all (temp_files : list string) :
  adds_actions (remove_all temp_files).
Proof.
  induction temp_files as [|f rest IH]; simpl.
  - apply adds_actions_ret.
  - apply adds_actions_bind; [apply adds_actions_act|intros _; exact IH].
Qed.

Lemma adds_actions_generate_audio (text output_path : string) :
  adds_actions (generate_audio text output_path).
Proof.
  unfold generate_audio.
  apply adds_actions_try; [|intros _; apply adds_actions_ret].
  apply adds_actions_bind; [apply adds_actions_act|intros _].
  apply adds_actions_bind; [|intros _; apply adds_actions_ret].
  destruct (bool_decide _).
  - apply adds_actions_bind; [apply adds_actions_speak_chunks|intros temp_files].
    apply adds_actions_try.
    + repeat (apply adds_actions_bind; [apply adds_actions_act|intros _]).
      apply adds_actions_remove_all.
    + intros _. destruct temp_files as [|first rest].
      * apply adds_actions_ret.
      * apply adds_actions_bind; [apply adds_actions_act|intros _].
        apply adds_actions_remove_all.
  - apply adds_actions_act.
Qed.

Lemma adds_actions_hindi_speech (text save_path : string) :
  adds_actions (generate_hindi_speech_from_english text save_path).
Proof.
  unfold generate_hindi_speech_from_english.
  apply adds_actions_bind.
  - apply adds_actions_try; [|intros _; apply adds_actions_ret].
    apply adds_actions_bind; [apply adds_actions_lift|intros t; apply adds_actions_ret].
  - intros [hindi_text|]; [|apply adds_actions_ret].
    apply adds_actions_try; [|intros _; apply adds_actions_ret].
    apply adds_actions_bind; [apply adds_actions_generate_audio|].
    intros [|]; apply adds_actions_ret.
Qed.

Lemma adds_actions_speak_final (final_sentiment : json) (audio_path : string) :
  adds_actions (speak_final final_sentiment audio_path).
Proof.
  destruct final_sentiment; simpl;
    try (intros s; apply extends_refl).
  apply adds_actions_hindi_speech.
Qed.

Lemma simulated_article_has_text (company : string) (i : nat)
    (a : NewsScraper.article_data) :
  has_text (simulated_article company i a).
Proof.
  exists [("title", JStr (NewsScraper.title a));
          ("url", JStr (NewsScraper.simulated_url company i));
          ("source", JStr "Simulated News Source");
          ("published_at", JStr (NewsScraper.published_at a));
          ("content", JStr (NewsScraper.content a));
          ("word_count", GeminiService.json_of_nat (NewsScraper.word_count a))]%string,
    (NewsScraper.title a), (NewsScraper.content a).
  split; [reflexivity|]. split; reflexivity.
Qed.

(** the loop over articles with texts: it raises or gives the truthy
    analyses, and touches neither the scraper nor the file system *)
Lemma analyze_articles_run (articles : list json) :
  Forall has_text articles ->
  forall analyses s,
    exists r s',
      analyze_articles articles analyses s = (r, s')
      /\ web s' = web s
      /\ done (services s') = done (services s)
      /\ match r with
         | Return (Some l) =>
             exists new, l = analyses ++ new
                         /\ length new <= length articles
                         /\ Forall (fun a => truthy a = true) new
         | Return None => False
         | Raise _ => True
         end.
Proof.
  intros Harts. induction Harts as [|article rest (m & t & c & -> & Ht & Hc) _ IH];
    intros analyses s.
  - exists (Return (Some analyses)), s. simpl.
    split; [reflexivity|]. split; [reflexivity|]. split; [reflexivity|].
    exists []. rewrite app_nil_r. split; [reflexivity|]. split; [simpl; lia|constructor].
  - simpl. unfold mbind at 1, Run_bind at 1, of_exc at 1. rewrite Ht.
    unfold mbind at 1, Run_bind at 1, of_exc at 1. rewrite Hc.
    unfold mbind at 1, Run_bind at 1.
    unfold on_gemini at 1, on_studio at 1, lift at 1.
    destruct (GeminiService.analyze_article t c (gemini (services s)))
      as [[v|e] w1] eqn:Hrun; cbn [fst snd].
    + match goal with
      | |- context [analyze_articles rest ?acc ?st] =>
          destruct (IH acc st) as (r & s' & -> & Hweb & Hdone & Hr)
      end.
      exists r, s'. split; [reflexivity|]. split; [exact Hweb|].
      split; [exact Hdone|].
      destruct r as [[l|]|e]; [|exact Hr|exact I].
      destruct Hr as (new & -> & Hlen & Htruthy).
      destruct (truthy v) eqn:Hv.
      * exists (v :: new). rewrite <- app_assoc. split; [reflexivity|].
        split; [simpl; lia|]. constructor; assumption.
      * exists new. split; [reflexivity|]. split; [simpl; lia|exact Htruthy].
    + eexists _, _. split; [reflexivity|]. split; [reflexivity|].
      split; [reflexivity|exact I].
Qed.

Lemma on_studio_run {A} (m : Run studio A) (s : server) :
  on_studio m s = ((m (services s)).1,
                   {| web := web s; services := (m (services s)).2 |}).
Proof. reflexivity. Qed.

Lemma extends_elem (a : action) (s s' : studio) :
  extends s s' -> a ∈ done s -> a ∈ done s'.
Proof.
  unfold extends. intros [more ->] Ha. apply elem_of_app. left. exact Ha.
Qed.

(** what the [try] of [analyze_company] comes to when the service is
    configured *)
Lemma analyze_company_try_run (company_name : string) (s : server) :
  exists r s',
    analyze_company_try true company_name s = (r, s')
    /\ NewsScraper.visits (web s')
       = NewsScraper.visits (web s) ++ replicate 10 (NewsScraper.Wait 1%Qc)
    /\ match r with
       | Raise _ => True
       | Return None => False
       | Return (Some (inl (Python _))) => False
       | Return (Some (inl (Http status_code _))) => status_code = 500
       | Return (Some (inr body)) =>
           exists analyses comp_analysis final_sentiment,
             body = JObj [("Company", JStr company_name);
                          ("Articles", JArr analyses);
                          ("Comparative Sentiment Score", comp_analysis);
                          ("Final Sentiment Analysis", final_sentiment)]%string
             /\ 1 <= length analyses <= 10
             /\ Forall (fun a => truthy a = true) analyses
             /\ WriteText (pickle_path (slug company_name)) (pickle_dumps body)
                ∈ done (services s')
       end.
Proof.
  unfold analyze_company_try.
  cbn [negb]. cbv zeta.
  unfold mbind at 1, Run_bind at 1, on_web at 1.
  destruct (search_company_news_run (NewsScraper.init None 1%Qc) company_name
              10 (web s) ltac:(lia) eq_refl) as (arts & d & -> & Harts).
  cbn [fst snd].
  change (Z.to_nat (10 `min` 10)) with 10 in *.
  pose proof (Forall2_length _ _ _ Harts) as Hlen. rewrite length_seq in Hlen.
  assert (Forall has_text arts) as Htext.
  { apply Forall_forall. intros art Hart.
    apply list_elem_of_lookup in Hart as [i Hi].
    destruct (Forall2_lookup_r _ _ _ _ _ Harts Hi) as (j & _ & a & -> & _).
    apply simulated_article_has_text. }
  destruct arts as [|art0 arts']; [simpl in Hlen; lia|].
  set (arts := art0 :: arts') in *.
  set (s1 := {| web := _; services := services s |}).
  unfold mbind at 1, Run_bind at 1.
  destruct (analyze_articles_run arts Htext [] s1)
    as (r & s2 & -> & Hweb2 & Hdone2 & Hr).
  assert (NewsScraper.visits (web s2)
          = NewsScraper.visits (web s) ++ replicate 10 (NewsScraper.Wait 1%Qc))
    as Hvisits by (rewrite Hweb2; reflexivity).
  destruct r as [[l|]|e]; [|destruct Hr|].
  2:{ eexists _, _. split; [reflexivity|]. split; [exact Hvisits|exact I]. }
  destruct Hr as (new & -> & Hnew & Htruthy). rewrite app_nil_l.
  destruct new as [|a0 new'].
  { eexists _, _. split; [reflexivity|]. split; [exact Hvisits|reflexivity]. }
  set (analyses := a0 :: new') in *.
  cbv beta iota.
  unfold mbind at 1, Run_bind at 1. unfold on_gemini at 1. rewrite on_studio_run.
  destruct (lift (GeminiService.generate_comparative_analysis company_name analyses)
              (services s2)) as [[comp|e] st3] eqn:Hcomp; cbn [fst snd].
  2:{ eexists _, _. split; [reflexivity|]. split; [exact Hvisits|exact I]. }
  unfold mbind at 1, Run_bind at 1. unfold on_gemini at 1. rewrite on_studio_run.
  cbn [web services].
  match goal with
  | |- context [lift ?m st3] => destruct (lift m st3) as [[final|e] st4] eqn:Hfinal
  end; cbn [fst snd].
  2:{ eexists _, _. split; [reflexivity|]. split; [exact Hvisits|exact I]. }
  unfold mbind at 1, Run_bind at 1. rewrite on_studio_run. cbn [web services].
  match goal with
  | |- context [act ?a st4] =>
      set (saved := a); destruct (act saved st4) as [[[]|e] st5] eqn:Hact
  end; cbn [fst snd].
  2:{ eexists _, _. split; [reflexivity|]. split; [exact Hvisits|exact I]. }
  assert (saved ∈ done st5) as Hsaved.
  { unfold act in Hact. destruct (attempt (done st4) saved); [discriminate|].
    injection Hact as <-. simpl. apply elem_of_app. right.
    apply elem_of_cons. left. reflexivity. }
  unfold mbind at 1, Run_bind at 1.
  match goal with
  | |- context [(if truthy final then ?m else ?m') ?st] =>
      assert (exists r6 s6, (if truthy final then m else m') st = (r6, s6)
                            /\ web s6 = web s2 /\ extends st5 (services s6))
        as (r6 & s6 & -> & Hweb6 & Hext6)
  end.
  { destruct (truthy final).
    - unfold mbind at 1, Run_bind at 1. rewrite on_studio_run. cbn [web services].
      pose proof (adds_actions_speak_final final
                    ("data/output/audio/" ++ slug company_name ++ ".mp3")%string st5)
        as Hspoken.
      destruct (speak_final final _ st5) as [[spoken|e] st6]; cbn [fst snd] in *.
      + destruct (bool_decide (spoken.2 = EmptyString)).
        * eexists _, _. split; [reflexivity|]. split; [reflexivity|exact Hspoken].
        * rewrite on_studio_run. cbn [web services].
          eexists _, _. split; [reflexivity|]. split; [reflexivity|].
          eapply extends_trans; [exact Hspoken|]. apply adds_actions_act.
      + eexists _, _. split; [reflexivity|]. split; [reflexivity|exact Hspoken].
    - eexists _, _. split; [reflexivity|]. split; [reflexivity|apply extends_refl]. }
  destruct r6 as [[]|e].
  2:{ eexists _, _. split; [reflexivity|]. split; [rewrite Hweb6; exact Hvisits|exact I]. }
  eexists _, _. split; [reflexivity|]. split; [rewrite Hweb6; exact Hvisits|].
  exists analyses, comp, final. split; [reflexivity|].
  split; [unfold analyses, arts in *; simpl in *; lia|].
  split; [exact Htruthy|].
  eapply extends_elem; [exact Hext6|exact Hsaved].
Qed.

(** X18.  The endpoints that wrap their body in [try ... except Exception]
    never answer 404, though both raise it.  [get_company_analysis] answers
    500 for a company without a saved result, as for a file that does not
    load.  [analyze_company] answers 500 without doing anything when the
    Gemini service is not configured; otherwise the scraper requests no page
    and sleeps ten times, one second each (the ten articles are simulated
    ones, so that "No articles found" is never raised), and the answer is
    500, or the result, which then holds between one and ten truthy
    analyses under ["Articles"], the comparative analysis and the final
    sentiment under their keys with spaces, and was written to the pickle
    of the company. *)
Theorem wrapped_endpoints_never_answer_404 (company_name : string) :
  (forall files,
     match get_company_analysis files company_name with
     | Ok data => files (pickle_path (slug company_name)) = Some (Return data)
     | HTTPException status_code _ => status_code = 500
     end
     /\ (files (pickle_path (slug company_name)) = None ->
         get_company_analysis files company_name
         = HTTPException 500
             (str_of (Http 404 ("Company '" ++ company_name ++ "' not found")%string))))
  /\ (forall s,
        analyze_company false company_name s
        = Some (HTTPException 500
                  (str_of (Http 500
                     "Gemini API key is missing. Please provide a valid API key.")),
                s))
  /\ forall s,
       exists resp s',
         analyze_company true company_name s = Some (resp, s')
         /\ NewsScraper.visits (web s')
            = NewsScraper.visits (web s) ++ replicate 10 (NewsScraper.Wait 1%Qc)
         /\ (forall detail s'',
               analyze_company_try true company_name s
               <> (Return (Some (inl (Http 404 detail))), s''))
         /\ match resp with
            | HTTPException status_code _ => status_code = 500
            | Ok body =>
                exists analyses comp_analysis final_sentiment,
                  body = JObj [("Company", JStr company_name);
                               ("Articles", JArr analyses);
                               ("Comparative Sentiment Score", comp_analysis);
                               ("Final Sentiment Analysis", final_sentiment)]%string
                  /\ 1 <= length analyses <= 10
                  /\ Forall (fun a => truthy a = true) analyses
                  /\ WriteText (pickle_path (slug company_name)) (pickle_dumps body)
                     ∈ done (services s')
            end.
Proof.
  split; [|split].
  - intros files. unfold get_company_analysis. cbv zeta.
    destruct (files (pickle_path (slug company_name))) as [[data|e]|];
      (split; [reflexivity|]); intros Hnone; try discriminate. reflexivity.
  - intros s. reflexivity.
  - intros s. unfold analyze_company.
    destruct (analyze_company_try_run company_name s) as (r & s' & -> & Hvisits & Hr).
    destruct r as [[[[status_code detail|e]|body]|]|e]; try contradiction.
    + exists (HTTPException 500 (str_of (Http status_code detail))), s'.
      split; [reflexivity|]. split; [exact Hvisits|].
      split; [|reflexivity]. intros detail' s'' Heq.
      injection Heq as Hcode _ _. lia.
    + exists (Ok body), s'. split; [reflexivity|]. split; [exact Hvisits|].
      split; [intros detail s'' Heq; discriminate|exact Hr].
    + exists (HTTPException 500 (str_of (Python e))), s'.
      split; [reflexivity|]. split; [exact Hvisits|].
      split; [intros detail s'' Heq; discriminate|reflexivity].
Qed.

End ApiProperties.

(** * The batch processor *)

Section BatchProperties.
Import Speech Batch.
Context `{Environment} `{NewsScraper.Web} `{Host} `{Pickler} `{Desk}.

Lemma label_of_score_three (v : json) (label : string) :
  label_of_score v = Return label ->
  label ∈ ["Positive"; "Negative"; "Neutral"]%string.
Proof.
  unfold label_of_score. intros Hl.
  destruct (py_ge v _) as [[|]|]; simpl in Hl; try discriminate.
  - injection Hl as <-. set_solver.
  - destruct (py_le v _) as [[|]|]; simpl in Hl; try discriminate;
      injection Hl as <-; set_solver.
Qed.

Lemma completed_relabelled (title content : string) (v analysis : json) :
  completed title content v = Return (Some analysis) -> relabelled analysis.
Proof.
  unfold completed. destruct (truthy v); simpl; [|discriminate].
  destruct v as [| | | s | l | m]; try discriminate.
  - destruct (PyStr.contains _ s); discriminate.
  - destruct (listed _ l); discriminate.
  - destruct (dict_has "Sentiment_Score" m); [|discriminate].
    destruct (label_of_score _) as [label|e] eqn:Hlabel; simpl; [|discriminate].
    intros Heq. injection Heq as <-. eexists _, label. split; [reflexivity|].
    split.
    + unfold dict_get_default. rewrite !dict_get_set_ne by discriminate.
      exact Hlabel.
    + rewrite !dict_get_set_ne by discriminate. apply dict_get_set_eq.
Qed.

Lemma relabelled_counted (analysis : json) :
  relabelled analysis ->
  counted_label analysis <> Some "Very Positive"%string
  /\ counted_label analysis <> Some "Very Negative"%string.
Proof.
  intros (m & label & -> & Hlabel & Hget).
  apply label_of_score_three in Hlabel.
  unfold counted_label, dict_get_default. rewrite Hget. simpl.
  destruct (bool_decide (label ∈ five_labels)); [|split; discriminate].
  repeat (apply elem_of_cons in Hlabel as [->|Hlabel]; [split; discriminate|]).
  inversion Hlabel.
Qed.

Lemma count_label_relabelled (label : string) (analysed : list json) :
  Forall relabelled analysed ->
  label = "Very Positive"%string \/ label = "Very Negative"%string ->
  count_label label analysed = 0.
Proof.
  intros Hall Hlabel. unfold count_label.
  induction Hall as [|a rest Ha _ IH]; [reflexivity|].
  simpl. destruct (relabelled_counted a Ha) as [Hp Hn].
  rewrite bool_decide_eq_false_2; [exact IH|].
  destruct Hlabel as [-> | ->]; assumption.
Qed.

Lemma simulated_article_has_title (company : string) (i : nat)
    (a : NewsScraper.article_data) :
  simulated_content a -> has_title (simulated_article company i a).
Proof.
  intros (Htitle & _ & _).
  eexists _, (NewsScraper.title a), (NewsScraper.content a).
  split; [reflexivity|]. split; [|reflexivity].
  unfold given_title.
  change (dict_get "title" _) with (Some (JStr (NewsScraper.title a))).
  cbv iota beta.
  assert (truthy (JStr (NewsScraper.title a))
          && negb (bool_decide (NewsScraper.title a = "No Title"%string)) = true)
    as ->; [|reflexivity].
  revert Htitle. generalize (NewsScraper.title a). intros t Ht.
  unfold NewsScraper.title_templates in Ht.
  repeat (apply elem_of_cons in Ht as [->|Ht]; [reflexivity|]).
  inversion Ht.
Qed.

(** the loop over articles with titles never raises: every article is
    completed or skipped *)
Lemma batch_analyze_articles_run (gemini_service : bool) (articles : list json) :
  Forall has_title articles ->
  forall analysed n s,
    exists new s',
      analyze_articles gemini_service articles analysed n s
      = (Return (Some (analysed ++ new, n + length new)), s')
      /\ web s' = web s
      /\ done (services s') = done (services s)
      /\ length new <= length articles
      /\ Forall relabelled new
      /\ (gemini_service = false -> new = [] /\ s' = s).
Proof.
  intros Harts.
  induction Harts as [|article rest (m & t & c & -> & Ht & Hc) _ IH];
    intros analysed n s.
  - exists [], s. simpl. rewrite app_nil_r, Nat.add_0_r.
    split; [reflexivity|]. split; [reflexivity|]. split; [reflexivity|].
    split; [lia|]. split; [constructor|]. intros _. split; reflexivity.
  - simpl. unfold mbind at 1, Run_bind at 1, of_exc at 1. rewrite Hc.
    rewrite Ht. unfold mbind at 1, Run_bind at 1, mret at 1, Run_ret at 1.
    unfold mbind at 1, Run_bind at 1.
    set (attempt_one := try_except_run _ _).
    assert (exists added s1,
              attempt_one s = (Return added, s1)
              /\ web s1 = web s
              /\ done (services s1) = done (services s)
              /\ match added with Some a => relabelled a | None => True end
              /\ (gemini_service = false -> added = None /\ s1 = s))
      as (added & s1 & -> & Hweb1 & Hdone1 & Hadded & Hoff).
    { unfold attempt_one, try_except_run.
      unfold mbind at 1, Run_bind at 1.
      destruct gemini_service; simpl.
      - unfold on_gemini, on_studio, lift.
        destruct (GeminiService.analyze_article t c (gemini (services s)))
          as [[v|e] w1]; cbn [fst snd].
        + unfold of_exc.
          destruct (completed t c v) as [[a|]|e] eqn:Hcompleted.
          * eexists _, _. split; [reflexivity|]. split; [reflexivity|].
            split; [reflexivity|].
            split; [exact (completed_relabelled _ _ _ _ Hcompleted)|].
            intros Hoff; discriminate.
          * eexists _, _. split; [reflexivity|]. split; [reflexivity|].
            split; [reflexivity|]. split; [exact I|intros Hoff; discriminate].
          * eexists _, _. split; [reflexivity|]. split; [reflexivity|].
            split; [reflexivity|]. split; [exact I|intros Hoff; discriminate].
        + eexists _, _. split; [reflexivity|]. split; [reflexivity|].
          split; [reflexivity|]. split; [exact I|intros Hoff; discriminate].
      - exists None, s. split; [reflexivity|]. split; [reflexivity|].
        split; [reflexivity|]. split; [exact I|]. intros _. split; reflexivity. }
    destruct added as [a|].
    + destruct (IH (analysed ++ [a]) (n + 1) s1)
        as (new & s' & -> & Hweb & Hdone & Hlen & Hnew & Hoff').
      exists (a :: new), s'. rewrite <- app_assoc. simpl.
      replace (n + 1 + length new) with (n + S (length new)) by lia.
      split; [reflexivity|]. split; [congruence|]. split; [congruence|].
      split; [lia|]. split; [constructor; assumption|].
      intros Hg. destruct (Hoff Hg) as [Hnone _]. discriminate.
    + destruct (IH analysed n s1)
        as (new & s' & -> & Hweb & Hdone & Hlen & Hnew & Hoff').
      exists new, s'. split; [reflexivity|]. split; [congruence|].
      split; [congruence|]. split; [simpl; lia|]. split; [exact Hnew|].
      intros Hg. destruct (Hoff Hg) as [_ ->]. exact (Hoff' Hg).
Qed.

Lemma generate_tts_and_text_returns (company_name : string) (final : json)
    (st : studio) :
  exists st', generate_tts_and_text company_name final st = (Return tt, st').
Proof.
  unfold generate_tts_and_text, try_except_run.
  match goal with
  | |- context [match ?run st with _ => _ end] => destruct (run st) as [[[]|e] st']
  end; eauto.
Qed.

Lemma save_result_returns (company_name : string) (r : returned) (st : studio) :
  exists saved st', save_result company_name r st = (Return saved, st').
Proof.
  unfold save_result, try_except_run.
  match goal with
  | |- context [match ?run st with _ => _ end] => destruct (run st) as [[saved|e] st']
  end; eauto.
Qed.

(** what [process_company] comes to *)
Lemma process_company_run (gemini_service : bool) (company_name : string)
    (s : server) :
  exists r s',
    process_company gemini_service company_name s = (Return (Some r), s')
    /\ NewsScraper.visits (web s')
       = NewsScraper.visits (web s) ++ replicate 10 (NewsScraper.Wait 1%Qc)
    /\ match r with
       | PyNone => True
       | Analysis analysis_result =>
           exists analysed,
             length analysed <= 10
             /\ Forall relabelled analysed
             /\ if bool_decide (3 <= length analysed)
                then exists comparative_analysis final_sentiment,
                       analysis_result
                       = [("Company", JStr company_name);
                          ("Articles", JArr analysed);
                          ("Comparative_Sentiment_Score", comparative_analysis);
                          ("Final_Sentiment_Analysis", final_sentiment)]%string
                else analysis_result
                     = [("Company", JStr company_name);
                        ("Articles", JArr analysed)]%string
       end
    /\ (gemini_service = false ->
        r = Analysis [("Company", JStr company_name); ("Articles", JArr [])]%string
        /\ services s' = services s).
Proof.
  unfold process_company, try_except_run. cbv zeta.
  unfold mbind at 1, Run_bind at 1, on_web at 1.
  destruct (search_company_news_run (NewsScraper.init None 1%Qc) company_name
              10 (web s) ltac:(lia) eq_refl) as (arts & d & -> & Harts).
  cbn [fst snd].
  change (Z.to_nat (10 `min` 10)) with 10 in *.
  pose proof (Forall2_length _ _ _ Harts) as Hlen. rewrite length_seq in Hlen.
  assert (Forall has_title arts) as Htitles.
  { apply Forall_forall. intros art Hart.
    apply list_elem_of_lookup in Hart as [i Hi].
    destruct (Forall2_lookup_r _ _ _ _ _ Harts Hi) as (j & _ & a & -> & Ha).
    apply simulated_article_has_title. exact Ha. }
  destruct arts as [|art0 arts']; [simpl in Hlen; lia|].
  set (arts := art0 :: arts') in *.
  set (s1 := {| web := _; services := services s |}).
  unfold mbind at 1, Run_bind at 1.
  destruct (batch_analyze_articles_run gemini_service arts Htitles [] 0 s1)
    as (analysed & s2 & -> & Hweb2 & Hdone2 & Hcount & Hrel & Hoff).
  rewrite app_nil_l, Nat.add_0_l.
  assert (NewsScraper.visits (web s2)
          = NewsScraper.visits (web s) ++ replicate 10 (NewsScraper.Wait 1%Qc))
    as Hvisits by (rewrite Hweb2; reflexivity).
  assert (length analysed <= 10) as Hten by lia.
  destruct (bool_decide (3 <= length analysed)) eqn:Hthree.
  2:{ eexists _, _. split; [reflexivity|]. split; [exact Hvisits|].
      split.
      - exists analysed. split; [exact Hten|]. split; [exact Hrel|].
        rewrite Hthree. reflexivity.
      - intros Hg. destruct (Hoff Hg) as [-> ->]. split; reflexivity. }
  assert (gemini_service = true) as ->.
  { destruct gemini_service; [reflexivity|].
    destruct (Hoff eq_refl) as [-> _]. simpl in Hthree. discriminate. }
  clear Hoff.
  unfold mbind at 1, Run_bind at 1. unfold on_service at 1, on_gemini at 1, on_studio at 1.
  destruct (lift (GeminiService.generate_comparative_analysis company_name analysed)
              (services s2)) as [[comp|e] st3]; cbn [fst snd].
  2:{ eexists _, _. split; [reflexivity|]. split; [exact Hvisits|].
      split; [exact I|intros Hg; discriminate]. }
  unfold mbind at 1, Run_bind at 1, of_exc at 1.
  destruct (keep_trend comp) as [[]|e].
  2:{ eexists _, _. split; [reflexivity|]. split; [exact Hvisits|].
      split; [exact I|intros Hg; discriminate]. }
  unfold mbind at 1, Run_bind at 1. unfold on_service at 1, on_gemini at 1, on_studio at 1.
  cbn [web services].
  match goal with
  | |- context [lift ?m st3] => destruct (lift m st3) as [[final|e] st4]
  end; cbn [fst snd].
  2:{ eexists _, _. split; [reflexivity|]. split; [exact Hvisits|].
      split; [exact I|intros Hg; discriminate]. }
  unfold mbind at 1, Run_bind at 1, on_studio at 1. cbn [web services].
  destruct (generate_tts_and_text_returns company_name final st4) as [st5 ->].
  cbn [fst snd].
  eexists _, _. split; [reflexivity|]. split; [exact Hvisits|].
  split; [|intros Hg; discriminate].
  exists analysed. split; [exact Hten|]. split; [exact Hrel|].
  rewrite Hthree. exists comp, final. reflexivity.
Qed.

(** X19.  [process_company] never raises, and the scraper that it uses
    requests no page: the ten articles are simulated, their titles are
    given, so that the undefined [extract_title_from_article] is never
    called.  What it returns is [None] or a result with the company and at
    most ten analyses, each of them a dict whose ["Sentiment"] is the label
    of its score by the thresholds 3.7 and 2.7, one of "Positive",
    "Negative" and "Neutral": none counts as "Very Positive" or "Very
    Negative".  The result holds the comparative analysis and the final
    sentiment, under ["Comparative_Sentiment_Score"] and
    ["Final_Sentiment_Analysis"], exactly when three analyses or more were
    completed. *)
Theorem process_company_relabels (gemini_service : bool) (company_name : string)
    (s : server) :
  exists r s',
    process_company gemini_service company_name s = (Return (Some r), s')
    /\ NewsScraper.visits (web s')
       = NewsScraper.visits (web s) ++ replicate 10 (NewsScraper.Wait 1%Qc)
    /\ match r with
       | PyNone => True
       | Analysis analysis_result =>
           exists analysed,
             length analysed <= 10
             /\ Forall relabelled analysed
             /\ count_label "Very Positive" analysed = 0
             /\ count_label "Very Negative" analysed = 0
             /\ if bool_decide (3 <= length analysed)
                then exists comparative_analysis final_sentiment,
                       analysis_result
                       = [("Company", JStr company_name);
                          ("Articles", JArr analysed);
                          ("Comparative_Sentiment_Score", comparative_analysis);
                          ("Final_Sentiment_Analysis", final_sentiment)]%string
                else analysis_result
                     = [("Company", JStr company_name);
                        ("Articles", JArr analysed)]%string
       end.
Proof.
  destruct (process_company_run gemini_service company_name s)
    as (r & s' & Hrun & Hvisits & Hr & _).
  exists r, s'. split; [exact Hrun|]. split; [exact Hvisits|].
  destruct r as [analysis_result|]; [|exact I].
  destruct Hr as (analysed & Hten & Hrel & Hshape).
  exists analysed. split; [exact Hten|]. split; [exact Hrel|].
  split; [apply count_label_relabelled; [exact Hrel|left; reflexivity]|].
  split; [apply count_label_relabelled; [exact Hrel|right; reflexivity]|].
  exact Hshape.
Qed.

Lemma process_each_run (gemini_service : bool) (companies : list string) :
  forall success failed s,
    exists success' failed' s',
      process_each gemini_service companies success failed s
      = (Return (Some (success', failed')), s')
      /\ success' + failed' = success + failed + length companies.
Proof.
  induction companies as [|company rest IH]; intros success failed s.
  - exists success, failed, s. split; [reflexivity|simpl; lia].
  - simpl. unfold mbind at 1, Run_bind at 1, try_except_run at 1.
    unfold mbind at 1, Run_bind at 1.
    destruct (process_company_run gemini_service company s)
      as (r & s1 & -> & _ & _ & _).
    unfold mbind at 1, Run_bind at 1.
    assert (exists saved s2,
              (match r with
               | Analysis [] | PyNone => mret false
               | Analysis (_ :: _) => on_studio (save_result company r)
               end) s1 = (Return saved, s2)) as (saved & s2 & ->).
    { destruct r as [[|kv result]|]; try (eexists _, _; reflexivity).
      unfold on_studio.
      destruct (save_result_returns company (Analysis (kv :: result)) (services s1))
        as (saved & st' & ->).
      eexists _, _. reflexivity. }
    unfold mbind at 1, Run_bind at 1, on_studio at 1, nap at 1. cbn [fst snd].
    unfold mret at 1, Run_ret at 1.
    destruct saved.
    + match goal with
      | |- context [process_each gemini_service rest ?a ?b ?st] =>
          destruct (IH a b st) as (success' & failed' & s' & -> & Hsum)
      end.
      exists success', failed', s'. split; [reflexivity|simpl; lia].
    + match goal with
      | |- context [process_each gemini_service rest ?a ?b ?st] =>
          destruct (IH a b st) as (success' & failed' & s' & -> & Hsum)
      end.
      exists success', failed', s'. split; [reflexivity|simpl; lia].
Qed.

(** X20.  [process_all_companies] counts every company once, as a success
    or as a failure: nothing that the processing of a company does makes
    the loop raise, and only the writing of the summary can make the batch
    raise.  The summary returned holds the number of companies under
    ["total"], and its ["success"] and ["failed"] add up to it. *)
Theorem batch_counts_every_company (gemini_service : bool)
    (companies : list string) (s : server) :
  exists r s',
    process_all_companies gemini_service companies s = (r, s')
    /\ match r with
       | Return (Some results) =>
           exists success failed start_time end_time,
             results = batch_results (length companies) success failed
                         start_time end_time
             /\ success + failed = length companies
       | Return None => False
       | Raise _ =>
           exists text,
             last (done (services s'))
             = Some (WriteText "data/output/batch_results.json" text)
             /\ is_Some (attempt (removelast (done (services s')))
                           (WriteText "data/output/batch_results.json" text))
       end.
Proof.
  unfold process_all_companies.
  unfold mbind at 1, Run_bind at 1, on_studio at 1. cbn [fst snd].
  unfold mbind at 1, Run_bind at 1.
  match goal with
  | |- context [process_each gemini_service companies 0 0 ?st] =>
      destruct (process_each_run gemini_service companies 0 0 st)
        as (success & failed & s1 & -> & Hsum)
  end.
  unfold mbind at 1, Run_bind at 1, on_studio at 1. cbn [fst snd].
  unfold mbind at 1, Run_bind at 1, on_studio at 1. cbn [fst snd web services].
  unfold act.
  match goal with
  | |- context [attempt ?h ?a] => destruct (attempt h a) as [msg|] eqn:Hat
  end; cbn [fst snd].
  - eexists _, _. split; [reflexivity|]. cbn [services done].
    eexists. rewrite last_snoc, removelast_last. split; [reflexivity|].
    rewrite Hat. eauto.
  - eexists _, _. split; [reflexivity|].
    exists success, failed. eexists _, _. split; [reflexivity|lia].
Qed.

Lemma save_result_ok (company_name : string) (kv : string * json)
    (result : list (string * json)) (st : studio) :
  (forall h a, attempt h a = None) ->
  save_result company_name (Analysis (kv :: result)) st
  = (Return true,
     with_done (done st ++ [WriteText (pickle_path (slug company_name))
                              (pickle_dumps (JObj (kv :: result)))]) st).
Proof.
  intros Hok. unfold save_result, try_except_run.
  unfold mbind, Run_bind, act. rewrite Hok. reflexivity.
Qed.

Lemma process_each_without_service (companies : list string) :
  (forall h a, attempt h a = None) ->
  forall success failed s,
    exists s',
      process_each false companies success failed s
      = (Return (Some (success + length companies, failed)), s')
      /\ gemini (services s') = gemini (services s)
      /\ done (services s')
         = done (services s) ++ flat_map saves_empty companies.
Proof.
  intros Hok. induction companies as [|company rest IH]; intros success failed s.
  - exists s. simpl. rewrite Nat.add_0_r, app_nil_r. repeat split; reflexivity.
  - simpl. unfold mbind at 1, Run_bind at 1, try_except_run at 1.
    unfold mbind at 1, Run_bind at 1.
    destruct (process_company_run false company s)
      as (r & s1 & -> & _ & _ & Hoff).
    destruct (Hoff eq_refl) as [-> Hs1].
    unfold mbind at 1, Run_bind at 1.
    rewrite on_studio_run, (save_result_ok _ _ _ _ Hok). cbn [fst snd].
    unfold mbind at 1, Run_bind at 1. rewrite on_studio_run.
    unfold nap. cbn [fst snd web services].
    unfold mret at 1, Run_ret at 1.
    match goal with
    | |- context [process_each false rest ?a ?b ?st] =>
        destruct (IH a b st) as (s' & -> & Hgemini & Hdone)
    end.
    exists s'. replace (success + 1 + length rest) with (success + S (length rest)) by lia.
    split; [reflexivity|]. cbn [services gemini done with_done] in *.
    split; [rewrite Hgemini, Hs1; reflexivity|].
    rewrite Hdone, Hs1. rewrite <- !app_assoc. reflexivity.
Qed.

(** X21.  A batch processor without a Gemini key reports every company as
    a success when the file system works: for each company, in turn, the
    result with the company and an empty list of articles is pickled in
    place of an analysis (the failure of each article is only logged),
    with a sleep of two seconds after it, then the summary is written with
    all the companies under ["success"] and none under ["failed"].  No
    request is sent and no cache is written. *)
Theorem batch_without_key_reports_success (companies : list string) (s : server) :
  (forall h a, attempt h a = None) ->
  exists start_time end_time s',
    let results :=
      batch_results (length companies) (length companies) 0 start_time end_time in
    process_all_companies false companies s = (Return (Some results), s')
    /\ gemini (services s') = gemini (services s)
    /\ done (services s')
       = done (services s)
         ++ flat_map saves_empty companies
         ++ [WriteText "data/output/batch_results.json" (json_dumps results)].
Proof.
  intros Hok. unfold process_all_companies.
  unfold mbind at 1, Run_bind at 1, on_studio at 1. cbn [fst snd].
  unfold mbind at 1, Run_bind at 1.
  match goal with
  | |- context [process_each false companies 0 0 ?st] =>
      destruct (process_each_without_service companies Hok 0 0 st)
        as (s1 & -> & Hgemini & Hdone)
  end.
  unfold mbind at 1, Run_bind at 1, on_studio at 1. cbn [fst snd].
  unfold mbind at 1, Run_bind at 1, on_studio at 1. cbn [fst snd web services].
  unfold act. rewrite Hok. cbn [fst snd].
  eexists _, _, _. split; [reflexivity|]. cbn [services gemini done] in *.
  split; [exact Hgemini|]. rewrite Hdone. rewrite <- app_assoc. reflexivity.
Qed.

End BatchProperties.

(** * The dashboard *)

Section DashboardProperties.
Import Dashboard.
Context `{Environment}.

Lemma dict_get_keys {V} (k : string) (m : list (string * V)) :
  k ∉ m.*1 -> dict_get k m = None.
Proof.
  induction m as [|[k' v] m IH]; intros Hk; [reflexivity|].
  simpl in *. destruct (decide (k = k')) as [->|Hne].
  - exfalso. apply Hk. apply elem_of_cons. left. reflexivity.
  - apply IH. intros Hin. apply Hk. apply elem_of_cons. right. exact Hin.
Qed.

Lemma dict_get_in_keys {V} (k : string) (m : list (string * V)) :
  k ∈ m.*1 -> is_Some (dict_get k m).
Proof.
  induction m as [|[k' v] m IH]; intros Hk; [inversion Hk|].
  simpl in *. destruct (decide (k = k')) as [->|Hne]; [eauto|].
  apply IH. apply elem_of_cons in Hk as [Hk|Hk]; [congruence|exact Hk].
Qed.

Lemma dict_set_keys {V} (k : string) (v : V) (m : list (string * V)) :
  is_Some (dict_get k m) -> (dict_set k v m).*1 = m.*1.
Proof.
  induction m as [|[k' v'] m IH]; intros [x Hx]; [discriminate|].
  simpl in *. destruct (decide (k = k')) as [->|Hne]; [reflexivity|].
  simpl. f_equal. apply IH. eauto.
Qed.

Lemma counts_total_set (k : string) (n : nat) (m : list (string * nat)) :
  dict_get k m = Some n ->
  counts_total (dict_set k (n + 1) m) = counts_total m + 1.
Proof.
  unfold counts_total. induction m as [|[k' v'] m IH]; intros Hk; [discriminate|].
  cbn [dict_get dict_set] in *. destruct (decide (k = k')) as [->|Hne].
  - injection Hk as ->. rewrite !fmap_cons. cbn [sum_list_with snd id]. lia.
  - rewrite !fmap_cons. cbn [sum_list_with snd id]. rewrite (IH Hk). lia.
Qed.

(** counting under one of the labels that the counts hold *)
Lemma increment_known (label : string) (counts : list (string * nat)) :
  label ∈ counts.*1 ->
  exists counts',
    increment (JStr label) counts = Return counts'
    /\ counts'.*1 = counts.*1
    /\ counts_total counts' = counts_total counts + 1.
Proof.
  intros Hin. destruct (dict_get_in_keys _ _ Hin) as [n Hn].
  exists (dict_set label (n + 1) counts). unfold increment. rewrite Hn.
  split; [reflexivity|]. split; [apply dict_set_keys; eauto|].
  apply counts_total_set. exact Hn.
Qed.

Lemma increment_unknown (label : string) (counts : list (string * nat)) :
  label ∉ counts.*1 ->
  increment (JStr label) counts = Raise (Exception (py_repr (JStr label))).
Proof. intros Hl. unfold increment. rewrite dict_get_keys by exact Hl. reflexivity. Qed.

Local Opaque increment.

Lemma count_topics_run (label : string) (topics : list string) :
  label ∈ three_labels ->
  forall d,
    three_each d ->
    exists d',
      count_topics (JStr label) topics d = Return d'
      /\ sentiment_counts d' = sentiment_counts d
      /\ three_each d'.
Proof.
  intros Hlabel. induction topics as [|topic rest IH]; intros d Hd.
  - exists d. split; [reflexivity|]. split; [reflexivity|exact Hd].
  - simpl.
    set (d1 := if negb (dict_has topic (topics_by_sentiment d)) then _ else d).
    assert (sentiment_counts d1 = sentiment_counts d) as Hsame
      by (unfold d1; destruct (negb _); reflexivity).
    assert (three_each d1
            /\ exists counts, dict_get topic (topics_by_sentiment d1) = Some counts)
      as [Hd1 [counts Hcounts]].
    { unfold d1. destruct (dict_has topic (topics_by_sentiment d)) eqn:Hhas; simpl.
      - split; [exact Hd|]. apply dict_has_true in Hhas as [c Hc]. eauto.
      - split.
        + intros t c. simpl. destruct (decide (topic = t)) as [->|Hne].
          * rewrite dict_get_set_eq. intros Heq. injection Heq as <-. reflexivity.
          * rewrite dict_get_set_ne by exact Hne. apply Hd.
        + exists no_counts. apply dict_get_set_eq. }
    rewrite (dict_get_default_Some _ _ _ _ Hcounts).
    destruct (increment_known label counts) as (counts' & -> & Hkeys & _).
    { rewrite (Hd1 _ _ Hcounts). exact Hlabel. }
    simpl.
    match goal with
    | |- context [count_topics (JStr label) rest ?d2] =>
        destruct (IH d2) as (d' & -> & Hsent & Hd')
    end.
    { intros t c. simpl. destruct (decide (topic = t)) as [->|Hne].
      - rewrite dict_get_set_eq. intros Heq. injection Heq as <-.
        rewrite Hkeys. exact (Hd1 _ _ Hcounts).
      - rewrite dict_get_set_ne by exact Hne. apply Hd1. }
    exists d'. split; [reflexivity|]. split; [|exact Hd'].
    rewrite Hsent. simpl. exact Hsame.
Qed.

Lemma prepare_data_run (articles : list json) :
  Forall reportable articles ->
  forall d,
    (sentiment_counts d).*1 = three_labels ->
    three_each d ->
    exists d',
      prepare_data articles d = Return (Some d')
      /\ (sentiment_counts d').*1 = three_labels
      /\ three_each d'
      /\ counts_total (sentiment_counts d')
         = counts_total (sentiment_counts d) + length articles.
Proof.
  intros Harts.
  induction Harts as [|article rest (m & label & ts & -> & Hs & Hl & Hts & [topics Htopics]) _ IH];
    intros d Hkeys Hd.
  - exists d. split; [reflexivity|]. split; [exact Hkeys|]. split; [exact Hd|].
    simpl. lia.
  - simpl. rewrite Hs. simpl.
    destruct (increment_known label (sentiment_counts d))
      as (counts & -> & Hkeys' & Htotal).
    { rewrite Hkeys. exact Hl. }
    simpl. rewrite Hts. simpl. rewrite Htopics.
    match goal with
    | |- context [count_topics (JStr label) topics ?d1] =>
        destruct (count_topics_run label topics Hl d1) as (d2 & -> & Hsent & Hd2)
    end.
    { exact Hd. }
    simpl in Hsent. simpl.
    destruct (IH d2) as (d' & -> & Hk' & Hd' & Htot').
    { rewrite Hsent, Hkeys'. exact Hkeys. }
    { exact Hd2. }
    exists d'. split; [reflexivity|]. split; [exact Hk'|]. split; [exact Hd'|].
    rewrite Htot', Hsent, Htotal. simpl. lia.
Qed.

Lemma prepare_data_stops (articles rest : list json)
    (m : list (string * json)) (label : string) :
  Forall reportable articles ->
  dict_get_default "Sentiment" (JStr "Neutral") m = JStr label ->
  label ∉ three_labels ->
  forall d,
    (sentiment_counts d).*1 = three_labels ->
    three_each d ->
    prepare_data (articles ++ JObj m :: rest) d
    = Raise (Exception (py_repr (JStr label))).
Proof.
  intros Harts Hs Hl.
  induction Harts as [|article arts (m0 & l0 & ts & -> & Hs0 & Hl0 & Hts & [topics Htopics]) _ IH];
    intros d Hkeys Hd.
  - simpl. rewrite Hs. simpl.
    rewrite increment_unknown by (rewrite Hkeys; exact Hl). reflexivity.
  - simpl. rewrite Hs0. simpl.
    destruct (increment_known l0 (sentiment_counts d))
      as (counts & -> & Hkeys' & _).
    { rewrite Hkeys. exact Hl0. }
    simpl. rewrite Hts. simpl. rewrite Htopics.
    match goal with
    | |- context [count_topics (JStr l0) topics ?d1] =>
        destruct (count_topics_run l0 topics Hl0 d1) as (d2 & -> & Hsent & Hd2)
    end.
    { exact Hd. }
    simpl in Hsent. simpl. apply IH.
    + rewrite Hsent, Hkeys'. exact Hkeys.
    + exact Hd2.
Qed.

(** X22.  The counts that [display_detailed_analysis_report] prepares are
    made for three labels.  On articles whose sentiment is "Positive",
    "Negative" or "Neutral" and whose topics are strings, the loop ends and
    the three counts add up to the number of articles.  But the first
    article that carries another label, such as the "Very Positive" and
    "Very Negative" that [analyze_article] gives, makes it raise [KeyError]
    with that label, whatever follows. *)
Theorem report_counts_three_labels (articles rest : list json)
    (m : list (string * json)) (label : string) :
  Forall reportable articles ->
  dict_get_default "Sentiment" (JStr "Neutral") m = JStr label ->
  label ∉ three_labels ->
  (exists data,
     prepare_data articles initial_data = Return (Some data)
     /\ (sentiment_counts data).*1 = three_labels
     /\ counts_total (sentiment_counts data) = length articles)
  /\ prepare_data (articles ++ JObj m :: rest) initial_data
     = Raise (Exception (py_repr (JStr label))).
Proof.
  intros Harts Hs Hl.
  assert (three_each initial_data) as Hinit by (intros t c Htc; discriminate).
  split.
  - destruct (prepare_data_run articles Harts initial_data eq_refl Hinit)
      as (d' & Hrun & Hkeys & _ & Htotal).
    exists d'. split; [exact Hrun|]. split; [exact Hkeys|].
    rewrite Htotal. reflexivity.
  - apply prepare_data_stops; [exact Harts|exact Hs|exact Hl|reflexivity|exact Hinit].
Qed.

End DashboardProperties.

Section DashboardAndServices.
Import Speech Api Batch Dashboard.
Context `{Environment} `{NewsScraper.Web} `{Host} `{Pickler} `{Framework}.

(** X23.  What [analyze_company] answers and pickles is not what the
    dashboard reads: the result holds its final sentiment and its
    comparative analysis under ["Final Sentiment Analysis"] and
    ["Comparative Sentiment Score"], the dashboard looks under
    ["Final_Sentiment_Analysis"] and ["Comparative_Sentiment_Score"].  So
    for every result of the endpoint the card of the overall sentiment
    writes "No analysis available" and the ratio of positive to negative
    articles is that of two zeros.  A result of the batch processor is
    read under its keys: with three analyses or more the card writes its
    final sentiment, with fewer it writes "No analysis available". *)
Theorem dashboard_misses_analyze_results (company_name : string)
    (s s' : server) (body : json) :
  analyze_company true company_name s = Some (Ok body, s') ->
  (exists m final_sentiment,
     body = JObj m
     /\ dict_get "Final Sentiment Analysis" m = Some final_sentiment
     /\ final_sentiment_shown body = Return (JStr "No analysis available")
     /\ sentiment_ratio_shown body
        = Return (GeminiService.py_str (JNum (Qc_of_Z 0)) ++ ":"
                  ++ GeminiService.py_str (JNum (Qc_of_Z 0)))%string)
  /\ forall gemini_service s1 s1' analysis_result,
       process_company gemini_service company_name s1
       = (Return (Some (Analysis analysis_result)), s1') ->
       exists analysed,
         dict_get "Articles" analysis_result = Some (JArr analysed)
         /\ if bool_decide (3 <= length analysed)
            then exists final_sentiment,
                   dict_get "Final_Sentiment_Analysis" analysis_result
                   = Some final_sentiment
                   /\ final_sentiment_shown (JObj analysis_result)
                      = Return final_sentiment
            else final_sentiment_shown (JObj analysis_result)
                 = Return (JStr "No analysis available").
Proof.
  intros Hrun. split.
  - unfold analyze_company in Hrun.
    destruct (analyze_company_try_run company_name s) as (r & s2 & Htry & _ & Hr).
    rewrite Htry in Hrun.
    destruct r as [[[[status_code detail|e]|body']|]|e]; try discriminate.
    injection Hrun as <- <-.
    destruct Hr as (analyses & comp & final & -> & _).
    eexists _, final. split; [reflexivity|]. split; [reflexivity|].
    split; reflexivity.
  - intros gemini_service s1 s1' analysis_result Hbatch.
    destruct (process_company_run gemini_service company_name s1)
      as (r & s2 & Hrun' & _ & Hr & _).
    rewrite Hrun' in Hbatch. injection Hbatch as -> <-.
    destruct Hr as (analysed & _ & _ & Hshape).
    exists analysed. destruct (bool_decide (3 <= length analysed)).
    + destruct Hshape as (comp & final & ->).
      split; [reflexivity|]. exists final. split; reflexivity.
    + rewrite Hshape. split; reflexivity.
Qed.

End DashboardAndServices.

(** * Runs on the concrete environment *)

Example split_fences :
  PyStr.split "```" "x```json{}```y" = ["x"; "json{}"; "y"]%string.
Proof. reflexivity. Qed.

Example split_trailing_separator :
  PyStr.split "```" "a```" = ["a"; ""]%string.
Proof. reflexivity. Qed.

Example strip_both_ends :
  PyStr.strip (" " ++ nl ++ "{} " ++ nl)%string = "{}"%string.
Proof. reflexivity. Qed.

Example extract_json_fenced :
  extract_json ("Here:" ++ nl ++ "```json" ++ nl ++ "{}" ++ nl ++ "```" ++ nl)%string
  = "{}"%string.
Proof. reflexivity. Qed.

Example extract_json_plain_fence :
  extract_json ("```" ++ nl ++ "{}" ++ nl ++ "```")%string = "{}"%string.
Proof. reflexivity. Qed.

Example extract_json_bare : extract_json "{}" = "{}"%string.
Proof. reflexivity. Qed.

Example chunks_of_ten :
  TextToSpeechCheckpoint.chunks_of 4 "abcdefghij" = ["abcd"; "efgh"; "ij"]%string.
Proof. reflexivity. Qed.

(** the scenario of the specification: scores 1, 5 and 3 *)
Example tally_of_three_scores :
  let articles := [demo_article "A" "Very Negative" 1 [];
                   demo_article "B" "Very Positive" 5 [];
                   demo_article "C" "Neutral" 3 []] in
  (t ← tally_articles initial_tally articles;
   Return (sentiment_dist t, Qeq_bool (average (total_score t) 3) (3 # 1)))
  = Return ([("Very Positive", 1); ("Positive", 0); ("Neutral", 1);
             ("Negative", 0); ("Very Negative", 1)]%string, true).
Proof. vm_compute. reflexivity. Qed.

Example average_of_no_article : average 0 0 = Qc_of_Z 3.
Proof. reflexivity. Qed.

Lemma scripted_always_answers (svc : service) :
  @always_answers (scripted []) svc.
Proof.
  intros tr payload. exists "{}"%string. simpl.
  destruct (calls_made tr); reflexivity.
Qed.

Lemma trace_eq_decided (a b : list event) : bool_decide (a = b) = true -> a = b.
Proof. apply bool_decide_eq_true_1. Qed.


(** a run known to return, split into its value and its world *)
Lemma run_returned {A} (d : A) (run : exc A * world) :
  is_return run.1 = true -> run = (Return (returned d run.1), run.2).
Proof. destruct run as [[a|e] w]; [reflexivity|discriminate]. Qed.



(** A failure that is not a rate limit is raised at once, and a rate limit
    followed by an answer costs one sleep of two seconds. *)
Example call_api_with_retry_other_failure :
  let E := scripted [Failed "500 internal"; Ok "late"]%string in
  (_call_api_with_retry "p" empty_world).1 = Raise (ApiError "500 internal")
  /\ trace (_call_api_with_retry "p" empty_world).2 = [Call Gemini "p"%string].
Proof. split; vm_compute; reflexivity. Qed.

Example call_api_with_retry_one_retry :
  let E := scripted [Failed "429 quota"; Ok "late"]%string in
  (_call_api_with_retry "p" empty_world).1 = Return "late"%string
  /\ trace (_call_api_with_retry "p" empty_world).2
     = [Call Gemini "p"; Sleep 2; Call Gemini "p"]%string.
Proof. split; vm_compute; reflexivity. Qed.

(** C6, on a service that is over quota four times in a row: the three
    retries are made, after 2, 4 and 8 seconds, and the fourth failure is
    raised. *)
Lemma call_api_with_retry_behaviour_witness :
  let E := scripted [Failed "429 a"; Failed "429 b"; Failed "429 c";
                     Failed "429 d"]%string in
  trace (_call_api_with_retry "p" empty_world).2
  = [Call Gemini "p"; Sleep 2; Call Gemini "p"; Sleep 4; Call Gemini "p";
     Sleep 8; Call Gemini "p"]%string
  /\ (_call_api_with_retry "p" empty_world).1 = Raise (ApiError "429 d").
Proof.
  intros E.
  destruct (call_api_with_retry_behaviour "p" empty_world)
    as (k & Hk & _ & Hstop & Htrace & _ & Hres).
  destruct k as [|[|[|[|k]]]].
  - specialize (Hstop ltac:(lia)). vm_compute in Hstop. discriminate.
  - specialize (Hstop ltac:(lia)). vm_compute in Hstop. discriminate.
  - specialize (Hstop ltac:(lia)). vm_compute in Hstop. discriminate.
  - split; [exact Htrace|exact Hres].
  - lia.
Defined.

(** Without a working cache store the second call asks the service again. *)
Example analyze_article_twice_store_down :
  let E := scripted [] in
  let w := {| trace := []; store_up := false; cache_dir := ∅;
              translations_dir := ∅ |} in
  let w1 := (analyze_article "Title" "content" w).2 in
  calls_made (trace w1) = 1
  /\ calls_made (trace (analyze_article "Title" "content" w1).2) = 2.
Proof. split; vm_compute; reflexivity. Qed.

(** A reply that is not JSON makes [analyze_article] raise, and nothing is
    written to the cache. *)
Example analyze_article_unparseable_reply :
  let E := scripted [Ok "oops"%string] in
  let run := analyze_article "Title" "content" empty_world in
  run.1 = Raise JSONDecodeError /\ cache_dir run.2 = ∅.
Proof. split; vm_compute; reflexivity. Qed.

(** A reply that is JSON but not an object makes
    [generate_comparative_analysis] raise: only [json.JSONDecodeError] is
    turned into the basic result. *)
Example comparison_of_array_reply_raises :
  let E := scripted [Ok "[]"%string] in
  let run := generate_comparative_analysis "Acme" demo_articles empty_world in
  run.1 = Raise TypeError /\ cache_dir run.2 = ∅.
Proof. split; vm_compute; reflexivity. Qed.

(** C9, on an empty cache: one request, and the second call changes nothing. *)
Lemma analyze_article_twice_calls_once_witness :
  let E := scripted [Ok "{}"%string] in
  exists r w1,
    analyze_article "Title" "content" empty_world = (Return r, w1)
    /\ trace w1 = [Call Gemini (analysis_prompt "Title" "content")]
    /\ calls_made (trace w1) = 1
    /\ analyze_article "Title" "content" w1 = (Return r, w1).
Proof.
  intros E.
  set (run := analyze_article "Title" "content" empty_world).
  assert (run = (Return (returned JNull run.1), run.2)) as Hrun
    by (apply run_returned; vm_compute; reflexivity).
  destruct (analyze_article_twice_calls_once "Title" "content" empty_world
              run.2 (returned JNull run.1))
    as (_ & _ & Honce & Hagain).
  - reflexivity.
  - vm_compute. reflexivity.
  - exact Hrun.
  - destruct (Honce "{}"%string eq_refl) as [Htrace Hcalls].
    exists (returned JNull run.1), run.2.
    split; [exact Hrun|]. split; [exact Htrace|].
    split; [exact Hcalls|exact Hagain].
Defined.

(** C10, on two contents that differ at character 1001. *)
Lemma analyze_article_stale_beyond_prefix_witness :
  let E := scripted [Ok "{}"%string] in
  let c1 := (PyStr.repeat "a" 1000 ++ "b")%string in
  let c2 := (PyStr.repeat "a" 1000 ++ "c")%string in
  exists r w1,
    analyze_article "Title" c1 empty_world = (Return r, w1)
    /\ analysis_prompt "Title" c1 <> analysis_prompt "Title" c2
    /\ analyze_article "Title" c2 w1 = (Return r, w1).
Proof.
  intros E c1 c2.
  assert (PyStr.take 4000 c1 <> PyStr.take 4000 c2) as Hdiffer.
  { intros Heq. apply (f_equal (PyStr.drop 1000)) in Heq.
    vm_compute in Heq. discriminate. }
  set (run := analyze_article "Title" c1 empty_world).
  assert (run = (Return (returned JNull run.1), run.2)) as Hrun
    by (apply run_returned; vm_compute; reflexivity).
  destruct (analyze_article_stale_beyond_prefix "Title" c1 c2 empty_world
              run.2 (returned JNull run.1))
    as (_ & Hprompts & Hagain).
  - reflexivity.
  - vm_compute. reflexivity.
  - exact Hrun.
  - exists (returned JNull run.1), run.2.
    split; [exact Hrun|]. split; [exact (Hprompts Hdiffer)|exact Hagain].
Defined.

(** C2 as stated fails: after the analysis of three articles, the analysis
    of four articles with the same first three titles is served from the
    cache, with the counts of the three. *)
Lemma comparison_served_from_cache_is_stale :
  let E := scripted [] in
  let four := demo_articles ++ [demo_article "D" "Neutral" 3 []] in
  let w1 := (generate_comparative_analysis "Acme" demo_articles empty_world).2 in
  let d := [("Very Positive", 0); ("Positive", 2); ("Neutral", 0);
            ("Negative", 1); ("Very Negative", 0)]%string in
  Forall (fun a => is_Some (counted_label a)) four
  /\ length four = 4
  /\ counts_total d = 3
  /\ cache_titles four = cache_titles demo_articles
  /\ exists m,
       generate_comparative_analysis "Acme" four w1 = (Return (JObj m), w1)
       /\ dict_get "Sentiment_Distribution" m = Some (json_of_dist d).
Proof.
  intros E four w1 d.
  split; [repeat constructor; vm_compute; eauto|].
  split; [reflexivity|]. split; [reflexivity|]. split; [reflexivity|].
  exists (match (generate_comparative_analysis "Acme" four w1).1 with
          | Return (JObj m) => m
          | _ => []
          end).
  split; vm_compute; reflexivity.
Qed.

(** C2 (amended), on three articles and an empty cache. *)
Lemma comparison_distribution_recomputed_witness :
  let E := scripted [] in
  exists m w',
    generate_comparative_analysis "Acme" demo_articles empty_world
    = (Return (JObj m), w')
    /\ dict_get "Sentiment_Distribution" m
       = Some (json_of_dist (dist_of (fun label => count_label label demo_articles)))
    /\ counts_total (dist_of (fun label => count_label label demo_articles)) = 3.
Proof.
  intros E.
  set (run := generate_comparative_analysis "Acme" demo_articles empty_world).
  assert (run = (Return (returned JNull run.1), run.2)) as Hrun
    by (apply run_returned; vm_compute; reflexivity).
  destruct (comparison_distribution_recomputed "Acme" demo_articles
              "comp_Acme_A_B_C" empty_world run.2 (returned JNull run.1))
    as (m & Hr & Hdist & Hsum).
  - vm_compute. reflexivity.
  - reflexivity.
  - repeat constructor; vm_compute; eauto.
  - exact Hrun.
  - exists m, run.2. split; [rewrite <- Hr; exact Hrun|].
    split; [exact Hdist|exact Hsum].
Defined.

(** C3 (amended), on a reply that is not JSON: three articles, two Positive
    with score 4 and one Negative with score 2, so a mean of 10/3. *)
Lemma comparison_degrades_when_reply_unparseable_witness :
  let E := scripted [Ok "oops"%string] in
  exists r w',
    generate_comparative_analysis "Acme" demo_articles empty_world = (Return r, w')
    /\ cached_at "comp_Acme_A_B_C" w' = Some r
    /\ exists m, r = JObj m
       /\ dict_get "Sentiment_Distribution" m
          = Some (JObj [("Very Positive", JNum 0); ("Positive", JNum (Qc_of_Z 2));
                        ("Neutral", JNum 0); ("Negative", JNum 1);
                        ("Very Negative", JNum 0)]%string)
       /\ dict_get "Average_Sentiment_Score" m = Some (JNum (Q2Qc (10 # 3)))
       /\ dict_get "Sentiment_Trend" m
          = Some (JStr "Unable to determine due to processing error").
Proof.
  intros E.
  destruct (local_analysis "Acme" demo_articles) as [[[t avg] prompt]|e] eqn:Hlocal;
    [|vm_compute in Hlocal; discriminate].
  destruct (comparison_degrades_when_reply_unparseable "Acme" demo_articles
              "comp_Acme_A_B_C" t avg prompt empty_world)
    as (scores & Hscores & Hcall).
  - vm_compute. reflexivity.
  - reflexivity.
  - exact Hlocal.
  - assert (_call_api_with_retry prompt empty_world
            = (Return "oops"%string, log_event (Call Gemini prompt) empty_world))
      as Heq by (apply call_api_with_retry_answered; reflexivity).
    rewrite Heq in Hcall. destruct Hcall as (_ & Hdegraded & _).
    destruct (Hdegraded eq_refl eq_refl) as [Hrun Hcached].
    assert (scores = [Qc_of_Z 4; Qc_of_Z 4; Qc_of_Z 2]) as ->.
    { unfold demo_articles in Hscores.
      apply Forall2_cons_inv_l in Hscores as (q1 & l1 & H1 & Hscores & ->).
      apply Forall2_cons_inv_l in Hscores as (q2 & l2 & H2 & Hscores & ->).
      apply Forall2_cons_inv_l in Hscores as (q3 & l3 & H3 & Hscores & ->).
      apply Forall2_nil_inv_l in Hscores as ->.
      change (Some (Qc_of_Z 4) = Some q1) in H1.
      change (Some (Qc_of_Z 4) = Some q2) in H2.
      change (Some (Qc_of_Z 2) = Some q3) in H3.
      injection H1 as <-. injection H2 as <-. injection H3 as <-.
      reflexivity. }
    eexists _, _. split; [exact Hrun|]. split; [exact (Hcached eq_refl)|].
    eexists. split; [reflexivity|].
    split; [vm_compute; reflexivity|].
    split; [|reflexivity].
    apply (f_equal (fun q => Some (JNum q))). apply Qc_is_canon. reflexivity.
Defined.

(** C3 as stated fails: a reply that is a JSON list.  The call succeeded,
    and [generate_comparative_analysis] raises [TypeError]. *)
Lemma comparison_raises_after_successful_call :
  let E := scripted [Ok "[]"%string] in
  exists t avg prompt,
    local_analysis "Acme" demo_articles = Return (t, avg, prompt)
    /\ (_call_api_with_retry prompt empty_world).1 = Return "[]"%string
    /\ json_loads (extract_json "[]") = Some (JArr [])
    /\ (generate_comparative_analysis "Acme" demo_articles empty_world).1
       = Raise TypeError.
Proof.
  intros E.
  destruct (local_analysis "Acme" demo_articles) as [[[t avg] prompt]|e] eqn:Hlocal;
    [|vm_compute in Hlocal; discriminate].
  exists t, avg, prompt. split; [reflexivity|].
  split.
  { assert (_call_api_with_retry prompt empty_world
            = (Return "[]"%string, log_event (Call Gemini prompt) empty_world))
      as -> by (apply call_api_with_retry_answered; reflexivity).
    reflexivity. }
  split; [vm_compute; reflexivity|vm_compute; reflexivity].
Qed.

(** C7, on a reply that is an empty JSON object. *)
Lemma comparison_coverage_differences_never_empty_witness :
  let E := scripted [] in
  exists rm w',
    generate_comparative_analysis "Acme" demo_articles empty_world
    = (Return (JObj rm), w')
    /\ dict_get "Coverage_Differences" rm
       = Some (JArr [JObj
            [("Comparison", JStr "Differences in reporting emphasis");
             ("Articles_Involved", JArr [JStr "A"; JStr "B"]);
             ("Impact", JStr "Creates varied impressions of company priorities")]]).
Proof.
  intros E.
  destruct (local_analysis "Acme" demo_articles) as [[[t avg] prompt]|e] eqn:Hlocal;
    [|vm_compute in Hlocal; discriminate].
  destruct (comparison_coverage_differences_never_empty "Acme" demo_articles
              "comp_Acme_A_B_C" t avg prompt "{}" empty_world
              (log_event (Call Gemini prompt) empty_world) [])
    as (rm & w' & cd & Hrun & Hcd & _ & Hfallback & _).
  - vm_compute. reflexivity.
  - reflexivity.
  - exact Hlocal.
  - apply call_api_with_retry_answered. reflexivity.
  - reflexivity.
  - exists rm, w'. split; [exact Hrun|].
    rewrite Hcd, (Hfallback eq_refl). reflexivity.
Defined.

(** C8 as stated fails: the topics are first seen in the order x, y, z, and a
    set that lists them as y, x, z gives that order to the common topics. *)
Lemma common_topics_not_in_order_of_first_observation :
  let E := scripted [] in
  first_distinct [] (topics_seen demo_articles) = ["x"; "y"; "z"]%string
  /\ set_listing (topics_seen demo_articles) = ["y"; "x"; "z"]%string
  /\ json_loads (extract_json "{}") = Some (JObj [])
  /\ exists m w',
       generate_comparative_analysis "Acme" demo_articles empty_world
       = (Return (JObj m), w')
       /\ dict_get "Topic_Analysis" m
          = Some (JObj [("Common_Topics", JArr [JStr "y"; JStr "x"; JStr "z"]);
                        ("Topic_Sentiment_Map", JObj [])]).
Proof.
  intros E. split; [reflexivity|]. split; [reflexivity|]. split; [reflexivity|].
  exists (match (generate_comparative_analysis "Acme" demo_articles empty_world).1 with
          | Return (JObj m) => m
          | _ => []
          end),
         (generate_comparative_analysis "Acme" demo_articles empty_world).2.
  split; vm_compute; reflexivity.
Qed.

(** C8 (amended), on the same run. *)
Lemma comparison_default_topics_witness :
  let E := scripted [] in
  exists rm w' ts,
    generate_comparative_analysis "Acme" demo_articles empty_world
    = (Return (JObj rm), w')
    /\ dict_get "Topic_Analysis" rm
       = Some (JObj [("Common_Topics", JArr (JStr <$> ts));
                     ("Topic_Sentiment_Map", JObj [])])
    /\ ts ≡ₚ ["x"; "y"; "z"]%string.
Proof.
  intros E.
  destruct (local_analysis "Acme" demo_articles) as [[[t avg] prompt]|e] eqn:Hlocal;
    [|vm_compute in Hlocal; discriminate].
  destruct (comparison_default_topics "Acme" demo_articles
              "comp_Acme_A_B_C" t avg prompt "{}" empty_world
              (log_event (Call Gemini prompt) empty_world) [])
    as (rm & w' & ts & Hrun & Hta & _ & _ & _ & _ & Hperm).
  - vm_compute. reflexivity.
  - reflexivity.
  - exact Hlocal.
  - apply call_api_with_retry_answered. reflexivity.
  - reflexivity.
  - reflexivity.
  - exists rm, w', ts. split; [exact Hrun|]. split; [exact Hta|].
    apply Hperm. vm_compute. lia.
Defined.

(** C4 as stated fails: the Gemini-only variant sends a text of 2 x 4000
    characters in one request, without sleeping. *)
Lemma gemini_only_translation_is_not_chunked :
  let E := scripted [] in
  let text := PyStr.repeat "a" (2 * 4000) in
  let run := TextToSpeech.translate_to_hindi text empty_world in
  String.length text = 2 * TextToSpeechCheckpoint.max_chunk_size
  /\ length (TextToSpeechCheckpoint.chunks_of
               TextToSpeechCheckpoint.max_chunk_size text) = 2
  /\ run.1 = Return "{}"%string
  /\ trace run.2 = [Call Gemini (TextToSpeech.translation_prompt text)]
  /\ calls_made (trace run.2) = 1
  /\ sleeps_of (trace run.2) = [].
Proof.
  intros E text run.
  split; [vm_compute; reflexivity|]. split; [vm_compute; reflexivity|].
  split; [vm_compute; reflexivity|].
  split; [apply trace_eq_decided; vm_compute; reflexivity|].
  split; vm_compute; reflexivity.
Qed.

(** C4 (amended), on the same text with the multi-backend variant set up for
    LibreTranslate: two sleeps, two requests of 4000 characters, and the two
    answers put end to end. *)
Lemma translation_chunking_witness :
  let E := scripted [] in
  let text := PyStr.repeat "a" (2 * 4000) in
  let run := TextToSpeechCheckpoint.translate_to_hindi demo_libre text empty_world in
  run.1 = Return "{}{}"%string
  /\ trace run.2 = [Sleep 1; Call LibreTranslate (PyStr.repeat "a" 4000);
                    Sleep 1; Call LibreTranslate (PyStr.repeat "a" 4000)].
Proof.
  intros E text run.
  destruct (translation_chunking demo_libre text empty_world)
    as (_ & _ & _ & _ & _ & Hlong & _).
  - vm_compute. reflexivity.
  - apply scripted_always_answers.
  - destruct Hlong as (Hrun & Htrace & _).
    { apply Nat.ltb_lt. vm_compute. reflexivity. }
    subst run. rewrite Hrun.
    split; [vm_compute; reflexivity|].
    apply trace_eq_decided. vm_compute. reflexivity.
Defined.



(** X1, on an empty cache: the second call is given [None] as analysis
    result, from which no prompt can be built, and still returns the
    sentiment of the first. *)
Lemma final_sentiment_keyed_by_company_witness :
  let E := scripted [Ok " Mixed. "%string] in
  exists w1,
    generate_final_sentiment "Acme" (JObj []) empty_world
    = (Return (JStr "Mixed."), w1)
    /\ final_local "Acme" JNull = Raise AttributeError
    /\ generate_final_sentiment "Acme" JNull w1 = (Return (JStr "Mixed."), w1).
Proof.
  intros E.
  set (run := generate_final_sentiment "Acme" (JObj []) empty_world).
  assert (run = (Return (returned JNull run.1), run.2)) as Hrun
    by (apply run_returned; vm_compute; reflexivity).
  pose proof (final_sentiment_keyed_by_company "Acme" (JObj []) JNull empty_world
                run.2 (returned JNull run.1) eq_refl Hrun) as Hagain.
  assert (returned JNull run.1 = JStr "Mixed.") as Hr by (vm_compute; reflexivity).
  rewrite Hr in Hrun, Hagain.
  exists run.2. split; [exact Hrun|]. split; [reflexivity|exact Hagain].
Defined.

(** X2, on the dict that [analyze_company] builds. *)
Lemma final_sentiment_without_comparative_witness :
  let E := scripted [] in
  final_local "Acme"
    (JObj [("Company", JStr "Acme"); ("Articles", JArr demo_articles)]%string)
  = Return (final_prompt "Acme" "" "" (format_2f (Qc_of_Z 3))).
Proof.
  intros E.
  destruct (final_sentiment_without_comparative "Acme"
              [("Company", JStr "Acme"); ("Articles", JArr demo_articles)]%string
              empty_world) as [_ Hbuilt].
  - reflexivity.
  - vm_compute. reflexivity.
  - apply (Hbuilt demo_articles); [reflexivity|].
    repeat constructor; eexists; reflexivity.
Defined.

(** X3, on two results with the same drivers and average, and other
    articles and distributions. *)
Lemma final_prompt_ignores_articles_witness :
  let E := scripted [] in
  let comparative := fun dist : json =>
    [("Sentiment_Distribution", dist);
     ("Average_Sentiment_Score", JNum (Qc_of_Z 4));
     ("Sentiment_Drivers",
        JObj [("Positive_Factors", JArr [JStr "growth"]);
              ("Negative_Factors", JArr [])])]%string in
  let one := [("Articles", JArr demo_articles);
              ("Comparative_Sentiment_Score", JObj (comparative (JObj [])))]%string in
  let other := [("Articles", JArr []);
                ("Comparative_Sentiment_Score", JObj (comparative JNull))]%string in
  exists p, final_local "Acme" (JObj one) = Return p
            /\ final_local "Acme" (JObj other) = Return p.
Proof.
  intros E comparative one other.
  destruct (final_local "Acme" (JObj one)) as [p1|e] eqn:H1;
    [|vm_compute in H1; discriminate].
  destruct (final_local "Acme" (JObj other)) as [p2|e] eqn:H2;
    [|vm_compute in H2; discriminate].
  exists p1. split; [reflexivity|].
  rewrite <- (final_prompt_ignores_articles "Acme" one other
                (comparative (JObj [])) (comparative JNull) p1 p2
                eq_refl eq_refl eq_refl eq_refl H1 H2).
  reflexivity.
Defined.

(** X4, on a reply with a space at each end. *)
Lemma query_response_repeated_is_raw_witness :
  let E := scripted [Ok " It is positive. "%string] in
  exists w1,
    generate_query_response "Acme" JNull "How is it?" empty_world
    = (Return (JStr "It is positive."), w1)
    /\ generate_query_response "Acme" JNull "How is it?" w1
       = (Return (JStr " It is positive. "), w1).
Proof.
  intros E.
  destruct (query_response_repeated_is_raw "Acme" JNull JNull "How is it?"
              " It is positive. " empty_world
              (log_event (Call Gemini (query_prompt "Acme" "How is it?")) empty_world))
    as [Hfirst Hagain].
  - reflexivity.
  - vm_compute. reflexivity.
  - apply call_api_with_retry_answered. reflexivity.
  - eexists. split; [exact Hfirst|exact Hagain].
Defined.

(** X6, on a reply that is an empty JSON object. *)
Lemma analyze_article_completes_record_witness :
  let E := scripted [] in
  exists m w',
    analyze_article "Title" "content" empty_world = (Return (JObj m), w')
    /\ dict_get "Title" m = Some (JStr "Title")
    /\ dict_get "Summary" m = Some (JStr "")
    /\ dict_get "Sentiment_Score" m = Some (JNum (Qc_of_Z 3))
    /\ dict_get "Sentiment" m = Some (JStr "Neutral")
    /\ dict_get "Topics" m = Some (JArr [])
    /\ dict_get "Sentiment_Indicators" m = Some (JArr []).
Proof.
  intros E.
  pose proof (analyze_article_completes_record "Title" "content" "{}" empty_world
                (log_event (Call Gemini (analysis_prompt "Title" "content"))
                   empty_world) []) as Hrecord.
  destruct Hrecord as (m & w' & Hrun & Hfields).
  - vm_compute. reflexivity.
  - apply call_api_with_retry_answered. reflexivity.
  - reflexivity.
  - exists m, w'. split; [exact Hrun|].
    rewrite !Hfields. repeat split; reflexivity.
Defined.

(** X7, on a reply that is an empty JSON list. *)
Lemma replies_that_are_not_objects_witness :
  let E := scripted [Ok "[]"%string] in
  (analyze_article "Title" "content" empty_world).1 = Raise TypeError
  /\ (generate_comparative_analysis "Acme" demo_articles empty_world).1
     = Raise TypeError.
Proof.
  intros E.
  destruct (replies_that_are_not_objects (JArr []) "[]") as [Hanalysis Hcomparison].
  - reflexivity.
  - discriminate.
  - split.
    + destruct (Hanalysis "Title" "content" empty_world
                  (log_event (Call Gemini (analysis_prompt "Title" "content"))
                     empty_world)) as [-> _].
      * vm_compute. reflexivity.
      * apply call_api_with_retry_answered. reflexivity.
      * reflexivity.
    + destruct (local_analysis "Acme" demo_articles) as [[[t avg] prompt]|e]
        eqn:Hlocal; [|vm_compute in Hlocal; discriminate].
      destruct (Hcomparison "Acme" demo_articles "comp_Acme_A_B_C" t avg prompt
                  empty_world (log_event (Call Gemini prompt) empty_world))
        as [-> _].
      * vm_compute. reflexivity.
      * reflexivity.
      * exact Hlocal.
      * apply call_api_with_retry_answered. reflexivity.
      * reflexivity.
Defined.

(** X8, on three articles scored 4, 4 and 2. *)
Lemma comparison_average_recomputed_witness :
  let E := scripted [] in
  exists m w',
    generate_comparative_analysis "Acme" demo_articles empty_world
    = (Return (JObj m), w')
    /\ dict_get "Average_Sentiment_Score" m
       = Some (JNum ((Qc_of_Z 4 + (Qc_of_Z 4 + (Qc_of_Z 2 + 0))) / Qc_of_Z 3)).
Proof.
  intros E.
  set (run := generate_comparative_analysis "Acme" demo_articles empty_world).
  assert (run = (Return (returned JNull run.1), run.2)) as Hrun
    by (apply run_returned; vm_compute; reflexivity).
  destruct (comparison_average_recomputed "Acme" demo_articles
              "comp_Acme_A_B_C" empty_world run.2 (returned JNull run.1))
    as (m & scores & Hr & Hscores & Havg).
  - vm_compute. reflexivity.
  - reflexivity.
  - exact Hrun.
  - exists m, run.2. split; [rewrite <- Hr; exact Hrun|].
    rewrite Havg. unfold demo_articles in Hscores.
    inversion Hscores as [|? q1 ? l1 H1 Hrest1]; subst.
    inversion Hrest1 as [|? q2 ? l2 H2 Hrest2]; subst.
    inversion Hrest2 as [|? q3 ? l3 H3 Hrest3]; subst.
    inversion Hrest3; subst.
    injection H1 as <-. injection H2 as <-. injection H3 as <-.
    reflexivity.
Defined.

(** X9, on a reply with a sentence before the fence. *)
Lemma extract_json_fenced_reply_witness :
  extract_json ("Here it is:" ++ nl ++ "```json" ++ nl ++ "{}" ++ nl ++ "```" ++ nl)%string
  = "{}"%string.
Proof.
  destruct (extract_json_fenced_reply ("Here it is:" ++ nl) (nl ++ "{}" ++ nl) nl)
    as [Hfenced _].
  - reflexivity.
  - reflexivity.
  - rewrite <- !str_app_assoc. rewrite <- !str_app_assoc in Hfenced.
    rewrite Hfenced; reflexivity.
Defined.

(** X10, on a text with one fence. *)
Lemma fence_index_in_range_witness :
  exists first second rest, PyStr.split "```" "a```b" = first :: second :: rest.
Proof. apply fence_index_in_range; [discriminate|reflexivity]. Defined.

(** X11, on two texts that differ at character 1001. *)
Lemma translation_cached_by_prefix_witness :
  let E := scripted [Ok "HINDI"%string] in
  let t1 := (PyStr.repeat "a" 1000 ++ "b")%string in
  let t2 := (PyStr.repeat "a" 1000 ++ "c")%string in
  exists w1,
    TextToSpeech.translate_to_hindi t1 empty_world = (Return "HINDI"%string, w1)
    /\ TextToSpeech.translate_to_hindi t2 w1 = (Return "HINDI"%string, w1).
Proof.
  intros E t1 t2.
  set (run := TextToSpeech.translate_to_hindi t1 empty_world).
  assert (run = (Return (returned EmptyString run.1), run.2)) as Hrun
    by (apply run_returned; vm_compute; reflexivity).
  assert (returned EmptyString run.1 = "HINDI"%string) as Hr
    by (vm_compute; reflexivity).
  rewrite Hr in Hrun.
  destruct (translation_cached_by_prefix t1 t2 "HINDI" empty_world run.2)
    as [Hlive _].
  - reflexivity.
  - vm_compute. reflexivity.
  - discriminate.
  - exists run.2. split; [exact Hrun|exact (Hlive Hrun)].
Defined.

(** X12, on the call that [analyze_company] and [process_company] make. *)
Lemma search_company_news_is_simulated_witness :
  let W := demo_web in
  exists articles n',
    NewsScraper.search_company_news demo_scraper "Tesla Motors" 10 empty_net
    = (Return articles, n')
    /\ length articles = 10
    /\ pages_of (NewsScraper.visits n') = []
    /\ NewsScraper.simulated_url "Tesla Motors" 1
       = "https://example.com/news/tesla-motors/1"%string.
Proof.
  intros W.
  destruct (search_company_news_is_simulated demo_scraper "Tesla Motors" 10
              empty_net) as (articles & n' & Hrun & Hlen & Hvisits & _).
  - lia.
  - reflexivity.
  - exists articles, n'. split; [exact Hrun|]. split; [exact Hlen|].
    split; [|reflexivity].
    rewrite Hvisits. simpl. clear. induction (length articles); [reflexivity|].
    simpl. exact IHn.
Defined.

(** X14, on a request for no result. *)
Lemma search_company_news_nothing_asked_witness :
  let W := demo_web in
  NewsScraper.search_company_news demo_scraper "Tesla Motors" 0 empty_net
  = (Return [], empty_net).
Proof.
  intros W. apply search_company_news_nothing_asked. lia.
Defined.

Lemma actions_eq_decided (a b : list Speech.action) :
  bool_decide (a = b) = true -> a = b.
Proof. apply bool_decide_eq_true_1. Qed.

Lemma lookup_of_three {A} (a b c x : A) (k : nat) :
  [a; b; c] !! k = Some x ->
  (k = 0 /\ x = a) \/ (k = 1 /\ x = b) \/ (k = 2 /\ x = c).
Proof.
  destruct k as [|[|[|k]]]; simpl; intros Hk; try discriminate;
    injection Hk as <-; auto.
Qed.

Lemma ffmpeg_step_is_second (output_path : string) (temp_files : list string)
    (k : nat) (failed : Speech.action) :
  combination output_path temp_files !! k = Some failed ->
  is_ffmpeg failed = true -> k = 1.
Proof.
  unfold combination. intros Hk Hbad.
  apply lookup_of_three in Hk as [[-> ->]|[[-> ->]|[-> ->]]];
    [discriminate|reflexivity|discriminate].
Qed.

Lemma failing_fails_exactly (bad : Speech.action -> bool) :
  @fails_exactly (failing bad) bad.
Proof.
  intros h a. simpl. destruct (bad a); split; intros Hx;
    try reflexivity; try discriminate; eauto.
  destruct Hx; discriminate.
Qed.

(** X15, on a text of five characters. *)
Lemma generate_audio_when_nothing_fails_witness :
  let E := scripted [] in
  let Hst := failing (fun _ => false) in
  Speech.generate_audio "hello" "data/output/audio/acme.mp3" empty_studio
  = (Return true,
     with_done [Speech.Makedirs "data/output/audio";
                Speech.Speak "hello" "data/output/audio/acme.mp3"] empty_studio).
Proof.
  intros E Hst.
  destruct (generate_audio_when_nothing_fails "hello" "data/output/audio/acme.mp3"
              empty_studio) as (_ & Hshort & _).
  - reflexivity.
  - apply Hshort. unfold Speech.max_chunk_size. simpl. lia.
Defined.

(** X17, when the package of the MyMemory client is not installed: the
    multi-backend variant raises the exception of the import. *)
Lemma hindi_speech_from_translation_witness :
  let E := scripted [Unavailable "No module named 'translate'"%string] in
  let Hst := failing (fun _ => false) in
  Speech.generate_hindi_speech_from_english_checkpoint demo_fallback "Hello"
    "out/x.mp3" empty_studio
  = (Raise (Exception "No module named 'translate'"), empty_studio).
Proof.
  intros E Hst.
  destruct (hindi_speech_from_translation "Hello" "out/x.mp3" empty_studio)
    as (_ & _ & Hraise).
  apply Hraise.
  - reflexivity.
  - unfold TextToSpeechCheckpoint.max_chunk_size. simpl. lia.
  - reflexivity.
  - reflexivity.
Defined.

(** X16, on a text of 3001 characters when ffmpeg cannot be run: the
    output is the speech of the first 3000. *)
Lemma generate_audio_falls_back_to_first_part_witness :
  let E := scripted [] in
  let Hst := failing is_ffmpeg in
  let text := (PyStr.repeat "a" 3000 ++ "b")%string in
  let run := Speech.generate_audio text "out/x.mp3" empty_studio in
  run.1 = Return true
  /\ Speech.done run.2
     = [Speech.Makedirs "out";
        Speech.Speak (PyStr.repeat "a" 3000) "out/x.mp3.part0.mp3"; Speech.Nap 1;
        Speech.Speak "b" "out/x.mp3.part1.mp3"; Speech.Nap 1;
        Speech.WriteText "file_list.txt"
          ("file 'out/x.mp3.part0.mp3'" ++ nl ++ "file 'out/x.mp3.part1.mp3'" ++ nl)%string;
        Speech.RunProcess (Speech.ffmpeg_command "out/x.mp3");
        Speech.Copy "out/x.mp3.part0.mp3" "out/x.mp3";
        Speech.Remove "out/x.mp3.part0.mp3";
        Speech.Remove "out/x.mp3.part1.mp3"].
Proof.
  intros E Hst text run.
  destruct (generate_audio_falls_back_to_first_part text "out/x.mp3" is_ffmpeg
              empty_studio) as (k & failed & Hk & Hbad & Hfirst & Hrun).
  - apply Nat.ltb_lt; vm_compute; reflexivity.
  - apply failing_fails_exactly.
  - intros a Ha; destruct a; try reflexivity. exfalso.
    apply elem_of_cons in Ha as [Ha|Ha]; [discriminate|].
    apply elem_of_app in Ha as [Ha|Ha].
    + revert Ha; generalize 0.
      induction (TextToSpeechCheckpoint.chunks_of Speech.max_chunk_size text)
        as [|c cs IH]; intros i Ha; simpl in Ha.
      * inversion Ha.
      * apply elem_of_cons in Ha as [Ha|Ha]; [discriminate|].
        apply elem_of_cons in Ha as [Ha|Ha]; [discriminate|].
        exact (IH _ Ha).
    + apply elem_of_cons in Ha as [Ha|Ha]; [discriminate|].
      apply list_elem_of_fmap in Ha as (f & Hf & _). discriminate.
  - exists (Speech.RunProcess (Speech.ffmpeg_command "out/x.mp3")).
    split; [|reflexivity].
    unfold combination. apply elem_of_cons. right. apply elem_of_cons. left.
    reflexivity.
  - pose proof (ffmpeg_step_is_second _ _ _ _ Hk Hbad) as Hk1.
    clear Hk Hbad Hfirst.
    subst k.
    subst run. rewrite Hrun. split; [reflexivity|].
    apply actions_eq_decided. vm_compute. reflexivity.
Defined.

(** X21, on two companies. *)
Lemma batch_without_key_reports_success_witness :
  let E := scripted [] in
  let W := demo_web in
  let Hst := failing (fun _ => false) in
  let P := demo_pickler in
  let D := demo_desk in
  exists start_time end_time s',
    let results := batch_results 2 2 0 start_time end_time in
    Batch.process_all_companies false ["Tesla"; "Apple"]%string empty_server
    = (Return (Some results), s')
    /\ Speech.gemini (services s') = empty_world
    /\ Speech.done (services s')
       = saves_empty "Tesla" ++ saves_empty "Apple"
         ++ [Speech.WriteText "data/output/batch_results.json"
               (Batch.json_dumps results)].
Proof.
  intros E W Hst P D.
  assert (forall h a, Speech.attempt h a = None) as Hok
    by (intros h a; reflexivity).
  destruct (batch_without_key_reports_success ["Tesla"; "Apple"]%string
              empty_server Hok)
    as (start_time & end_time & s' & Hrun & Hgemini & Hdone).
  exists start_time, end_time, s'. split; [exact Hrun|].
  split; [exact Hgemini|]. rewrite Hdone. simpl. reflexivity.
Defined.

Lemma answered_ok_inv (r : option (Api.response * server)) :
  answered_ok r = true -> exists body s', r = Some (Api.Ok body, s').
Proof.
  destruct r as [[[body|status_code detail] s']|]; try discriminate.
  intros _. eauto.
Qed.

(** X22, on the three articles of the examples followed by an analysis as
    [analyze_article] completes it from a reply with the score 1.5. *)
Lemma report_counts_three_labels_witness :
  let E := scripted [] in
  let very_negative :=
    returned JNull (GeminiService.analysis_of_reply "T" demo_reply) in
  (exists data,
     Dashboard.prepare_data demo_articles Dashboard.initial_data = Return (Some data)
     /\ (Dashboard.sentiment_counts data).*1 = three_labels
     /\ counts_total (Dashboard.sentiment_counts data) = 3)
  /\ Dashboard.prepare_data (demo_articles ++ [very_negative]) Dashboard.initial_data
     = Raise (Exception (py_repr (JStr "Very Negative"))).
Proof.
  intros E very_negative.
  assert (exists m, very_negative = JObj m
                    /\ dict_get_default "Sentiment" (JStr "Neutral") m
                       = JStr "Very Negative") as (m & Hm & Hs).
  { eexists. split; [vm_compute; reflexivity|reflexivity]. }
  rewrite Hm.
  apply (report_counts_three_labels demo_articles [] m "Very Negative").
  - repeat constructor.
    + exists [("Title", JStr "A"); ("Summary", JStr EmptyString);
              ("Sentiment", JStr "Positive");
              ("Sentiment_Score", JNum (Qc_of_Z 4));
              ("Topics", JArr (JStr <$> ["x"; "y"; "x"]));
              ("Sentiment_Indicators", JArr [])]%string, "Positive"%string,
        (JStr <$> ["x"; "y"; "x"])%string.
      split; [reflexivity|]. split; [reflexivity|].
      split; [unfold three_labels; repeat constructor|]. split; [reflexivity|].
      simpl. eauto.
    + exists [("Title", JStr "B"); ("Summary", JStr EmptyString);
              ("Sentiment", JStr "Positive");
              ("Sentiment_Score", JNum (Qc_of_Z 4));
              ("Topics", JArr (JStr <$> ["z"]));
              ("Sentiment_Indicators", JArr [])]%string, "Positive"%string,
        (JStr <$> ["z"])%string.
      split; [reflexivity|]. split; [reflexivity|].
      split; [unfold three_labels; repeat constructor|]. split; [reflexivity|].
      simpl. eauto.
    + exists [("Title", JStr "C"); ("Summary", JStr EmptyString);
              ("Sentiment", JStr "Negative");
              ("Sentiment_Score", JNum (Qc_of_Z 2));
              ("Topics", JArr []);
              ("Sentiment_Indicators", JArr [])]%string, "Negative"%string,
        [].
      split; [reflexivity|]. split; [reflexivity|].
      split; [unfold three_labels; repeat constructor|]. split; [reflexivity|].
      simpl. eauto.
  - exact Hs.
  - unfold three_labels. intros Hin.
    repeat (apply elem_of_cons in Hin as [Hin|Hin]; [discriminate|]).
    inversion Hin.
Defined.

(** X23, on the answer for a company when every request gets an empty
    object as its reply and the file system works. *)
Lemma dashboard_misses_analyze_results_witness :
  let E := scripted [] in
  let W := demo_web in
  let Hst := failing (fun _ => false) in
  let P := demo_pickler in
  let F := demo_framework in
  exists body s',
    Api.analyze_company true "Acme" empty_server = Some (Api.Ok body, s')
    /\ Dashboard.final_sentiment_shown body = Return (JStr "No analysis available")
    /\ exists m final_sentiment,
         body = JObj m
         /\ dict_get "Final Sentiment Analysis" m = Some final_sentiment.
Proof.
  intros E W Hst P F.
  assert (answered_ok (Api.analyze_company true "Acme" empty_server) = true)
    as Hok by (vm_compute; reflexivity).
  destruct (answered_ok_inv _ Hok) as (body & s' & Hrun).
  exists body, s'. split; [exact Hrun|].
  destruct (dashboard_misses_analyze_results "Acme" empty_server s' body Hrun)
    as [(m & final & Hbody & Hfinal & Hshown & _) _].
  split; [exact Hshown|]. exists m, final. split; [exact Hbody|exact Hfinal].
Defined.
